(* ===== verification/_CoqProject ===== *)
-Q . S2P
Prelude.v
JsValue.v
Fixtures.v
ResolveRef.v
Extractor.v
Hereditary.v
Analyzer.v
Termination.v
Shaped.v
Spec.v
Stateful.v
Invariant.v
Scenarios.v
Blowup.v
Pipeline.v
Success.v
Typing.v
Wf.v
Table.v
Dashboard.v
Uploader.v
View.v
App.v
Screen.v
Journey.v
