(* ===== verification/Prelude.v ===== *)
(** * api-insights: a verification development for the OpenAPI analyzer

    ** The program

    [src/src/lib/openapi-parser.ts] takes the text of an OpenAPI or
    Swagger document and computes, for every operation the document
    declares, the field count and the nesting depth of its request schema
    and of its response schema.  It has five functions:
    - [resolveRef] walks a reference pointer through the document;
    - [analyzeSchema] is the recursive walk over a schema: references with
      cycle detection, [allOf], [oneOf]/[anyOf], arrays, objects,
      primitives;
    - [getRequestSchema] and [getResponseSchema] find the two schemas of an
      operation;
    - [parseOpenAPI] decodes the text ([JSON.parse], then [yaml.load]),
      checks the [openapi]/[swagger] marker, loops over paths and methods
      and builds the report.
    The React components around it hand over the text of a file
    ([src/src/components/FileUploader.tsx]), run the pipeline behind a
    timer and derive four figures from the report
    ([src/src/pages/Index.tsx]), and render the report
    ([AnalysisTable.tsx], [MethodBadge.tsx], [StatsCard.tsx]).

    ** The files

    - [Prelude] (this file): the outcome of a JavaScript computation
      ([result]: a value or an exception), its monad with the notation
      [let! x := c in k], loops that can throw ([foldM], [findM]), the
      approximation order [approx] that relates a run with little fuel to
      a run with more, the predicates [type_safe] (a result or a
      [TypeError], never [OutOfFuel]) and [avoids] (a run that does not
      end in a given error), the order on strings that
      [Array.prototype.sort] uses, shared lemmas on lists, and the hint
      database [fuel].
    - [JsValue]: the values of a decoded document ([json]) and the
      operations of the language the parser applies to them: truthiness,
      [a || b], [v[k]] and [v?.[k]] on objects, arrays and strings,
      [typeof], [Object.keys], [Object.values], [Object.entries],
      [for ... of], [find], [sort]; and the two measures of the
      termination argument, [height] and [refs].
    - [Fixtures]: the schemas and documents of the examples.
    - [ResolveRef]: [resolveRef] with [replace] and [split].
    - [Extractor]: [getRequestSchema] and [getResponseSchema].
    - [Hereditary]: the class of the properties of a value that all its
      parts have, and the proof that everything the parser reads out of
      a document ([v[k]], [Object.values], [for ... of], [resolveRef],
      the two schemas of an operation) has such a property when the
      document has it.
    - [Analyzer]: [analyzeSchema], one definition per branch of the source
      function ([analyze_ref], [analyze_allOf], [analyze_oneOf],
      [analyze_array], [analyze_object] with [property_step] and
      [additional_step]), tied together by [analyze_body] and by the
      fuel-indexed fixpoint [analyzeSchema]; [analyze] is the call with
      the default arguments.
    - [Termination]: the fuel is enough and is not observable.
    - [Shaped]: the sets of schemas on which the analyzer does not throw
      ([schema_closed]), and the documents that give one
      ([well_shaped]).
    - [Spec]: the resolution rules of the specification as an inductive
      relation, [Analyzes], and the proof that the code implements them.
    - [Stateful]: [analyzeSchema] with its [Set] objects on a heap, as
      the source has them, and the proof that it returns what the
      by-value analyzer of [Analyzer] returns.
    - [Invariant]: what every result of the analyzer satisfies.
    - [Scenarios]: the scenarios of the specification, and the inputs on
      which the code and the specification part ways.
    - [Blowup]: a family of documents on which the field count and the
      number of [Set] objects allocated are exponential in the size of the
      document.
    - [Pipeline]: [parseOpenAPI], against the interface [Decoder] of the
      two decoders, and the list of the operations its loops reach.
    - [Success]: the documents for which [parseOpenAPI] returns a report.
    - [Typing]: the types the interfaces [EndpointAnalysis] and
      [OpenAPIAnalysis] declare, as a judgement on the values of a
      report, and the documents whose report has its type.
    - [Wf]: the well-formedness of decoded values (no key twice, keys in
      the order of [Object.keys]), the laws [DecoderLaws] of the
      decoders, and the proof that the sort of the success codes is the
      identity on decoded documents.
    - [Table]: what [AnalysisTable] renders (the column heads and, for
      each endpoint, a row with its React key, its delay, its badge and
      its cells) and what [MethodBadge] renders; what React makes of a
      value in braces ([renderable], [visible]) and of [v && <span>]
      ([guard_span]).
    - [Dashboard]: the state, the handlers and the derived figures of the
      page [Index], as a state machine over handler calls and timers.
    - [Uploader]: the extension check, the handlers and the reader
      callbacks of [FileUploader].
    - [View]: what [StatsCard], [FileUploader] and [Index] render, as
      functions from props and state to a record of the texts, numbers
      and alternatives of their markup.
    - [App]: the page composed with its file picker.
    - [Screen]: the events the rendered page lets happen, read off what
      [View] renders, the picker that leaves the screen and comes back,
      and the states the application can reach.
    - [Journey]: one upload, from the drop of a file to the page that is
      rendered when its timer has fired.

    ** How the model corresponds to the code

    Values.  [undefined] is [None : option json]; an object is the list of
    its own properties in enumeration order (array indices first, then
    the other keys as written); a string is its list of code
    units; a number is an integer (the code only tests numbers for
    truthiness).  Properties inherited from a prototype read as
    [undefined], except [length] of arrays and strings.  The keys the
    parser reads by name are not names of a prototype; the segments of a
    pointer can be, and a pointer that goes through one (such as
    [#/constructor], which is a function in JavaScript, or
    [#/constructor/caller], whose getter throws) is outside the model.

    Reference definitions.  Next to the translation of each function the
    development has closed forms that are not code: [object_result] and
    [contribution] (what the property loop adds up), [usable] and
    [schema_of_response] (where the scan of the responses stops),
    [operations] (the operations the two loops of [parseOpenAPI] reach)
    and the relation [Analyzes].  Each is tied to the code by a lemma
    ([analyze_object_results], [scan_responses_cons],
    [report_operations], [analyzeSchema_derivable]); the map of the
    manifest lists the translations only.

    Exceptions.  A function that can throw returns a [result].  The
    exceptions are the two [Error]s [parseOpenAPI] throws ([ParseFailure],
    [InvalidSpec]) and the [TypeError] of the runtime (reading a property
    of [null] or [undefined], calling a method a value does not have,
    iterating a value that is not iterable).  [OutOfFuel] is not an
    exception of the program: it is what the fuel-indexed analyzer
    answers when its fuel is too small.

    Recursion and fuel.  [analyzeSchema] recurses on what a reference
    resolves to, which is not a subterm of its argument.  The fixpoint
    takes fuel, the number of nested calls still allowed, and [analyze]
    supplies [fuel_for spec schema], which is
    [size (refs spec ∪ refs schema) * (height spec + 1) + height schema + 1]:
    a reference step uses up one reference string of the document that is
    not on the path yet, and between two reference steps the walk goes
    down in the tree by at least one level.  [Termination] proves that
    this fuel is always enough and that any fuel on which a run ends gives
    the same outcome, so every theorem about [analyze] is a theorem about
    the TypeScript function.

    The visited set.  The source threads one mutable [Set] along a path
    (the reference and array branches pass it on, every loop hands a copy
    to each branch).  [Analyzer] passes a value of type [gset string].
    [Stateful] has the sets on a heap, with [has], [add] and
    [new Set(visited)] as heap operations, and proves that the two
    analyzers agree on every input: no caller reads a set after a call
    that may have added to it, and a call changes no other set.

    The decoders.  [JSON.parse] and [yaml.load] are library code.  The
    pipeline is written against the class [Decoder]; its theorems hold for
    every instance, and the examples use a decoder that knows three texts.
    What is known of every value a decoder returns is the class
    [DecoderLaws] of [Wf]: the value is a finite tree of ordinary
    objects, so no object has a key twice and [Object.keys] lists the
    array indices first, in ascending order.

    Rendering.  A component is a function from its props and state to
    what it shows.  What it shows is a record: one field for every text
    or number the markup has in braces, for every alternative of a
    [? :] and for every element behind an [&&]; the fixed texts of
    [Index] are fields as well.  Class names, the layout and the one
    fixed text that is not ASCII are left out.  A number in a template
    literal is written in decimal ([index_key]).  A value of the document
    that the markup puts in braces stays a [json]: React shows a string
    or a number, shows nothing for a boolean or [null], and throws on an
    object ([renderable]); [renders] says that no value on the page is
    one React throws on.

    The page.  [world] is the state of [Index] (its three [useState]
    variables) with the timers that are pending and the toasts shown.  An
    event is a call of a handler or the firing of the oldest timer (all
    timers have the same delay).  In [Dashboard] and [App] what is on the
    screen does not restrict the events: every order of calls the browser
    can produce is a run, and the invariants hold on all runs.  [Screen]
    adds the restrictions: an event is [enabled] when the page [Index]
    renders offers it (a picker that is rendered and not inert, a "New
    File" button that is rendered) or the browser owes it (the answer of
    a reader, a timer).  A picker that leaves the screen loses its state;
    the readers it started still call [handleFileLoad] when they have
    read their file, and their [onerror] has no effect any more.
    [reachable] is the set of states under these rules; it shows which of
    the anomalies of the unrestricted model a user can really produce.

    ** What the theorems show

    - Functional behaviour, branch by branch: what [analyzeSchema] returns
      for a falsy schema, a reference on or off the path, an [allOf], a
      [oneOf]/[anyOf], an array and an object, as sums and maxima over the
      results of the sub-schemas; what [getRequestSchema] and
      [getResponseSchema] return; what [resolveRef] walks.
    - Termination: [analyze] and [parseOpenAPI] end on every input, with
      any reference cycle; the outcome does not depend on the fuel.
    - Refinement: [analyze] returns [r] exactly when the rules of the
      specification, read as the relation [Analyzes], assign [r]; the
      heap-based analyzer refines the by-value one.
    - Invariant: a result has depth [0] or at least the depth of its call,
      and a result with fields has a positive depth; everything the
      pipeline reads out of a decoded document is well formed.
    - Types: on a document whose nodes are shaped as schemas the analyzer
      does not throw; [parseOpenAPI] returns a report for every shaped
      document; the report has the types its interfaces declare exactly
      for the documents that have strings where the report copies from
      them.
    - Equivalence: the sort of the success codes changes nothing on a
      decoded document; permuting the branches of a composition changes
      nothing.
    - The report: one endpoint per declared operation, in document order
      and method order, each holding the analyses of the schemas found in
      the operation; the defaults of title and version.
    - Errors: which inputs give the parse error, the invalid-specification
      error and a [TypeError].
    - The page and the picker: the report shown was parsed from a file
      handed over; every file is answered by one toast once its timer has
      fired; only files with a valid extension reach the page; the rows
      of the table have distinct keys; the cards show the sums and
      maxima of the columns of the table; an accepted file ends on the
      rendered report, a rejected one on the picker and a toast; "New
      File" brings back a new picker, which is inert while a file is
      loading, and does not cancel a pending timer; a document with an
      object for a title is accepted and gives a page that cannot be
      rendered.
    - Bounds: the depth of a result is bounded by the size of the
      document; the field count and the work are not ([Blowup]): a chain
      of [n + 1] definitions, each an [allOf] of two references to the
      one before, counts [2 ^ n] fields and allocates [3 * 2 ^ n - 1]
      sets.
    - Divergences between the code and its specification, each as a
      theorem with the input that shows it.

    ** Bounds

    The only bound of the model is the fuel of [analyzeSchema] (see
    above), which [Termination] shows is never reached.  Counts and
    depths are natural numbers: the development does not model the
    rounding of JavaScript numbers above [2^53].  A call adds at most
    the number of keys of one object to a count, so a count reaches
    [2^53] only after about [2^53] calls divided by the size of the
    document ([Blowup] has documents of a few hundred values whose count
    is that large, and whose analysis takes as many calls).

    ** What is not modelled

    The class names and the layout of the markup; the text of error
    messages and toasts beyond their kind and their parts;
    floating-point numbers; names and texts that are not ASCII; the
    grammar of JSON and YAML (the decoders are an interface).  Documents
    are finite trees: the object graphs with cycles that [yaml.load]
    builds for recursive aliases, on which [analyzeSchema] does not
    terminate, and the dates and binary values of YAML are outside the
    model. *)

From Stdlib Require Import String Ascii List ZArith Lia.
From stdpp Require Import base tactics option list sets sorting.

(** ** Outcomes of JavaScript computations

    A JavaScript function either returns a value or throws.  The analyzer
    throws two [Error]s of its own and can trip over a [TypeError] of the
    runtime; [OutOfFuel] is the model's own outcome for a recursion that
    was given too little fuel (the termination theorems show it never
    happens with the fuel the pipeline supplies). *)

Inductive error : Type :=
| TypeError
| ParseFailure
| InvalidSpec
| OutOfFuel.

Inductive result (A : Type) : Type :=
| Ok (a : A)
| Err (e : error).

Arguments Ok {A} a.
Arguments Err {A} e.

#[export] Instance error_eq_dec : EqDecision error.
Proof. solve_decision. Defined.

#[export] Instance result_eq_dec `{EqDecision A} : EqDecision (result A).
Proof. solve_decision. Defined.

Definition rbind {A B : Type} (c : result A) (k : A -> result B) : result B :=
  match c with
  | Ok a => k a
  | Err e => Err e
  end.

Definition rmap {A B : Type} (f : A -> B) (c : result A) : result B :=
  rbind c (fun a => Ok (f a)).

Declare Scope result_scope.
Delimit Scope result_scope with result.
Bind Scope result_scope with result.

Notation "'let!' x ':=' c 'in' k" := (rbind c (fun x => k))
  (at level 10, x name, c at level 100, k at level 200) : result_scope.

Local Open Scope result_scope.

(** [foldM f l a]: a [for (const x of l)] loop whose body [f] updates the
    accumulator and may throw; the first exception aborts the loop. *)
Fixpoint foldM {A B : Type} (f : B -> A -> result B) (l : list A) (acc : B) : result B :=
  match l with
  | [] => Ok acc
  | x :: l' => let! acc' := f acc x in foldM f l' acc'
  end.

(** [obj[k]] on the list of an object's own properties: the first binding
    of [k]. *)
Fixpoint alist_lookup {A : Type} (k : string) (kvs : list (string * A)) : option A :=
  match kvs with
  | [] => None
  | (k', v) :: kvs' => if String.eqb k' k then Some v else alist_lookup k kvs'
  end.

(** [l.find(pred)] for a predicate that may throw: the first element on
    which [pred] holds; elements after it are not looked at. *)
Fixpoint findM {A : Type} (pred : A -> result bool) (l : list A) : result (option A) :=
  match l with
  | [] => Ok None
  | x :: l' =>
      let! b := pred x in
      if b then Ok (Some x) else findM pred l'
  end.

(** [throws c]: the computation raised a JavaScript exception. *)
Definition is_ok {A : Type} (c : result A) : bool :=
  match c with Ok _ => true | Err _ => false end.

(** ** Association lists *)

Lemma alist_lookup_elem_of {A} k (kvs : list (string * A)) v :
  alist_lookup k kvs = Some v -> (k, v) ∈ kvs.
Proof.
  induction kvs as [|[k' v'] kvs IH]; simpl; [done|]. rewrite elem_of_cons.
  destruct (String.eqb_spec k' k) as [->|]; [intros [= ->]; by left | right; auto].
Qed.

Lemma alist_lookup_None {A} k (kvs : list (string * A)) :
  alist_lookup k kvs = None <-> k ∉ kvs.*1.
Proof.
  induction kvs as [|[k' v'] kvs IH]; simpl.
  { split; [intros _; apply not_elem_of_nil | done]. }
  rewrite not_elem_of_cons, <- IH.
  destruct (String.eqb_spec k' k) as [->|]; [|intuition congruence].
  split; [done | by intros []].
Qed.

Lemma alist_lookup_NoDup {A} k (kvs : list (string * A)) v :
  NoDup kvs.*1 -> (k, v) ∈ kvs -> alist_lookup k kvs = Some v.
Proof.
  induction kvs as [|[k' v'] kvs IH]; simpl; [by rewrite elem_of_nil|].
  rewrite NoDup_cons, elem_of_cons. intros [Hk Hnd] [[= -> ->]|Hin].
  - by rewrite String.eqb_refl.
  - destruct (String.eqb_spec k' k) as [->|]; [|auto].
    destruct Hk. apply list_elem_of_fmap. by exists (k, v).
Qed.

(** ** Maxima *)

Lemma max_list_fmap_le {A} (f : A -> nat) (l : list A) x :
  x ∈ l -> f x <= max_list (f <$> l).
Proof. intros Hx. apply max_list_elem_of_le, list_elem_of_fmap. eauto. Qed.

Lemma max_list_fmap_bound {A} (f : A -> nat) (l : list A) n :
  (forall x, x ∈ l -> f x <= n) -> max_list (f <$> l) <= n.
Proof.
  induction l as [|x l IH]; simpl; intros H; [lia|].
  apply Nat.max_lub; [apply H; by left | apply IH; intros; apply H; by right].
Qed.

(** ** Unions of families of sets *)

Lemma max_list_app (l k : list nat) :
  max_list (l ++ k) = Nat.max (max_list l) (max_list k).
Proof. induction l as [|x l IH]; simpl; [done|]. rewrite IH. lia. Qed.

Lemma union_list_subseteq `{SemiSet A C} (X : C) (Xs : list C) :
  X ∈ Xs -> X ⊆ ⋃ Xs.
Proof. intros HX x Hx. apply elem_of_union_list. eauto. Qed.

(** ** The result monad *)

Lemma rbind_ok {A B} (c : result A) (k : A -> result B) b :
  rbind c k = Ok b <-> exists a, c = Ok a /\ k a = Ok b.
Proof. destruct c; simpl; [naive_solver | split; [done | naive_solver]]. Qed.

Lemma rbind_err {A B} (c : result A) (k : A -> result B) e :
  rbind c k = Err e <-> c = Err e \/ exists a, c = Ok a /\ k a = Err e.
Proof. destruct c; simpl; naive_solver. Qed.

Lemma foldM_app {A B} (f : B -> A -> result B) l1 l2 acc :
  foldM f (l1 ++ l2) acc = (let! acc' := foldM f l1 acc in foldM f l2 acc').
Proof.
  revert acc; induction l1 as [|x l1 IH]; intros acc; simpl; [done|].
  destruct (f acc x); simpl; auto.
Qed.

Lemma foldM_invariant {A B} (I : B -> Prop) (f : B -> A -> result B) l acc r :
  I acc ->
  (forall acc x acc', x ∈ l -> I acc -> f acc x = Ok acc' -> I acc') ->
  foldM f l acc = Ok r -> I r.
Proof.
  revert acc; induction l as [|x l IH]; intros acc Hacc Hstep; simpl.
  - by intros [= <-].
  - destruct (f acc x) as [acc'|] eqn:E; simpl; [|done].
    apply IH; [eapply Hstep; [by left|done..] |].
    intros ?????. eapply Hstep; [by right|done..].
Qed.

Lemma foldM_ext {A B} (f f' : B -> A -> result B) l acc :
  (forall acc x, f acc x = f' acc x) -> foldM f l acc = foldM f' l acc.
Proof.
  intros Hf. revert acc; induction l as [|x l IH]; intros acc; simpl; [done|].
  rewrite Hf. destruct (f' acc x); simpl; auto.
Qed.

(** A loop whose body calls [g] on the element and folds the answer into
    the accumulator with a pure [h] computes a pure fold over the answers. *)
Lemma foldM_results {A B R} (g : A -> result R) (h : B -> A -> R -> B) l rs acc :
  Forall2 (fun x r => g x = Ok r) l rs ->
  foldM (fun acc x => rbind (g x) (fun r => Ok (h acc x r))) l acc
  = Ok (foldl (fun acc xr => h acc xr.1 xr.2) acc (zip l rs)).
Proof.
  intros Hrs. revert acc; induction Hrs as [|x r l rs Hx _ IH]; intros acc; simpl; [done|].
  rewrite Hx. simpl. apply IH.
Qed.

Lemma foldM_results_inv {A B R} (g : A -> result R) (h : B -> A -> R -> B) l acc b :
  foldM (fun acc x => rbind (g x) (fun r => Ok (h acc x r))) l acc = Ok b ->
  exists rs, Forall2 (fun x r => g x = Ok r) l rs.
Proof.
  revert acc; induction l as [|x l IH]; intros acc; simpl; [by exists []|].
  destruct (g x) as [r|] eqn:Hx; simpl; [|done].
  intros [rs Hrs]%IH. exists (r :: rs). by constructor.
Qed.

(** One case per element of a list that is written out: [H : x ∈ [a; b; c]]
    gives the goals for [x := a], [x := b] and [x := c]. *)
Ltac elem_of_cases H :=
  simpl in H; repeat (apply elem_of_cons in H as [->|H]); [..|by apply elem_of_nil in H].

(** Inversion of a successful sequence of binds. *)
Ltac inv_ok :=
  repeat match goal with
  | H : rbind _ _ = Ok _ |- _ =>
      let a := fresh "r" in let Ha := fresh "H" a in
      apply rbind_ok in H as (a & Ha & H)
  | H : Ok _ = Ok _ |- _ => injection H as H; try subst
  | H : Err _ = Ok _ |- _ => discriminate H
  end.

(** ** Fuel as an approximation order

    [approx c c']: [c] is [c'], or [c] stopped for lack of fuel.  More
    fuel can only move a computation up in this order. *)

Definition approx {A : Type} (c c' : result A) : Prop :=
  c = Err OutOfFuel \/ c = c'.

Definition terminates {A : Type} (c : result A) : Prop :=
  c <> Err OutOfFuel.

#[export] Instance approx_preorder {A} : PreOrder (@approx A).
Proof.
  split; [by right|]. intros c1 c2 c3 [->| ->] H; [by left | done].
Qed.

Lemma approx_terminates {A} (c c' : result A) :
  approx c c' -> terminates c -> c' = c.
Proof. by intros [->| ->] Hc. Qed.

Lemma approx_Ok {A} (c c' : result A) a : approx c c' -> c = Ok a -> c' = Ok a.
Proof. intros [->| ->]; congruence. Qed.

#[export] Instance rbind_approx {A B} :
  Proper (approx ==> pointwise_relation A approx ==> approx) (@rbind A B).
Proof.
  intros c c' [->| ->] k k' Hk; [by left|]. destruct c'; simpl; [apply Hk | by right].
Qed.

Lemma foldM_approx {A B} (f f' : B -> A -> result B) l acc :
  (forall acc x, approx (f acc x) (f' acc x)) ->
  approx (foldM f l acc) (foldM f' l acc).
Proof.
  intros Hf. revert acc; induction l as [|x l IH]; intros acc; simpl; [done|].
  apply rbind_approx; [apply Hf | exact IH].
Qed.

(** [type_safe c]: if [c] throws, it throws a [TypeError]; in particular
    it has not run out of fuel. *)
Definition type_safe {A : Type} (c : result A) : Prop :=
  forall e, c = Err e -> e = TypeError.

Lemma type_safe_Ok {A} (a : A) : type_safe (Ok a).
Proof. by intros e. Qed.

Lemma type_safe_TypeError {A} : type_safe (@Err A TypeError).
Proof. by intros e [= <-]. Qed.

Lemma type_safe_terminates {A} (c : result A) : type_safe c -> terminates c.
Proof. intros Hc Heq. by apply Hc in Heq. Qed.

Lemma type_safe_cases {A} (c : result A) :
  type_safe c -> (exists a, c = Ok a) \/ c = Err TypeError.
Proof. destruct c as [a|e]; intros Hc; [eauto | right; f_equal; by apply Hc]. Qed.

Lemma rbind_type_safe {A B} (c : result A) (k : A -> result B) :
  type_safe c -> (forall a, c = Ok a -> type_safe (k a)) -> type_safe (rbind c k).
Proof.
  destruct c as [a|e]; simpl; [intros _ Hk; by apply Hk|].
  intros Hc _ e' [= <-]. by apply Hc.
Qed.

Lemma foldM_type_safe {A B} (f : B -> A -> result B) l acc :
  (forall acc x, x ∈ l -> type_safe (f acc x)) -> type_safe (foldM f l acc).
Proof.
  revert acc; induction l as [|x l IH]; intros acc Hf; simpl; [done|].
  apply rbind_type_safe; [apply Hf; by left|].
  intros acc' _. apply IH. intros ???. apply Hf. by right.
Qed.

(** A computation that does not end in the error [e]: with [OutOfFuel]
    it terminates, with [TypeError] it does not throw. *)
Definition avoids {A : Type} (e : error) (c : result A) : Prop := c <> Err e.

Lemma rbind_avoids {A B} e (c : result A) (k : A -> result B) :
  avoids e c -> (forall a, c = Ok a -> avoids e (k a)) -> avoids e (rbind c k).
Proof.
  destruct c as [a|e']; simpl; [intros _ H; by apply H|].
  unfold avoids. intros H _. congruence.
Qed.

Lemma foldM_avoids {A B} e (f : B -> A -> result B) l acc :
  (forall acc x, x ∈ l -> avoids e (f acc x)) -> avoids e (foldM f l acc).
Proof.
  revert acc; induction l as [|x l IH]; intros acc Hf; simpl; [done|].
  apply rbind_avoids; [apply Hf; by left|].
  intros acc' _. apply IH. intros ???. apply Hf. by right.
Qed.

(** A computation that neither runs out of fuel nor throws returns. *)
Lemma avoids_Ok {A} (c : result A) :
  type_safe c -> avoids TypeError c -> exists a, c = Ok a.
Proof. intros [?| ->]%type_safe_cases Hc; [done | by destruct Hc]. Qed.

Lemma rbind_terminates {A B} (c : result A) (k : A -> result B) :
  terminates c -> (forall a, c = Ok a -> terminates (k a)) -> terminates (rbind c k).
Proof. apply rbind_avoids. Qed.

Lemma foldM_terminates {A B} (f : B -> A -> result B) l acc :
  (forall acc x, x ∈ l -> terminates (f acc x)) -> terminates (foldM f l acc).
Proof. apply foldM_avoids. Qed.

Lemma findM_avoids {A} e (pred : A -> result bool) l :
  (forall x, x ∈ l -> avoids e (pred x)) -> avoids e (findM pred l).
Proof.
  induction l as [|x l IH]; intros Hp; simpl; [done|].
  apply rbind_avoids; [apply Hp; by left|].
  intros [] _; [done|]. apply IH. intros ??. apply Hp. by right.
Qed.

Lemma findM_terminates {A} (pred : A -> result bool) l :
  (forall x, x ∈ l -> terminates (pred x)) -> terminates (findM pred l).
Proof. apply findM_avoids. Qed.

(** A computation that ends in no error returns. *)
Lemma avoids_all {A} (c : result A) : (forall e, avoids e c) -> exists a, c = Ok a.
Proof. destruct c as [a|e]; [eauto | intros H; by destruct (H e)]. Qed.

(** What [find] returns is an element the predicate accepts. *)
Lemma findM_elem_of {A} (pred : A -> result bool) l x :
  findM pred l = Ok (Some x) -> x ∈ l /\ pred x = Ok true.
Proof.
  induction l as [|y l IH]; simpl; [done|]. intros H.
  apply rbind_ok in H as ([] & Hy & H); [injection H as ->; split; [by left | done]|].
  destruct (IH H). split; [by right | done].
Qed.

Ltac safe_now := intros; first [apply type_safe_Ok | apply type_safe_TypeError].

Create HintDb fuel discriminated.
#[export] Hint Resolve rbind_terminates foldM_terminates : fuel.
#[export] Hint Resolve rbind_type_safe foldM_type_safe type_safe_terminates : fuel.
#[export] Hint Resolve type_safe_Ok type_safe_TypeError : fuel.

Lemma terminates_Ok {A} (a : A) : terminates (Ok a).
Proof. done. Qed.

Lemma terminates_Err {A} e : e <> OutOfFuel -> terminates (@Err A e).
Proof. intros He [= ->]. done. Qed.

#[export] Hint Resolve terminates_Ok : fuel.
#[export] Hint Extern 1 (terminates (Err _)) => (apply terminates_Err; discriminate) : fuel.
#[export] Hint Extern 1 (terminates (Ok _)) => discriminate : fuel.
#[export] Hint Extern 1 (terminates (Err TypeError)) => discriminate : fuel.
#[export] Hint Extern 1 (approx ?c ?c) => reflexivity : fuel.
#[export] Hint Resolve foldM_approx : fuel.

(** ** The order of strings

    [str_le] is the order of [Array.prototype.sort] without a comparator:
    strings compared code unit by code unit. *)

Definition str_le (a b : string) : Prop := String.leb a b = true.

#[export] Instance str_le_dec : RelDecision str_le.
Proof. intros a b. unfold str_le. apply _. Defined.

Lemma ascii_compare_refl a : Ascii.compare a a = Eq.
Proof. apply N.compare_refl. Qed.

Lemma ascii_compare_lt_trans a b c :
  Ascii.compare a b = Lt -> Ascii.compare b c = Lt -> Ascii.compare a c = Lt.
Proof. unfold Ascii.compare. rewrite !N.compare_lt_iff. apply N.lt_trans. Qed.

Lemma string_compare_refl s : String.compare s s = Eq.
Proof. induction s as [|c s IH]; simpl; [done|]. by rewrite ascii_compare_refl. Qed.

Lemma string_compare_lt_trans s1 s2 s3 :
  String.compare s1 s2 = Lt -> String.compare s2 s3 = Lt -> String.compare s1 s3 = Lt.
Proof.
  revert s2 s3; induction s1 as [|a s1 IH]; intros [|b s2] [|c s3]; simpl; try done.
  destruct (Ascii.compare a b) eqn:Eab; [|intros _|done];
    (destruct (Ascii.compare b c) eqn:Ebc; [| |done]).
  - apply Ascii.compare_eq_iff in Eab as ->. rewrite Ebc. apply IH.
  - apply Ascii.compare_eq_iff in Eab as ->. by rewrite Ebc.
  - apply Ascii.compare_eq_iff in Ebc as <-. by rewrite Eab.
  - by rewrite (ascii_compare_lt_trans a b c).
Qed.

Lemma str_le_alt a b : str_le a b <-> String.compare a b = Lt \/ a = b.
Proof.
  unfold str_le, String.leb. split.
  - destruct (String.compare a b) eqn:E; [|auto|done].
    apply String.compare_eq_iff in E. auto.
  - intros [->| ->]; [done|]. by rewrite string_compare_refl.
Qed.

#[export] Instance str_le_refl : Reflexive str_le.
Proof. intros a. apply str_le_alt. by right. Qed.

#[export] Instance str_le_trans : Transitive str_le.
Proof.
  intros a b c. rewrite !str_le_alt. intros [Hab| ->] [Hbc| ->]; auto.
  left. by eapply string_compare_lt_trans.
Qed.

#[export] Instance str_le_total : Total str_le.
Proof. intros a b. apply String.leb_total. Qed.

#[export] Instance str_le_antisym : AntiSymm (=) str_le.
Proof. intros a b. apply String.leb_antisym. Qed.

(** ** Strings *)

Lemma string_app_assoc (s t u : string) : ((s ++ t) ++ u = s ++ (t ++ u))%string.
Proof. induction s as [|c s IH]; simpl; [done | by rewrite IH]. Qed.

(** ** Loops that append

    A loop whose body appends to the accumulator: the result is the
    initial accumulator followed by what each element contributes,
    with a relation between what is appended and what the element
    stands for. *)
Lemma foldM_extends {A B C} (f : list B -> A -> result (list B))
    (R : B -> C -> Prop) (h : A -> list C) l acc r :
  (forall acc x acc', x ∈ l -> f acc x = Ok acc' ->
     exists new, acc' = acc ++ new /\ Forall2 R new (h x)) ->
  foldM f l acc = Ok r -> exists new, r = acc ++ new /\ Forall2 R new (l ≫= h).
Proof.
  revert acc; induction l as [|x l IH]; intros acc Hf; simpl.
  - intros [= <-]. exists []. by rewrite app_nil_r.
  - intros H. apply rbind_ok in H as (acc' & Hx & H).
    destruct (Hf acc x acc') as (new & -> & Hnew); [by left|done|].
    destruct (IH (acc ++ new)) as (new' & -> & Hnew'); [|done|].
    { intros. eapply Hf; [by right|done]. }
    exists (new ++ new'). split; [by rewrite app_assoc | by apply Forall2_app].
Qed.

(** ** Reductions

    [l.reduce((s, x) => s + f(x), a)] and [l.reduce((m, x) =>
    Math.max(m, f(x)), a)] as sums and maxima. *)
Lemma fold_left_sum {A} (f : A -> nat) (l : list A) a :
  fold_left (fun s x => s + f x) l a = a + sum_list (f <$> l).
Proof.
  revert a; induction l as [|x l IH]; intros a; csimpl; [lia|]. rewrite IH. lia.
Qed.

Lemma fold_left_max {A} (f : A -> nat) (l : list A) a :
  fold_left (fun m x => Nat.max m (f x)) l a = Nat.max a (max_list (f <$> l)).
Proof.
  revert a; induction l as [|x l IH]; intros a; csimpl; [lia|]. rewrite IH. lia.
Qed.
