(* ===== verification/JsValue.v ===== *)
(** The JavaScript values the analyzer reads.

    [JSON.parse] and [yaml.load] return a tree of objects, arrays, strings,
    numbers, booleans and [null]; the analyzer only reads it.  This file
    holds the tree ([json]), the language primitives the source applies to
    it (truthiness, [v[k]], [v?.[k]], [a || b], [===] against a string
    literal, [typeof v === 'object'], [Object.keys/values/entries],
    [for ... of]), and the two measures the termination argument needs
    ([height], [refs]).

    Conventions.
    - [undefined] is [None : option json]; every other value is [Some j].
    - An object is the list of its own enumerable properties in the order
      JavaScript enumerates them: the keys that are array indices first,
      in ascending order, then the other keys in the order they were
      written.  [unique_keys] says no key occurs twice, which every
      decoded document satisfies.  No theorem assumes an order of the
      keys: what is proved holds of every list.  Inherited properties
      ([constructor], [toString], ...) read as [undefined]: none of the
      keys the source names is one, and a reference that walks into one
      reaches no schema keyword.
    - A string is a sequence of code units, one [ascii] each.
    - A number is an integer; only its truthiness is ever observed, so a
      fraction is any non-zero integer and [NaN] is [0]. *)

From Stdlib Require Import String Ascii List ZArith Lia DecimalString DecimalNat Decimal.
From stdpp Require Import base tactics option list strings gmap sorting.
From S2P Require Import Prelude.

#[local] Open Scope string_scope.

#[warnings="-register-all"]
Inductive json : Type :=
| JNull
| JBool (b : bool)
| JNum (n : Z)
| JStr (s : string)
| JArr (l : list json)
| JObj (kvs : list (string * json)).

(** ** Truthiness, [||], [===], [typeof] *)

Definition truthy_json (j : json) : bool :=
  match j with
  | JNull => false
  | JBool b => b
  | JNum n => negb (n =? 0)%Z
  | JStr s => negb (String.eqb s "")
  | JArr _ | JObj _ => true
  end.

Definition truthy (v : option json) : bool :=
  match v with
  | None => false
  | Some j => truthy_json j
  end.

(** [a || b] *)
Definition js_or (a b : option json) : option json :=
  if truthy a then a else b.

(** [a || d] for a default [d] that is truthy: never [undefined]. *)
Definition js_or_default (a : option json) (d : json) : json :=
  match a with
  | Some j => if truthy_json j then j else d
  | None => d
  end.

(** [v === 'lit'] *)
Definition is_str (v : option json) (lit : string) : bool :=
  match v with
  | Some (JStr s) => String.eqb s lit
  | _ => false
  end.

(** [typeof v === 'object']: objects, arrays and [null]. *)
Definition typeof_object (v : option json) : bool :=
  match v with
  | Some (JObj _) | Some (JArr _) | Some JNull => true
  | _ => false
  end.

(** ** Array indices as property keys

    [index_key i] is the canonical decimal string of [i]; [parse_index k]
    recognises exactly those strings ("7" but neither "07" nor ""). *)

Definition index_key (i : nat) : string :=
  NilEmpty.string_of_uint (Nat.to_uint i).

Definition parse_index (k : string) : option nat :=
  match NilEmpty.uint_of_string k with
  | Some d =>
      let i := Nat.of_uint d in
      if String.eqb (index_key i) k then Some i else None
  | None => None
  end.

(** The code units of a string, each as a one-character string value. *)
Definition chars (s : string) : list json :=
  (fun c => JStr (String c EmptyString)) <$> list_ascii_of_string s.

(** ** Property access *)

(** Indexed values (arrays, strings): an index key or ["length"]. *)
Definition get_indexed (l : list json) (k : string) : option json :=
  match parse_index k with
  | Some i => l !! i
  | None => if String.eqb k "length" then Some (JNum (Z.of_nat (length l))) else None
  end.

(** [j[k]] for a [j] that is not [null]: the source only writes [v.k] on a
    value it has tested for truthiness, or through [?.]; the two places
    where the receiver can be [null] go through [get_prop_strict]. *)
Definition get_prop (j : json) (k : string) : option json :=
  match j with
  | JObj kvs => alist_lookup k kvs
  | JArr l => get_indexed l k
  | JStr s => get_indexed (chars s) k
  | JNull | JBool _ | JNum _ => None
  end.

(** [v?.[k]] *)
Definition opt_get (v : option json) (k : string) : option json :=
  match v with
  | Some j => get_prop j k
  | None => None
  end.

(** [v.k] where [v] may be [null] or [undefined]: a [TypeError] then. *)
Definition get_prop_strict (v : option json) (k : string) : result (option json) :=
  match v with
  | None | Some JNull => Err TypeError
  | Some j => Ok (get_prop j k)
  end.

(** ** Enumeration *)

Definition index_keys {A : Type} (l : list A) : list string :=
  index_key <$> seq 0 (length l).

(** [Object.keys(j)] *)
Definition object_keys (j : json) : list string :=
  match j with
  | JObj kvs => kvs.*1
  | JArr l => index_keys l
  | JStr s => index_keys (chars s)
  | JNull | JBool _ | JNum _ => []
  end.

(** [Object.values(j)] *)
Definition object_values (j : json) : list json :=
  match j with
  | JObj kvs => kvs.*2
  | JArr l => l
  | JStr s => chars s
  | JNull | JBool _ | JNum _ => []
  end.

(** [Object.entries(j)] *)
Definition object_entries (j : json) : list (string * json) :=
  match j with
  | JObj kvs => kvs
  | JArr l => zip (index_keys l) l
  | JStr s => zip (index_keys (chars s)) (chars s)
  | JNull | JBool _ | JNum _ => []
  end.

(** [for (const x of v)]: arrays and strings are iterable, nothing else
    a decoder returns is. *)
Definition js_iterate (v : option json) : result (list json) :=
  match v with
  | Some (JArr l) => Ok l
  | Some (JStr s) => Ok (chars s)
  | _ => Err TypeError
  end.

(** [v.find(pred)]: only arrays have the method. *)
Definition array_find (pred : json -> result bool) (v : option json)
  : result (option json) :=
  match v with
  | Some (JArr l) => findM pred l
  | _ => Err TypeError
  end.

(** [l.sort()] on strings, without a comparator: the order of code
    units.  The sorted permutation of a list is unique, so the algorithm
    does not matter. *)
Definition js_sort (l : list string) : list string := merge_sort str_le l.

(** ** Well-formedness and measures *)

(** No object of the tree has the same key twice. *)
Fixpoint unique_keys (j : json) : bool :=
  match j with
  | JArr l => forallb unique_keys l
  | JObj kvs =>
      bool_decide (NoDup kvs.*1) && forallb (fun '(_, v) => unique_keys v) kvs
  | _ => true
  end.

(** Nesting height: [0] for scalars and empty containers. *)
Fixpoint height (j : json) : nat :=
  match j with
  | JArr l => max_list ((fun x => S (height x)) <$> l)
  | JObj kvs => max_list ((fun '(_, v) => S (height v)) <$> kvs)
  | _ => 0
  end.

(** The reference pointers of a tree: the strings some object of it holds
    under its ["$ref"] key. *)
Definition own_ref (kvs : list (string * json)) : gset string :=
  match alist_lookup "$ref" kvs with
  | Some (JStr r) => {[ r ]}
  | _ => ∅
  end.

Fixpoint refs (j : json) : gset string :=
  match j with
  | JArr l => ⋃ (refs <$> l)
  | JObj kvs => own_ref kvs ∪ ⋃ ((fun '(_, v) => refs v) <$> kvs)
  | _ => ∅
  end.

Definition refs_opt (v : option json) : gset string :=
  match v with Some j => refs j | None => ∅ end.

Definition height_opt (v : option json) : nat :=
  match v with Some j => height j | None => 0 end.

(** * Lemmas *)

(** ** Induction on the tree, with hypotheses for the nested values *)

Section json_induction.
Variable P : json -> Prop.
Hypothesis Hnull : P JNull.
Hypothesis Hbool : forall b, P (JBool b).
Hypothesis Hnum : forall n, P (JNum n).
Hypothesis Hstr : forall s, P (JStr s).
Hypothesis Harr : forall l, Forall P l -> P (JArr l).
Hypothesis Hobj : forall kvs, Forall (fun kv => P kv.2) kvs -> P (JObj kvs).

Fixpoint json_nested_ind (j : json) : P j :=
  match j with
  | JNull => Hnull
  | JBool b => Hbool b
  | JNum n => Hnum n
  | JStr s => Hstr s
  | JArr l =>
      Harr l (list_ind (Forall P) (Forall_nil_2 P)
                (fun x _ IH => Forall_cons_2 P x _ (json_nested_ind x) IH) l)
  | JObj kvs =>
      Hobj kvs (list_ind (Forall (fun kv => P kv.2)) (Forall_nil_2 _)
                  (fun kv _ IH => Forall_cons_2 (fun kv => P kv.2) kv _
                                    (json_nested_ind kv.2) IH) kvs)
  end.
End json_induction.

(** ** Truthiness *)

Lemma truthy_Some v : truthy v = true -> exists j, v = Some j /\ truthy_json j = true.
Proof. destruct v; simpl; [eauto | done]. Qed.

Lemma js_or_truthy a b : truthy (js_or a b) = truthy a || truthy b.
Proof. unfold js_or. by destruct (truthy a) eqn:E; simpl; [rewrite E|]. Qed.

Lemma js_or_cases a b :
  truthy a || truthy b = true ->
  (js_or a b = a /\ truthy a = true) \/ (js_or a b = b /\ truthy b = true).
Proof. unfold js_or. destruct (truthy a); simpl; auto. Qed.

Lemma js_or_default_cases a d :
  (truthy a = true /\ a = Some (js_or_default a d))
  \/ (truthy a = false /\ js_or_default a d = d).
Proof. destruct a as [j|]; simpl; [destruct (truthy_json j) eqn:E|]; auto. Qed.

Lemma is_str_eq v lit : is_str v lit = true <-> v = Some (JStr lit).
Proof.
  destruct v as [[]|]; simpl; try (split; [done | congruence]).
  destruct (String.eqb_spec s lit); split; congruence.
Qed.

(** ** Index keys *)

Lemma parse_index_key i : parse_index (index_key i) = Some i.
Proof.
  unfold parse_index, index_key.
  by rewrite NilEmpty.usu, Unsigned.of_to, String.eqb_refl.
Qed.

Lemma parse_index_Some k i : parse_index k = Some i -> index_key i = k.
Proof.
  unfold parse_index. destruct (NilEmpty.uint_of_string k); [|done].
  destruct (String.eqb_spec (index_key (Nat.of_uint u)) k); congruence.
Qed.

#[export] Instance index_key_inj : Inj (=) (=) index_key.
Proof.
  intros i j Hij. apply (f_equal parse_index) in Hij.
  rewrite !parse_index_key in Hij. congruence.
Qed.

Lemma get_indexed_key l i : get_indexed l (index_key i) = l !! i.
Proof. unfold get_indexed. by rewrite parse_index_key. Qed.

Lemma get_indexed_Some l k v :
  get_indexed l k = Some v -> v ∈ l \/ v = JNum (Z.of_nat (length l)).
Proof.
  unfold get_indexed. destruct (parse_index k).
  - intros H. left. by eapply list_elem_of_lookup_2.
  - destruct (String.eqb k "length"); [intros [= <-]; by right | done].
Qed.

Lemma chars_leaf s x : x ∈ chars s -> exists c, x = JStr (String c EmptyString).
Proof. unfold chars. rewrite list_elem_of_fmap. naive_solver. Qed.

(** ** Enumeration and access agree *)

Lemma index_keys_lookup {A} (l : list A) i k :
  index_keys l !! i = Some k -> k = index_key i /\ i < length l.
Proof.
  unfold index_keys. rewrite list_lookup_fmap.
  destruct (seq 0 (length l) !! i) as [n|] eqn:E; simpl; [|done].
  apply lookup_seq in E as [-> ?]. by intros [= <-].
Qed.

Lemma elem_of_indexed_entries (l : list json) k v :
  (k, v) ∈ zip (index_keys l) l -> get_indexed l k = Some v.
Proof.
  intros [i Hi]%list_elem_of_lookup.
  apply lookup_zip_with_Some in Hi as (k' & v' & [= -> ->] & Hk & Hv).
  apply index_keys_lookup in Hk as [-> _]. by rewrite get_indexed_key.
Qed.

(** What [Object.entries] enumerates is what property access reads:
    on a value whose keys are distinct, every enumerated pair [(k, v)]
    satisfies [value[k] = v]. *)
Theorem entries_get_prop j k v :
  NoDup (object_keys j) -> (k, v) ∈ object_entries j -> get_prop j k = Some v.
Proof.
  destruct j; simpl; try (by intros _ ?%elem_of_nil);
    [intros _ | intros _ | apply alist_lookup_NoDup]; apply elem_of_indexed_entries.
Qed.

Lemma entries_get_prop_witness :
  get_prop (JObj [("a", JNum 1); ("b", JArr [JNull])]) "b" = Some (JArr [JNull]).
Proof. apply entries_get_prop; [compute_done | by apply (list_elem_of_lookup_2 _ 1)]. Defined.

(** ** What a property access can return *)

Lemma get_prop_obj_elem_of kvs k v : get_prop (JObj kvs) k = Some v -> (k, v) ∈ kvs.
Proof. apply alist_lookup_elem_of. Qed.

Lemma height_elem_arr l x : x ∈ l -> height x < height (JArr l).
Proof. intros Hx. simpl. apply (max_list_fmap_le (fun x => S (height x))), Hx. Qed.

Lemma height_elem_obj kvs k v : (k, v) ∈ kvs -> height v < height (JObj kvs).
Proof.
  intros Hx. simpl.
  apply (max_list_fmap_le (fun '(_, v) => S (height v)) kvs (k, v)), Hx.
Qed.

Lemma refs_elem_arr l x : x ∈ l -> refs x ⊆ refs (JArr l).
Proof. intros Hx. simpl. apply union_list_subseteq, list_elem_of_fmap. eauto. Qed.

Lemma refs_elem_obj kvs k v : (k, v) ∈ kvs -> refs v ⊆ refs (JObj kvs).
Proof.
  intros Hx. simpl. apply union_subseteq_r', union_list_subseteq.
  apply list_elem_of_fmap. by exists (k, v).
Qed.

(** A property of an object lies strictly below it. *)
Lemma get_prop_obj_height kvs k v :
  get_prop (JObj kvs) k = Some v -> height v < height (JObj kvs).
Proof. intros H. eapply height_elem_obj, get_prop_obj_elem_of, H. Qed.

(** Whatever the receiver, a property is no higher than it and mentions
    no reference the receiver does not. *)
Lemma get_prop_height j k v : get_prop j k = Some v -> height v <= height j.
Proof.
  destruct j; simpl; try done.
  - intros [[c ->]%chars_leaf| ->]%get_indexed_Some; simpl; lia.
  - intros [Hin| ->]%get_indexed_Some; [apply Nat.lt_le_incl, height_elem_arr, Hin | simpl; lia].
  - intros H. apply Nat.lt_le_incl. by eapply get_prop_obj_height.
Qed.

Lemma get_prop_refs j k v : get_prop j k = Some v -> refs v ⊆ refs j.
Proof.
  destruct j; simpl; try done.
  - intros [[c ->]%chars_leaf| ->]%get_indexed_Some; set_solver.
  - intros [Hin| ->]%get_indexed_Some; [by apply refs_elem_arr | set_solver].
  - intros H%alist_lookup_elem_of. by eapply refs_elem_obj.
Qed.

Lemma opt_get_height v k : height_opt (opt_get v k) <= height_opt v.
Proof.
  destruct v as [j|]; simpl; [|lia].
  destruct (get_prop j k) eqn:E; simpl; [by eapply get_prop_height | lia].
Qed.

Lemma opt_get_refs v k : refs_opt (opt_get v k) ⊆ refs_opt v.
Proof.
  destruct v as [j|]; simpl; [|done].
  destruct (get_prop j k) eqn:E; simpl; [by eapply get_prop_refs | set_solver].
Qed.

Lemma own_ref_elem_of kvs r :
  get_prop (JObj kvs) "$ref" = Some (JStr r) -> r ∈ refs (JObj kvs).
Proof. simpl. unfold own_ref. intros ->. set_solver. Qed.

(** The items of an iteration are no higher than the iterated value. *)
Lemma js_iterate_height v l x :
  js_iterate v = Ok l -> x ∈ l -> height x <= height_opt v.
Proof.
  destruct v as [[]|]; simpl; try done; intros [= <-] Hin.
  - destruct (chars_leaf _ _ Hin) as [c ->]. simpl. lia.
  - by apply Nat.lt_le_incl, height_elem_arr.
Qed.

Lemma js_iterate_refs v l x :
  js_iterate v = Ok l -> x ∈ l -> refs x ⊆ refs_opt v.
Proof.
  destruct v as [[]|]; simpl; try done; intros [= <-] Hin.
  - destruct (chars_leaf _ _ Hin) as [c ->]. set_solver.
  - by apply refs_elem_arr.
Qed.

(** ** Schema keywords

    A keyword is a property name that is neither an array index nor
    ["length"]: only an object can have it. *)

Definition keyword (k : string) : Prop :=
  parse_index k = None /\ k <> "length".

Lemma get_prop_keyword j k v :
  keyword k -> get_prop j k = Some v -> exists kvs, j = JObj kvs.
Proof.
  intros [Hidx Hlen]. destruct j; simpl; try done; [| |by eauto];
    unfold get_indexed; rewrite Hidx;
    by destruct (String.eqb_spec k "length").
Qed.

Lemma keyword_height j k v : keyword k -> get_prop j k = Some v -> height v < height j.
Proof.
  intros Hk Hv. destruct (get_prop_keyword _ _ _ Hk Hv) as [kvs ->].
  by eapply get_prop_obj_height.
Qed.

(** The keys the source names are closed strings, so [keyword k] is
    decided by computation. *)
Ltac solve_keyword := split; [reflexivity | discriminate].

Lemma keyword_ref j r : get_prop j "$ref" = Some (JStr r) -> r ∈ refs j.
Proof.
  intros Hv. assert (keyword "$ref") as Hk by solve_keyword.
  destruct (get_prop_keyword _ _ _ Hk Hv) as [kvs ->]. by apply own_ref_elem_of.
Qed.

(** ** Sub-schemas

    [below j sub]: [sub] is strictly lower than [j] and mentions only
    references of [j].  Every schema the analyzer descends into is below
    the schema it came from. *)

Definition below (j : json) (sub : option json) : Prop :=
  height_opt sub < height j /\ refs_opt sub ⊆ refs j.

Lemma below_keyword j k v : keyword k -> get_prop j k = Some v -> below j (Some v).
Proof. intros Hk Hv. split; [by eapply keyword_height | by eapply get_prop_refs]. Qed.

Lemma below_truthy_keyword j k :
  keyword k -> truthy (get_prop j k) = true -> below j (get_prop j k).
Proof.
  intros Hk [v [Hv _]]%truthy_Some. rewrite Hv. by eapply below_keyword.
Qed.

Lemma below_iterate j v subs sub :
  below j v -> js_iterate v = Ok subs -> sub ∈ subs -> below j (Some sub).
Proof.
  intros [Hh Hr] Hit Hin. split; simpl.
  - eapply Nat.le_lt_trans; [by eapply js_iterate_height | done].
  - etrans; [by eapply js_iterate_refs | done].
Qed.

Lemma below_prop j p k : below j (Some p) -> below j (get_prop p k).
Proof.
  intros [Hh Hr]. split.
  - eapply Nat.le_lt_trans; [apply (opt_get_height (Some p)) | done].
  - etrans; [apply (opt_get_refs (Some p)) | done].
Qed.
