(* ===== verification/Fixtures.v ===== *)
(** Concrete schemas and documents: the inputs of the scenarios and of the
    witnesses.  Nothing here models code. *)

From Stdlib Require Import String Ascii List ZArith.
From stdpp Require Import base list strings.
From S2P Require Import Prelude JsValue.

#[local] Open Scope string_scope.
#[local] Open Scope list_scope.

(** ** Schema builders *)

Definition string_schema : json := JObj [("type", JStr "string")].

Definition object_schema (properties : list (string * json)) : json :=
  JObj [("type", JStr "object"); ("properties", JObj properties)].

Definition array_schema (items : json) : json :=
  JObj [("type", JStr "array"); ("items", items)].

Definition ref_schema (pointer : string) : json := JObj [("$ref", JStr pointer)].

Definition allOf_schema (branches : list json) : json := JObj [("allOf", JArr branches)].

Definition oneOf_schema (branches : list json) : json := JObj [("oneOf", JArr branches)].

(** ** Schemas *)

(** [{a: string, b: string}] *)
Definition flat_object : json :=
  object_schema [("a", string_schema); ("b", string_schema)].

(** [{a: {x: string}}] *)
Definition nested_object : json :=
  object_schema [("a", object_schema [("x", string_schema)])].

(** ** Documents *)

Definition empty_doc : json := JObj [].

(** A document whose schema [Node] is a reference to itself. *)
Definition self_doc : json :=
  JObj [("components", JObj [("schemas", JObj [
    ("Node", ref_schema "#/components/schemas/Node")])])].

(** A document with a recursive [Tree] (a value and an array of trees)
    and a [Pair] of two trees. *)
Definition tree_doc : json :=
  JObj [("definitions", JObj [
    ("Tree", object_schema [
       ("value", string_schema);
       ("children", array_schema (ref_schema "#/definitions/Tree"))]);
    ("Pair", allOf_schema [ref_schema "#/definitions/Tree";
                           ref_schema "#/definitions/Tree"])])].

Definition json_content (schema : json) : json :=
  JObj [("content", JObj [("application/json", JObj [("schema", schema)])])].

(** [GET /items] answers an array of strings; [POST /items] takes a flat
    object. *)
Definition items_get : json :=
  JObj [("responses", JObj [("200", json_content (array_schema string_schema))])].

Definition items_post : json :=
  JObj [("operationId", JStr "createItem");
        ("requestBody", json_content flat_object);
        ("responses", JObj [("201", json_content nested_object); ("404", JObj [])])].

Definition items_doc : json :=
  JObj [("openapi", JStr "3.0.0");
        ("paths", JObj [("/items", JObj [("post", items_post); ("get", items_get)])])].

(** A Swagger 2 operation: the body is a parameter, the response has a
    direct [schema]. *)
Definition legacy_operation : json :=
  JObj [("parameters", JArr [JObj [("in", JStr "query"); ("name", JStr "q")];
                             JObj [("in", JStr "body"); ("schema", flat_object)]]);
        ("responses", JObj [("200", JObj [("schema", nested_object)])])].

(** The first success response has a [content] without a schema, the
    second one has a schema. *)
Definition two_responses : json :=
  JObj [("responses", JObj [
    ("200", JObj [("content", JObj [("text/plain", JObj [])])]);
    ("201", json_content flat_object)])].
