(* ===== verification/ResolveRef.v ===== *)
(** The reference resolver: [resolveRef] of [src/src/lib/openapi-parser.ts]
    and the two string methods it calls, [String.prototype.replace] with a
    string pattern and [String.prototype.split] with a one-character
    separator. *)

From Stdlib Require Import String Ascii List ZArith Lia.
From stdpp Require Import base tactics option list strings gmap.
From S2P Require Import Prelude JsValue Fixtures.

#[local] Open Scope string_scope.

(** ** String methods *)

Fixpoint string_drop (n : nat) (s : string) : string :=
  match n, s with
  | S n', String _ s' => string_drop n' s'
  | _, _ => s
  end.

(** [s.replace(pat, rep)] with a string [pat]: the first occurrence only,
    wherever it is. *)
Fixpoint replace_first (pat rep s : string) : string :=
  if String.prefix pat s then rep +:+ string_drop (String.length pat) s
  else match s with
       | EmptyString => EmptyString
       | String c s' => String c (replace_first pat rep s')
       end.

(** [s.split(sep)] for a one-character [sep]: never empty, [""] splits
    into [[""]]. *)
Fixpoint split_on (sep : ascii) (s : string) : list string :=
  match s with
  | EmptyString => [EmptyString]
  | String c s' =>
      if Ascii.eqb c sep then EmptyString :: split_on sep s'
      else match split_on sep s' with
           | [] => [String c EmptyString]
           | p :: ps => String c p :: ps
           end
  end.

(** [parts.join(sep)] *)
Fixpoint join (sep : ascii) (parts : list string) : string :=
  match parts with
  | [] => EmptyString
  | [p] => p
  | p :: ps => p +:+ String sep (join sep ps)
  end.

Definition has_char (c : ascii) (s : string) : Prop := c ∈ list_ascii_of_string s.

#[export] Instance has_char_dec c s : Decision (has_char c s).
Proof. unfold has_char. apply _. Defined.

(** ** The resolver *)

(** The loop [for (const part of parts) result = result?.[part]]. *)
Definition walk (parts : list string) (start : option json) : option json :=
  fold_left opt_get parts start.

Definition resolveRef (spec : json) (ref : string) : option json :=
  let parts := split_on "/" (replace_first "#/" "" ref) in
  walk parts (Some spec).

(** * Lemmas *)

Lemma split_on_nonempty sep s : split_on sep s <> [].
Proof. destruct s as [|c s]; simpl; [done|]. by destruct (Ascii.eqb c sep), (split_on sep s). Qed.

Lemma split_on_no_sep sep s : ~ has_char sep s -> split_on sep s = [s].
Proof.
  unfold has_char. induction s as [|c s IH]; simpl; [done|].
  rewrite not_elem_of_cons. intros [Hc Hs].
  destruct (Ascii.eqb_spec c sep); [congruence|]. by rewrite IH.
Qed.

Lemma split_on_app sep p rest :
  ~ has_char sep p -> split_on sep (p +:+ String sep rest) = p :: split_on sep rest.
Proof.
  unfold has_char. induction p as [|c p IH]; simpl.
  - by rewrite Ascii.eqb_refl.
  - rewrite not_elem_of_cons. intros [Hc Hs].
    destruct (Ascii.eqb_spec c sep); [congruence|]. by rewrite IH.
Qed.

Lemma split_on_join_parts sep parts :
  parts <> [] -> Forall (fun p => ~ has_char sep p) parts ->
  split_on sep (join sep parts) = parts.
Proof.
  induction 2 as [|p ps Hp Hps IH]; [done|].
  destruct ps as [|q ps]; [by apply split_on_no_sep|].
  change (join sep (p :: q :: ps)) with (p +:+ String sep (join sep (q :: ps))).
  rewrite split_on_app by done. by rewrite IH.
Qed.

(** Joining the parts of a split gives the string back. *)
Lemma join_split_on sep s : join sep (split_on sep s) = s.
Proof.
  induction s as [|c s IH]; simpl; [done|].
  pose proof (split_on_nonempty sep s) as Hne.
  destruct (Ascii.eqb_spec c sep) as [->|].
  - destruct (split_on sep s) eqn:E; [done|]. simpl in *. by rewrite IH.
  - destruct (split_on sep s) as [|p [|q ps]] eqn:E; [done| |]; simpl in *; by rewrite <- IH.
Qed.

Lemma prefix_app pat t : String.prefix pat (pat +:+ t) = true.
Proof.
  induction pat as [|c pat IH]; simpl; [by destruct t|].
  destruct (ascii_dec c c); [done | congruence].
Qed.

Lemma string_drop_app pat t : string_drop (String.length pat) (pat +:+ t) = t.
Proof. induction pat as [|c pat IH]; [by destruct t | done]. Qed.

Lemma replace_first_unfold pat rep s :
  replace_first pat rep s =
  if String.prefix pat s then rep +:+ string_drop (String.length pat) s
  else match s with
       | EmptyString => EmptyString
       | String c s' => String c (replace_first pat rep s')
       end.
Proof. by destruct s. Qed.

Lemma replace_first_prefix pat rep t :
  replace_first pat rep (pat +:+ t) = rep +:+ t.
Proof.
  rewrite replace_first_unfold. by rewrite prefix_app, string_drop_app.
Qed.

Lemma walk_None parts : walk parts None = None.
Proof. induction parts; simpl; auto. Qed.

Lemma walk_app p1 p2 v : walk (p1 ++ p2) v = walk p2 (walk p1 v).
Proof. apply fold_left_app. Qed.

Lemma walk_height parts v : height_opt (walk parts v) <= height_opt v.
Proof.
  revert v; induction parts as [|p parts IH]; intros v; simpl; [lia|].
  etrans; [apply IH | apply opt_get_height].
Qed.

Lemma walk_refs parts v : refs_opt (walk parts v) ⊆ refs_opt v.
Proof.
  revert v; induction parts as [|p parts IH]; intros v; simpl; [done|].
  etrans; [apply IH | apply opt_get_refs].
Qed.

(** What a reference resolves to is no higher than the document and
    mentions only references of the document. *)
Lemma resolveRef_height spec ref : height_opt (resolveRef spec ref) <= height spec.
Proof. apply (walk_height _ (Some spec)). Qed.

Lemma resolveRef_refs spec ref : refs_opt (resolveRef spec ref) ⊆ refs spec.
Proof. apply (walk_refs _ (Some spec)). Qed.

Lemma resolveRef_join spec segs :
  segs <> [] -> Forall (fun p => ~ has_char "/" p) segs ->
  resolveRef spec ("#/" +:+ join "/" segs) = walk segs (Some spec).
Proof.
  intros Hne Hsegs. unfold resolveRef.
  rewrite (replace_first_prefix "#/" "").
  change ("" +:+ join "/" segs) with (join "/" segs). by rewrite split_on_join_parts.
Qed.

(** C26: a pointer [#/seg1/.../segn] resolves to the node reached by
    indexing the document with the segments in turn. *)
Theorem resolveRef_pointer spec segs :
  segs <> [] -> Forall (fun p => ~ has_char "/" p) segs ->
  resolveRef spec ("#/" +:+ join "/" segs) = walk segs (Some spec).
Proof. apply resolveRef_join. Qed.

Lemma resolveRef_pointer_witness :
  resolveRef tree_doc "#/definitions/Tree"
  = walk ["definitions"; "Tree"] (Some tree_doc).
Proof. apply (resolveRef_pointer tree_doc ["definitions"; "Tree"]); [discriminate | compute_done]. Defined.

(** As soon as one segment is missing the result is [undefined],
    whatever segments follow: the resolver never throws. *)
Theorem resolveRef_missing spec before k after j :
  Forall (fun p => ~ has_char "/" p) (before ++ k :: after) ->
  walk before (Some spec) = Some j -> get_prop j k = None ->
  resolveRef spec ("#/" +:+ join "/" (before ++ k :: after)) = None.
Proof.
  intros Hsegs Hj Hk. rewrite resolveRef_join by (done || by destruct before).
  rewrite walk_app, Hj. simpl. rewrite Hk. apply walk_None.
Qed.

Lemma resolveRef_missing_witness :
  resolveRef tree_doc "#/definitions/Forest/properties/trees" = None.
Proof.
  apply (resolveRef_missing tree_doc ["definitions"] "Forest" ["properties"; "trees"]
           (JObj [("Tree", object_schema [
                     ("value", string_schema);
                     ("children", array_schema (ref_schema "#/definitions/Tree"))]);
                  ("Pair", allOf_schema [ref_schema "#/definitions/Tree";
                                         ref_schema "#/definitions/Tree"])]));
    [compute_done | reflexivity | reflexivity].
Defined.

(** Pointer escapes are not decoded and a pointer is cut at every
    slash: the path ["/items"], written [~1items] as JSON Pointer asks or
    written raw, cannot be reached, and a pointer to the whole document
    ([#]) resolves to nothing. *)
Theorem pointers_are_raw_key_paths :
  let doc := JObj [("paths", JObj [("/items", items_get)])] in
  resolveRef doc "#/paths/~1items" = None
  /\ resolveRef doc "#/paths//items" = None
  /\ resolveRef doc "#" = None
  /\ walk ["paths"; "/items"] (Some doc) = Some items_get.
Proof. repeat split; reflexivity. Qed.
