(* ===== verification/Extractor.v ===== *)
(** The operation extractor's schema lookups: [getRequestSchema] and
    [getResponseSchema] of [src/src/lib/openapi-parser.ts]. *)

From Stdlib Require Import String Ascii List ZArith Lia.
From stdpp Require Import base tactics option list strings gmap sorting.
From S2P Require Import Prelude JsValue Fixtures.

#[local] Open Scope string_scope.
#[local] Open Scope list_scope.
#[local] Open Scope result_scope.

(** [content['application/json'] || content['*/*'] || Object.values(content)[0]] *)
Definition pick_media_type (content : option json) : option json :=
  js_or (js_or (opt_get content "application/json") (opt_get content "*/*"))
        (head (from_option object_values [] content)).

(** The predicate of [parameters.find]: [p.in === 'body'], which throws
    on a [null] parameter. *)
Definition is_body_param (p : json) : result bool :=
  let! pin := get_prop_strict (Some p) "in" in
  Ok (is_str pin "body").

(** The Swagger 2 half of [getRequestSchema]. *)
Definition body_parameter_schema (operation : json) : result (option json) :=
  let parameters := get_prop operation "parameters" in
  if truthy parameters then
    let! bodyParam := array_find is_body_param parameters in
    if truthy bodyParam then Ok (opt_get bodyParam "schema") else Ok (Some JNull)
  else Ok (Some JNull).

Definition getRequestSchema (spec operation : json) : result (option json) :=
  let requestBody := get_prop operation "requestBody" in
  if truthy requestBody then
    let content := opt_get requestBody "content" in
    if truthy content then Ok (opt_get (pick_media_type content) "schema")
    else body_parameter_schema operation
  else body_parameter_schema operation.

Definition is_digit (c : ascii) : bool :=
  (48 <=? nat_of_ascii c)%nat && (nat_of_ascii c <=? 57)%nat.

(** [/^2\d{2}$/.test(code)] *)
Definition is_success_code (code : string) : bool :=
  match code with
  | String "2" (String d1 (String d2 EmptyString)) => is_digit d1 && is_digit d2
  | _ => false
  end.

(** The loop over [successCodes]. *)
Fixpoint scan_responses (responses : json) (codes : list string) : option json :=
  match codes with
  | [] => Some JNull
  | code :: rest =>
      let response := get_prop responses code in
      if truthy response then
        if truthy (opt_get response "content") then
          opt_get (pick_media_type (opt_get response "content")) "schema"
        else if truthy (opt_get response "schema") then opt_get response "schema"
        else scan_responses responses rest
      else scan_responses responses rest
  end.

Definition success_codes (responses : json) : list string :=
  js_sort (filter (fun code => is_success_code code = true) (object_keys responses)).

Definition getResponseSchema (spec operation : json) : option json :=
  match get_prop operation "responses" with
  | Some responses =>
      if truthy_json responses then scan_responses responses (success_codes responses)
      else Some JNull
  | None => Some JNull
  end.

(** * Lemmas *)

(** ** Success codes *)

Definition digits : list ascii :=
  ["0"; "1"; "2"; "3"; "4"; "5"; "6"; "7"; "8"; "9"]%char.

Lemma is_digit_elem_of c : is_digit c = true -> c ∈ digits.
Proof.
  destruct c as [[] [] [] [] [] [] [] []]; vm_compute; intros H;
    first [discriminate H | by repeat constructor].
Qed.

Definition in_2xx (n : nat) : bool := Nat.leb 200 n && Nat.leb n 299.

Lemma success_code_is_index code :
  is_success_code code = true ->
  exists n, 200 <= n <= 299 /\ code = index_key n.
Proof.
  destruct code as [|c0 [|d1 [|d2 [|]]]]; simpl; try done;
    destruct c0 as [[] [] [] [] [] [] [] []]; try done.
  intros [H1 H2]%andb_prop.
  apply is_digit_elem_of, list_elem_of_In in H1.
  apply is_digit_elem_of, list_elem_of_In in H2.
  assert (Hall : forallb (fun a => forallb (fun b =>
            from_option in_2xx false (parse_index (String "2" (String a (String b "")))))
            digits) digits = true) by (vm_compute; reflexivity).
  rewrite forallb_forall in Hall. specialize (Hall d1 H1).
  rewrite forallb_forall in Hall. specialize (Hall d2 H2).
  destruct (parse_index _) as [n|] eqn:E; cbn [from_option] in Hall; [|done].
  exists n. apply andb_prop in Hall as [?%Nat.leb_le ?%Nat.leb_le].
  split; [lia|]. symmetry. by apply parse_index_Some.
Qed.

Lemma index_is_success_code n :
  200 <= n <= 299 -> is_success_code (index_key n) = true.
Proof.
  intros Hn.
  assert (Hall : forallb (fun m => is_success_code (index_key m)) (seq 200 100) = true)
    by (vm_compute; reflexivity).
  rewrite forallb_forall in Hall. apply Hall, list_elem_of_In, elem_of_seq. lia.
Qed.

(** C22: [/^2\d{2}$/] accepts exactly the decimal numerals of 200 to
    299: a key passes the test if and only if it is the numeral of a
    number from 200 to 299. *)
Theorem success_code_range code :
  is_success_code code = true <-> exists n, 200 <= n <= 299 /\ code = index_key n.
Proof.
  split; [apply success_code_is_index|]. intros (n & Hn & ->). by apply index_is_success_code.
Qed.

Lemma elem_of_success_codes responses code :
  code ∈ success_codes responses
  <-> is_success_code code = true /\ code ∈ object_keys responses.
Proof.
  unfold success_codes, js_sort. rewrite merge_sort_Permutation.
  by rewrite list_elem_of_filter.
Qed.

Lemma success_codes_sorted responses : StronglySorted str_le (success_codes responses).
Proof. apply StronglySorted_merge_sort; apply _. Qed.

(** ** The scan *)

(** A response the scan stops at. *)
Definition usable (response : option json) : bool :=
  truthy response
  && (truthy (opt_get response "content") || truthy (opt_get response "schema")).

(** What the scan returns when it stops. *)
Definition schema_of_response (response : option json) : option json :=
  if truthy (opt_get response "content")
  then opt_get (pick_media_type (opt_get response "content")) "schema"
  else opt_get response "schema".

Lemma scan_responses_cons responses code rest :
  scan_responses responses (code :: rest) =
  if usable (get_prop responses code) then schema_of_response (get_prop responses code)
  else scan_responses responses rest.
Proof.
  simpl. unfold usable, schema_of_response.
  destruct (truthy (get_prop responses code)); simpl; [|done].
  by destruct (truthy (opt_get _ "content")), (truthy (opt_get _ "schema")).
Qed.

Lemma scan_responses_stop responses skipped code rest :
  (forall c, c ∈ skipped -> usable (get_prop responses c) = true -> c = code) ->
  usable (get_prop responses code) = true ->
  scan_responses responses (skipped ++ code :: rest)
  = schema_of_response (get_prop responses code).
Proof.
  intros Hskip Hcode. induction skipped as [|c skipped IH].
  - simpl app. by rewrite scan_responses_cons, Hcode.
  - rewrite <- app_comm_cons, scan_responses_cons.
    destruct (usable (get_prop responses c)) eqn:E.
    + by rewrite (Hskip c) by (done || by left).
    + apply IH. intros c' Hc'. apply Hskip. by right.
Qed.

Lemma scan_responses_none responses codes :
  (forall c, c ∈ codes -> usable (get_prop responses c) = false) ->
  scan_responses responses codes = Some JNull.
Proof.
  induction codes as [|c codes IH]; intros H; [done|].
  rewrite scan_responses_cons, H by by left. apply IH. intros c' Hc'. apply H. by right.
Qed.

Section response.
Context (spec operation responses : json).
Hypothesis Hresponses : get_prop operation "responses" = Some responses.
Hypothesis Htruthy : truthy_json responses = true.

Lemma scan_least code :
  code ∈ object_keys responses -> is_success_code code = true ->
  usable (get_prop responses code) = true ->
  (forall c, c ∈ object_keys responses -> is_success_code c = true ->
             usable (get_prop responses c) = true -> str_le code c) ->
  getResponseSchema spec operation = schema_of_response (get_prop responses code).
Proof.
  intros Hkey Hcode Huse Hleast. unfold getResponseSchema.
  rewrite Hresponses, Htruthy.
  assert (code ∈ success_codes responses) as (l1 & l2 & Hl)%list_elem_of_split
    by by apply elem_of_success_codes.
  pose proof (success_codes_sorted responses) as Hsorted.
  rewrite Hl in Hsorted |- *. apply scan_responses_stop; [|done].
  intros c Hc Hc_use.
  assert (c ∈ success_codes responses) as [? ?]%elem_of_success_codes
    by (rewrite Hl; set_solver).
  apply (anti_symm str_le); [|by apply Hleast].
  eapply StronglySorted_app_1_elem_of; [done..|by left].
Qed.

(** C19: the response schema is read from the least success code, in
    string order, whose response has a [content] or a [schema]: from the
    media type of its [content] when it has one, else from its [schema]. *)
Theorem getResponseSchema_least code :
  code ∈ object_keys responses -> is_success_code code = true ->
  usable (get_prop responses code) = true ->
  (forall c, c ∈ object_keys responses -> is_success_code c = true ->
             usable (get_prop responses c) = true -> str_le code c) ->
  getResponseSchema spec operation = schema_of_response (get_prop responses code).
Proof. apply scan_least. Qed.

(** The scan stops at the first success response that has a
    [content], schema or not: when the media type chosen there has no
    [schema] the result is [undefined], whatever the later responses
    hold.  The specification takes the first response that yields a
    schema. *)
Theorem content_without_schema_ends_scan code :
  code ∈ object_keys responses -> is_success_code code = true ->
  truthy (get_prop responses code) = true ->
  truthy (opt_get (get_prop responses code) "content") = true ->
  opt_get (pick_media_type (opt_get (get_prop responses code) "content")) "schema" = None ->
  (forall c, c ∈ object_keys responses -> is_success_code c = true ->
             usable (get_prop responses c) = true -> str_le code c) ->
  getResponseSchema spec operation = None.
Proof.
  intros Hkey Hcode Ht Hc Hnone Hleast.
  assert (usable (get_prop responses code) = true) as Hu
    by (unfold usable; by rewrite Ht, Hc).
  rewrite (scan_least code) by done. unfold schema_of_response. by rewrite Hc.
Qed.

(** When no success response has a [content] or a [schema], the
    response schema is [null]. *)
Theorem getResponseSchema_null :
  (forall c, c ∈ object_keys responses -> is_success_code c = true ->
             usable (get_prop responses c) = false) ->
  getResponseSchema spec operation = Some JNull.
Proof.
  intros Hnone. unfold getResponseSchema. rewrite Hresponses, Htruthy.
  apply scan_responses_none. intros c [? ?]%elem_of_success_codes. by apply Hnone.
Qed.
End response.

(** ** The request schema *)

(** The media type of a [content]: [application/json] when it is
    truthy, else [*/*] when it is truthy, else the first value. *)
Lemma pick_media_type_order content :
  pick_media_type (Some content)
  = if truthy (get_prop content "application/json") then get_prop content "application/json"
    else if truthy (get_prop content "*/*") then get_prop content "*/*"
    else head (object_values content).
Proof.
  unfold pick_media_type, js_or. cbn [opt_get from_option].
  destruct (truthy (get_prop content "application/json")) eqn:E; [by rewrite E|].
  by destruct (truthy (get_prop content "*/*")) eqn:E'; rewrite ?E'.
Qed.

(** C23: a request body with a [content] decides alone, and the media
    types are tried in a fixed order: the result is the [schema]
    (possibly [undefined]) of [application/json] when the content has a
    truthy one, else of [*/*] when it has a truthy one, else of the first
    media type the content lists; the parameters are not consulted. *)
Theorem getRequestSchema_content spec operation content :
  truthy (get_prop operation "requestBody") = true ->
  opt_get (get_prop operation "requestBody") "content" = Some content ->
  truthy_json content = true ->
  getRequestSchema spec operation
  = Ok (opt_get
          (if truthy (get_prop content "application/json")
           then get_prop content "application/json"
           else if truthy (get_prop content "*/*") then get_prop content "*/*"
           else head (object_values content))
          "schema").
Proof.
  intros Hbody Hcontent Ht. unfold getRequestSchema.
  by rewrite Hbody, Hcontent, <- pick_media_type_order; simpl; rewrite Ht.
Qed.

Lemma findM_is_body_param before p after :
  Forall (fun q => is_body_param q = Ok false) before ->
  is_body_param p = Ok true ->
  findM is_body_param (before ++ p :: after) = Ok (Some p).
Proof.
  intros Hbefore Hp. induction Hbefore as [|q before Hq _ IH]; simpl.
  - by rewrite Hp.
  - by rewrite Hq.
Qed.

Lemma is_body_param_object p : is_body_param p = Ok true -> exists kvs, p = JObj kvs.
Proof.
  unfold is_body_param. destruct p; try done; eauto.
Qed.

(** C21: without a request body, the schema is that of the first
    parameter whose [in] is ["body"]: [find] passes the parameters before
    it, none of which is a body parameter, and the parameters after it
    are not looked at. *)
Theorem getRequestSchema_body_parameter spec operation before p after :
  truthy (get_prop operation "requestBody") = false ->
  get_prop operation "parameters" = Some (JArr (before ++ p :: after)) ->
  Forall (fun q => is_body_param q = Ok false) before ->
  is_body_param p = Ok true ->
  getRequestSchema spec operation = Ok (get_prop p "schema").
Proof.
  intros Hrb Hparams Hbefore Hp. unfold getRequestSchema, body_parameter_schema.
  rewrite Hrb, Hparams. simpl. rewrite findM_is_body_param by done.
  by destruct (is_body_param_object p Hp) as [kvs ->].
Qed.

Lemma findM_is_body_param_null before after :
  Forall (fun q => is_body_param q = Ok false) before ->
  findM is_body_param (before ++ JNull :: after) = Err TypeError.
Proof. induction 1 as [|q before Hq _ IH]; simpl; [done | by rewrite Hq]. Qed.

(** A [null] among the parameters before the body parameter makes
    [getRequestSchema] throw a [TypeError]. *)
Theorem getRequestSchema_null_parameter spec operation before after :
  truthy (get_prop operation "requestBody") = false ->
  get_prop operation "parameters" = Some (JArr (before ++ JNull :: after)) ->
  Forall (fun q => is_body_param q = Ok false) before ->
  getRequestSchema spec operation = Err TypeError.
Proof.
  intros Hrb Hparams Hbefore. unfold getRequestSchema, body_parameter_schema.
  rewrite Hrb, Hparams. simpl. by rewrite findM_is_body_param_null.
Qed.

(** [getRequestSchema] does not recurse: it returns or throws. *)
Lemma is_body_param_terminates p : terminates (is_body_param p).
Proof. by destruct p. Qed.

Lemma getRequestSchema_terminates spec operation :
  terminates (getRequestSchema spec operation).
Proof.
  unfold getRequestSchema, body_parameter_schema, array_find.
  repeat case_match; try done; apply rbind_terminates;
    try (apply findM_terminates; intros; apply is_body_param_terminates);
    intros; by case_match.
Qed.

#[export] Hint Resolve getRequestSchema_terminates : fuel.

(** * Witnesses and divergences *)

Lemma getResponseSchema_least_witness :
  getResponseSchema empty_doc items_post = Some nested_object.
Proof.
  apply (getResponseSchema_least empty_doc items_post
           (JObj [("201", json_content nested_object); ("404", JObj [])])
           eq_refl eq_refl "201");
    [compute_done | reflexivity | reflexivity |].
  intros c Hc. elem_of_cases Hc; [compute_done | discriminate].
Defined.

Lemma getResponseSchema_null_witness :
  getResponseSchema empty_doc (JObj [("responses", JObj [("204", JObj []); ("404", JObj [])])])
  = Some JNull.
Proof.
  apply (getResponseSchema_null empty_doc
           (JObj [("responses", JObj [("204", JObj []); ("404", JObj [])])])
           (JObj [("204", JObj []); ("404", JObj [])]) eq_refl eq_refl).
  intros c Hc. elem_of_cases Hc; [reflexivity | discriminate].
Defined.

(** [application/json] wins although the content lists it last. *)
Lemma getRequestSchema_content_witness :
  getRequestSchema empty_doc
    (JObj [("requestBody", JObj [("content", JObj [
       ("text/plain", JObj [("schema", string_schema)]);
       ("*/*", JObj [("schema", nested_object)]);
       ("application/json", JObj [("schema", flat_object)])])])])
  = Ok (Some flat_object).
Proof.
  apply (getRequestSchema_content empty_doc _
           (JObj [("text/plain", JObj [("schema", string_schema)]);
                  ("*/*", JObj [("schema", nested_object)]);
                  ("application/json", JObj [("schema", flat_object)])]));
    reflexivity.
Defined.

Lemma getRequestSchema_body_parameter_witness :
  getRequestSchema empty_doc legacy_operation = Ok (Some flat_object).
Proof.
  apply (getRequestSchema_body_parameter empty_doc legacy_operation
           [JObj [("in", JStr "query"); ("name", JStr "q")]]
           (JObj [("in", JStr "body"); ("schema", flat_object)]) []);
    [reflexivity | reflexivity | repeat constructor | reflexivity].
Defined.

Lemma getRequestSchema_null_parameter_witness :
  getRequestSchema empty_doc
    (JObj [("parameters", JArr [JNull; JObj [("in", JStr "body"); ("schema", flat_object)]])])
  = Err TypeError.
Proof.
  apply (getRequestSchema_null_parameter empty_doc
           (JObj [("parameters", JArr [JNull; JObj [("in", JStr "body"); ("schema", flat_object)]])])
           [] [JObj [("in", JStr "body"); ("schema", flat_object)]]);
    [reflexivity | reflexivity | constructor].
Defined.

Lemma content_without_schema_ends_scan_witness :
  getResponseSchema empty_doc two_responses = None.
Proof.
  apply (content_without_schema_ends_scan empty_doc two_responses
           (JObj [("200", JObj [("content", JObj [("text/plain", JObj [])])]);
                  ("201", json_content flat_object)])
           eq_refl eq_refl "200"); try reflexivity; [compute_done|].
  intros c Hc. elem_of_cases Hc; compute_done.
Defined.

(** A request body without a [content] does not decide: the body
    parameter is consulted, although the specification falls back to the
    parameters only when there is no request body. *)
Theorem request_body_without_content_falls_back operation :
  truthy (get_prop operation "requestBody") = true ->
  truthy (opt_get (get_prop operation "requestBody") "content") = false ->
  getRequestSchema empty_doc operation = body_parameter_schema operation.
Proof. intros H1 H2. unfold getRequestSchema. by rewrite H1, H2. Qed.

Lemma request_body_without_content_falls_back_witness :
  getRequestSchema empty_doc
    (JObj [("requestBody", JObj [("description", JStr "a body")]);
           ("parameters", JArr [JObj [("in", JStr "body"); ("schema", flat_object)]])])
  = Ok (Some flat_object).
Proof.
  rewrite request_body_without_content_falls_back; reflexivity.
Defined.
