(* ===== verification/Hereditary.v ===== *)
(** Properties of a document that all its parts have.

    The parser only ever holds values it has read out of the document
    with [v[k]], [Object.values], [for ... of] and [resolveRef].  A
    property of values that passes from an array to its elements and
    from an object to its values ([Hereditary]) therefore holds of
    everything the parser holds as soon as it holds of the document:
    of what a reference resolves to, and of the schemas
    [getRequestSchema] and [getResponseSchema] return. *)

From Stdlib Require Import String Ascii List ZArith Lia.
From stdpp Require Import base tactics option list strings gmap.
From S2P Require Import Prelude JsValue Fixtures ResolveRef Extractor.

#[local] Open Scope string_scope.
#[local] Open Scope list_scope.

Class Hereditary (P : json -> bool) : Prop := {
  hereditary_arr l x : P (JArr l) = true -> x ∈ l -> P x = true;
  hereditary_obj kvs k v : P (JObj kvs) = true -> (k, v) ∈ kvs -> P v = true;
  hereditary_str s : P (JStr s) = true;
  hereditary_num n : P (JNum n) = true;
  hereditary_null : P JNull = true;
}.

(** [P] of a value that may be [undefined]. *)
Definition holds (P : json -> bool) (v : option json) : bool := from_option P true v.

#[global] Arguments holds _ !_ /.

Section hereditary.
Context (P : json -> bool) `{!Hereditary P}.

Lemma get_prop_holds j k : P j = true -> holds P (get_prop j k) = true.
Proof.
  destruct (get_prop j k) as [v|] eqn:E; [|done]. intros Hj. cbn [holds from_option].
  destruct j; simpl in E; try done.
  - apply get_indexed_Some in E as [[c ->]%chars_leaf | ->];
      [apply hereditary_str | apply hereditary_num].
  - apply get_indexed_Some in E as [Hv | ->];
      [by eapply hereditary_arr | apply hereditary_num].
  - eapply hereditary_obj; [done|]. by apply alist_lookup_elem_of.
Qed.

Lemma opt_get_holds v k : holds P v = true -> holds P (opt_get v k) = true.
Proof. destruct v as [j|]; [apply get_prop_holds | done]. Qed.

Lemma js_or_holds a b : holds P a = true -> holds P b = true -> holds P (js_or a b) = true.
Proof. unfold js_or. by destruct (truthy a). Qed.

Lemma js_or_default_holds a d : holds P a = true -> P d = true -> P (js_or_default a d) = true.
Proof. unfold js_or_default. destruct a as [j|]; [|done]. by destruct (truthy_json j). Qed.

Lemma object_values_holds j x : P j = true -> x ∈ object_values j -> P x = true.
Proof.
  destruct j; simpl; try (by intros _ ?%elem_of_nil).
  - intros _ [c ->]%chars_leaf. apply hereditary_str.
  - apply hereditary_arr.
  - intros Hj ([k v] & -> & Hkv)%list_elem_of_fmap. by eapply hereditary_obj.
Qed.

Lemma object_entries_holds j k v : P j = true -> (k, v) ∈ object_entries j -> P v = true.
Proof.
  destruct j; simpl; try (by intros _ ?%elem_of_nil).
  - intros _ [c ->]%elem_of_zip_r%chars_leaf. apply hereditary_str.
  - intros Hj Hv%elem_of_zip_r. by eapply hereditary_arr.
  - apply hereditary_obj.
Qed.

Lemma js_iterate_holds v l x : holds P v = true -> js_iterate v = Ok l -> x ∈ l -> P x = true.
Proof.
  destruct v as [[]|]; try done; simpl; intros Hv [= <-].
  - intros [c ->]%chars_leaf. apply hereditary_str.
  - by apply hereditary_arr.
Qed.

Lemma walk_holds parts start : holds P start = true -> holds P (walk parts start) = true.
Proof.
  unfold walk. revert start; induction parts as [|p parts IH]; intros start Hs; [done|].
  by apply IH, opt_get_holds.
Qed.

Lemma resolveRef_holds spec ref : P spec = true -> holds P (resolveRef spec ref) = true.
Proof. intros Hs. by apply walk_holds. Qed.

(** ** The schemas of an operation *)

Lemma pick_media_type_holds content :
  holds P content = true -> holds P (pick_media_type content) = true.
Proof.
  intros Hc. unfold pick_media_type. repeat apply js_or_holds; try by apply opt_get_holds.
  destruct content as [j|]; [|done]. simpl.
  destruct (object_values j) as [|x l] eqn:E; [done|].
  apply (object_values_holds j); [done|]. rewrite E. by left.
Qed.

Lemma getRequestSchema_holds spec operation schema :
  P operation = true -> getRequestSchema spec operation = Ok schema -> holds P schema = true.
Proof.
  intros Hop. unfold getRequestSchema, body_parameter_schema.
  pose proof (get_prop_holds operation "requestBody" Hop) as Hbody.
  pose proof (get_prop_holds operation "parameters" Hop) as Hparams.
  assert (forall p, array_find is_body_param (get_prop operation "parameters") = Ok p ->
            holds P p = true) as Hfind.
  { destruct (get_prop operation "parameters") as [[]|]; try done. simpl.
    intros [p|] Hp; [|done]. apply findM_elem_of in Hp as [Hp _]. simpl in *.
    by eapply hereditary_arr. }
  pose proof hereditary_null.
  intros H'; repeat (case_match; inv_ok); try done;
    eauto using opt_get_holds, pick_media_type_holds.
Qed.

Lemma scan_responses_holds responses codes :
  P responses = true -> holds P (scan_responses responses codes) = true.
Proof.
  intros Hr. induction codes as [|code codes IH]; [apply hereditary_null|]. simpl.
  pose proof (get_prop_holds responses code Hr).
  repeat case_match; auto using opt_get_holds, pick_media_type_holds.
Qed.

Lemma getResponseSchema_holds spec operation :
  P operation = true -> holds P (getResponseSchema spec operation) = true.
Proof.
  intros Hop. unfold getResponseSchema.
  pose proof (get_prop_holds operation "responses" Hop). pose proof hereditary_null.
  repeat case_match; try done. by apply scan_responses_holds.
Qed.
End hereditary.
