(* ===== verification/Analyzer.v ===== *)
(** The schema analyzer: [analyzeSchema] of [src/src/lib/openapi-parser.ts].

    The TypeScript function recurses on whatever a reference resolves to,
    so it is not structurally recursive.  [analyzeSchema] takes fuel (the
    number of nested calls still allowed); its body, [analyze_body], is the
    body of the source function with the recursive call as a parameter
    [rec], and each branch of the source is a definition of its own.
    [fuel_for] computes fuel that is always enough ([Termination.v]), and
    [analyze] is the call [analyzeSchema(spec, schema)] with the default
    arguments [visited = new Set()] and [depth = 1]. *)

From Stdlib Require Import String Ascii List ZArith Lia.
From stdpp Require Import base tactics option list strings gmap.
From S2P Require Import Prelude JsValue Fixtures ResolveRef.

#[local] Open Scope string_scope.
#[local] Open Scope list_scope.
#[local] Open Scope result_scope.

(** [interface SchemaAnalysis] *)
Record SchemaAnalysis : Type := mkAnalysis {
  fieldCount : nat;
  maxDepth : nat;
}.

#[export] Instance SchemaAnalysis_eq_dec : EqDecision SchemaAnalysis.
Proof. solve_decision. Defined.

Definition no_fields : SchemaAnalysis := mkAnalysis 0 0.

(** The guard of the object loop: [propSchema.type === 'object' ||
    propSchema.type === 'array' || propSchema.$ref || propSchema.properties]. *)
Definition structural (propSchema : option json) : bool :=
  is_str (opt_get propSchema "type") "object"
  || is_str (opt_get propSchema "type") "array"
  || truthy (opt_get propSchema "$ref")
  || truthy (opt_get propSchema "properties").

(** [schema.properties || {}] *)
Definition properties_of (s : json) : json :=
  js_or_default (get_prop s "properties") (JObj []).

(** Which branch of [analyzeSchema] a schema takes: the conditions of the
    source's [if] chain, in its order. *)
Inductive shape : Type :=
| Falsy | Ref | AllOf | OneOf | Array | Object | Primitive.

Definition shape_of (schema : option json) : shape :=
  match schema with
  | None => Falsy
  | Some s =>
      if negb (truthy_json s) then Falsy
      else if truthy (get_prop s "$ref") then Ref
      else if truthy (get_prop s "allOf") then AllOf
      else if truthy (get_prop s "oneOf") || truthy (get_prop s "anyOf") then OneOf
      else if is_str (get_prop s "type") "array" && truthy (get_prop s "items") then Array
      else if is_str (get_prop s "type") "object" || truthy (get_prop s "properties") then Object
      else Primitive
  end.

Section body.
Context (rec : option json -> gset string -> nat -> result SchemaAnalysis).
Context (spec : json).

(** [if (schema.$ref) { ... }]: a pointer already on the path is a cycle;
    a [$ref] that is not a string has no [replace] method. *)
Definition analyze_ref (ref : option json) (visited : gset string) (depth : nat)
  : result SchemaAnalysis :=
  match ref with
  | Some (JStr r) =>
      if bool_decide (r ∈ visited) then Ok (mkAnalysis 0 depth)
      else rec (resolveRef spec r) ({[ r ]} ∪ visited) depth
  | _ => Err TypeError
  end.

(** One turn of the [allOf] loop. *)
Definition allOf_step (visited : gset string) (depth : nat)
    (acc : SchemaAnalysis) (subSchema : json) : result SchemaAnalysis :=
  let! r := rec (Some subSchema) visited depth in
  Ok (mkAnalysis (fieldCount acc + fieldCount r) (Nat.max (maxDepth acc) (maxDepth r))).

Definition analyze_allOf (allOf : option json) (visited : gset string) (depth : nat)
  : result SchemaAnalysis :=
  let! subs := js_iterate allOf in
  foldM (allOf_step visited depth) subs (mkAnalysis 0 depth).

(** One turn of the [oneOf]/[anyOf] loop. *)
Definition oneOf_step (visited : gset string) (depth : nat)
    (acc : SchemaAnalysis) (subSchema : json) : result SchemaAnalysis :=
  let! r := rec (Some subSchema) visited depth in
  Ok (mkAnalysis (Nat.max (fieldCount acc) (fieldCount r)) (Nat.max (maxDepth acc) (maxDepth r))).

Definition analyze_oneOf (schemas : option json) (visited : gset string) (depth : nat)
  : result SchemaAnalysis :=
  let! subs := js_iterate schemas in
  foldM (oneOf_step visited depth) subs (mkAnalysis 0 depth).

Definition analyze_array (items : option json) (visited : gset string) (depth : nat)
  : result SchemaAnalysis :=
  let! itemsResult := rec items visited (depth + 1) in
  Ok (mkAnalysis (fieldCount itemsResult) (maxDepth itemsResult)).

(** One turn of the loop over [propertyNames]. *)
Definition property_step (properties : json) (visited : gset string) (depth : nat)
    (acc : SchemaAnalysis) (propName : string) : result SchemaAnalysis :=
  let propSchema := get_prop properties propName in
  let! propResult := rec propSchema visited (depth + 1) in
  let totalFields :=
    if Nat.ltb 0 (fieldCount propResult) && structural propSchema
    then fieldCount acc + fieldCount propResult
    else fieldCount acc in
  Ok (mkAnalysis totalFields (Nat.max (maxDepth acc) (maxDepth propResult))).

(** [if (schema.additionalProperties && typeof ... === 'object') { ... }] *)
Definition additional_step (additionalProperties : option json)
    (visited : gset string) (depth : nat) (acc : SchemaAnalysis) : result SchemaAnalysis :=
  if truthy additionalProperties && typeof_object additionalProperties then
    let! addResult := rec additionalProperties visited (depth + 1) in
    Ok (mkAnalysis (fieldCount acc + fieldCount addResult)
                   (Nat.max (maxDepth acc) (maxDepth addResult)))
  else Ok acc.

Definition analyze_object (s : json) (visited : gset string) (depth : nat)
  : result SchemaAnalysis :=
  let properties := properties_of s in
  let propertyNames := object_keys properties in
  let init := mkAnalysis (length propertyNames)
                         (if Nat.ltb 0 (length propertyNames) then depth else 0) in
  let! acc := foldM (property_step properties visited depth) propertyNames init in
  additional_step (get_prop s "additionalProperties") visited depth acc.

(** The body of [analyzeSchema]: first matching branch wins. *)
Definition analyze_body (schema : option json) (visited : gset string) (depth : nat)
  : result SchemaAnalysis :=
  match schema with
  | None => Ok no_fields
  | Some s =>
      if negb (truthy_json s) then Ok no_fields
      else if truthy (get_prop s "$ref") then
        analyze_ref (get_prop s "$ref") visited depth
      else if truthy (get_prop s "allOf") then
        analyze_allOf (get_prop s "allOf") visited depth
      else if truthy (get_prop s "oneOf") || truthy (get_prop s "anyOf") then
        analyze_oneOf (js_or (get_prop s "oneOf") (get_prop s "anyOf")) visited depth
      else if is_str (get_prop s "type") "array" && truthy (get_prop s "items") then
        analyze_array (get_prop s "items") visited depth
      else if is_str (get_prop s "type") "object" || truthy (get_prop s "properties") then
        analyze_object s visited depth
      else Ok no_fields
  end.

End body.

Fixpoint analyzeSchema (fuel : nat) (spec : json) (schema : option json)
    (visited : gset string) (depth : nat) {struct fuel} : result SchemaAnalysis :=
  match fuel with
  | 0 => Err OutOfFuel
  | S fuel' => analyze_body (analyzeSchema fuel' spec) spec schema visited depth
  end.

(** Fuel that is enough for [schema] in [spec] when the references of
    [visited] are already on the path: between two reference steps the
    schema gets strictly lower, and every reference step uses up one
    reference that is not on the path yet. *)
Definition need (spec : json) (schema : option json) (visited : gset string) : nat :=
  size ((refs spec ∪ refs_opt schema) ∖ visited) * S (height spec)
  + height_opt schema + 1.

Definition fuel_for (spec : json) (schema : option json) : nat :=
  need spec schema ∅.

(** [analyzeSchema(spec, schema)] with the default arguments. *)
Definition analyze (spec : json) (schema : option json) : result SchemaAnalysis :=
  analyzeSchema (fuel_for spec schema) spec schema ∅ 1.

(** * The rules of the analyzer, branch by branch *)

(** ** Pure summaries of the three loops *)

Section summaries.
Context {X : Type} (c m : X -> nat).

Lemma foldl_sum_max (l : list X) acc :
  foldl (fun acc x => mkAnalysis (fieldCount acc + c x) (Nat.max (maxDepth acc) (m x))) acc l
  = mkAnalysis (fieldCount acc + sum_list (c <$> l))
               (Nat.max (maxDepth acc) (max_list (m <$> l))).
Proof.
  revert acc; induction l as [|x l IH]; intros [f d]; csimpl.
  - f_equal; lia.
  - rewrite IH. csimpl. f_equal; lia.
Qed.

Lemma foldl_max_max (l : list X) acc :
  foldl (fun acc x => mkAnalysis (Nat.max (fieldCount acc) (c x)) (Nat.max (maxDepth acc) (m x))) acc l
  = mkAnalysis (Nat.max (fieldCount acc) (max_list (c <$> l)))
               (Nat.max (maxDepth acc) (max_list (m <$> l))).
Proof.
  revert acc; induction l as [|x l IH]; intros [f d]; csimpl.
  - f_equal; lia.
  - rewrite IH. csimpl. f_equal; lia.
Qed.
End summaries.

Lemma fmap_zip_snd {A B C} (f : B -> C) (l : list A) (k : list B) :
  length l = length k -> (fun xr => f xr.2) <$> zip l k = f <$> k.
Proof.
  revert k; induction l as [|x l IH]; intros [|y k]; simpl; try done.
  intros [= Hlen]. by rewrite IH.
Qed.

(** What a property adds to the field count beyond itself: the fields of
    its schema when the schema is [structural], nothing otherwise. *)
Definition contribution (properties : json) (nr : string * SchemaAnalysis) : nat :=
  if structural (get_prop properties nr.1) then fieldCount nr.2 else 0.

Section rules.
Context (rec : option json -> gset string -> nat -> result SchemaAnalysis).
Context (spec : json) (visited : gset string) (depth : nat).

Lemma analyze_ref_cycle r :
  r ∈ visited -> analyze_ref rec spec (Some (JStr r)) visited depth = Ok (mkAnalysis 0 depth).
Proof. intros Hin. simpl. by rewrite bool_decide_eq_true_2. Qed.

Lemma analyze_ref_fresh r :
  r ∉ visited ->
  analyze_ref rec spec (Some (JStr r)) visited depth
  = rec (resolveRef spec r) ({[ r ]} ∪ visited) depth.
Proof. intros Hin. simpl. by rewrite bool_decide_eq_false_2. Qed.

Lemma analyze_allOf_sum allOf subs rs :
  js_iterate allOf = Ok subs ->
  Forall2 (fun sub r => rec (Some sub) visited depth = Ok r) subs rs ->
  analyze_allOf rec allOf visited depth
  = Ok (mkAnalysis (sum_list (fieldCount <$> rs)) (max_list (depth :: (maxDepth <$> rs)))).
Proof.
  intros Hit Hrs. unfold analyze_allOf, allOf_step. rewrite Hit. simpl.
  rewrite (foldM_results (fun sub => rec (Some sub) visited depth)
             (fun acc _ r => mkAnalysis (fieldCount acc + fieldCount r)
                                        (Nat.max (maxDepth acc) (maxDepth r))) _ rs) by done.
  rewrite (foldl_sum_max (fun xr => fieldCount xr.2) (fun xr => maxDepth xr.2)).
  by rewrite !fmap_zip_snd by (by eapply Forall2_length).
Qed.

Lemma analyze_oneOf_max schemas subs rs :
  js_iterate schemas = Ok subs ->
  Forall2 (fun sub r => rec (Some sub) visited depth = Ok r) subs rs ->
  analyze_oneOf rec schemas visited depth
  = Ok (mkAnalysis (max_list (fieldCount <$> rs)) (max_list (depth :: (maxDepth <$> rs)))).
Proof.
  intros Hit Hrs. unfold analyze_oneOf, oneOf_step. rewrite Hit. simpl.
  rewrite (foldM_results (fun sub => rec (Some sub) visited depth)
             (fun acc _ r => mkAnalysis (Nat.max (fieldCount acc) (fieldCount r))
                                        (Nat.max (maxDepth acc) (maxDepth r))) _ rs) by done.
  rewrite (foldl_max_max (fun xr => fieldCount xr.2) (fun xr => maxDepth xr.2)).
  by rewrite !fmap_zip_snd by (by eapply Forall2_length).
Qed.

Lemma analyze_array_items items :
  analyze_array rec items visited depth = rec items visited (depth + 1).
Proof. unfold analyze_array. by destruct (rec items visited (depth + 1)) as [[]|]. Qed.

(** The test [propResult.fieldCount > 0] of the guard changes nothing:
    adding zero fields is adding nothing. *)
Lemma property_step_contribution properties acc name :
  property_step rec properties visited depth acc name
  = (let! r := rec (get_prop properties name) visited (depth + 1) in
     Ok (mkAnalysis (fieldCount acc + contribution properties (name, r))
                    (Nat.max (maxDepth acc) (maxDepth r)))).
Proof.
  unfold property_step, contribution.
  destruct (rec _ _ _) as [r|]; simpl; [|done]. do 2 f_equal.
  destruct (Nat.ltb_spec 0 (fieldCount r)), (structural _); simpl; lia.
Qed.

Lemma property_loop properties names rs acc :
  Forall2 (fun name r => rec (get_prop properties name) visited (depth + 1) = Ok r) names rs ->
  foldM (property_step rec properties visited depth) names acc
  = Ok (mkAnalysis (fieldCount acc + sum_list (contribution properties <$> zip names rs))
                   (Nat.max (maxDepth acc) (max_list (maxDepth <$> rs)))).
Proof.
  intros Hrs. rewrite (foldM_ext _ _ _ _ (property_step_contribution properties)).
  rewrite (foldM_results (fun name => rec (get_prop properties name) visited (depth + 1))
    (fun acc name r => mkAnalysis (fieldCount acc + contribution properties (name, r))
                                  (Nat.max (maxDepth acc) (maxDepth r))) names rs acc) by done.
  rewrite (foldl_sum_max (contribution properties) (fun xr => maxDepth xr.2)).
  by rewrite fmap_zip_snd by (by eapply Forall2_length).
Qed.
End rules.

(** [analyze_body] dispatches on the shape. *)
Lemma analyze_body_shape rec spec schema visited depth :
  analyze_body rec spec schema visited depth =
  match shape_of schema with
  | Falsy | Primitive => Ok no_fields
  | Ref => analyze_ref rec spec (opt_get schema "$ref") visited depth
  | AllOf => analyze_allOf rec (opt_get schema "allOf") visited depth
  | OneOf => analyze_oneOf rec (js_or (opt_get schema "oneOf") (opt_get schema "anyOf")) visited depth
  | Array => analyze_array rec (opt_get schema "items") visited depth
  | Object => analyze_object rec (default JNull schema) visited depth
  end.
Proof. destruct schema as [s|]; [|done]. unfold analyze_body, shape_of. by repeat case_match. Qed.

Lemma analyzeSchema_shape fuel spec schema visited depth :
  analyzeSchema (S fuel) spec schema visited depth =
  match shape_of schema with
  | Falsy | Primitive => Ok no_fields
  | Ref => analyze_ref (analyzeSchema fuel spec) spec (opt_get schema "$ref") visited depth
  | AllOf => analyze_allOf (analyzeSchema fuel spec) (opt_get schema "allOf") visited depth
  | OneOf => analyze_oneOf (analyzeSchema fuel spec)
               (js_or (opt_get schema "oneOf") (opt_get schema "anyOf")) visited depth
  | Array => analyze_array (analyzeSchema fuel spec) (opt_get schema "items") visited depth
  | Object => analyze_object (analyzeSchema fuel spec) (default JNull schema) visited depth
  end.
Proof. apply analyze_body_shape. Qed.

Lemma shape_of_falsy schema : truthy schema = false -> shape_of schema = Falsy.
Proof. destruct schema as [s|]; simpl; [by intros ->|done]. Qed.

Section analyzeSchema_rules.
Context (fuel : nat) (spec : json) (visited : gset string) (depth : nat).

(** An absent schema, and any falsy value in a schema's place
    ([null], [false], [0], the empty string), has no fields and no depth. *)
Theorem analyzeSchema_falsy schema :
  truthy schema = false ->
  analyzeSchema (S fuel) spec schema visited depth = Ok no_fields.
Proof. intros H. by rewrite analyzeSchema_shape, shape_of_falsy. Qed.

(** C6: a reference that is already on the path is a cycle: no fields,
    and the depth reached is the current depth. *)
Theorem analyzeSchema_cycle schema r :
  shape_of schema = Ref -> opt_get schema "$ref" = Some (JStr r) -> r ∈ visited ->
  analyzeSchema (S fuel) spec schema visited depth = Ok (mkAnalysis 0 depth).
Proof. intros Hs Hr Hin. rewrite analyzeSchema_shape, Hs, Hr. by apply analyze_ref_cycle. Qed.

(** C5: a reference that is not on the path is put on it and replaced by
    what it resolves to, at the same depth. *)
Theorem analyzeSchema_ref schema r :
  shape_of schema = Ref -> opt_get schema "$ref" = Some (JStr r) -> r ∉ visited ->
  analyzeSchema (S fuel) spec schema visited depth
  = analyzeSchema fuel spec (resolveRef spec r) ({[ r ]} ∪ visited) depth.
Proof. intros Hs Hr Hin. rewrite analyzeSchema_shape, Hs, Hr. by apply analyze_ref_fresh. Qed.

(** C7: [allOf] adds up the field counts of its branches and takes the
    deepest of the current depth and the branches' depths; every branch
    starts from the same [visited]. *)
Theorem analyzeSchema_allOf schema subs rs :
  shape_of schema = AllOf -> js_iterate (opt_get schema "allOf") = Ok subs ->
  Forall2 (fun sub r => analyzeSchema fuel spec (Some sub) visited depth = Ok r) subs rs ->
  analyzeSchema (S fuel) spec schema visited depth
  = Ok (mkAnalysis (sum_list (fieldCount <$> rs)) (max_list (depth :: (maxDepth <$> rs)))).
Proof. intros Hs Hit Hrs. rewrite analyzeSchema_shape, Hs. by eapply analyze_allOf_sum. Qed.

(** C8: [oneOf] (or [anyOf] when there is no [oneOf]) takes the largest
    field count of its branches, and the deepest depth. *)
Theorem analyzeSchema_oneOf schema subs rs :
  shape_of schema = OneOf ->
  js_iterate (js_or (opt_get schema "oneOf") (opt_get schema "anyOf")) = Ok subs ->
  Forall2 (fun sub r => analyzeSchema fuel spec (Some sub) visited depth = Ok r) subs rs ->
  analyzeSchema (S fuel) spec schema visited depth
  = Ok (mkAnalysis (max_list (fieldCount <$> rs)) (max_list (depth :: (maxDepth <$> rs)))).
Proof. intros Hs Hit Hrs. rewrite analyzeSchema_shape, Hs. by eapply analyze_oneOf_max. Qed.

(** C9: an array is transparent: its analysis is the analysis of its
    items one level deeper. *)
Theorem analyzeSchema_array schema :
  shape_of schema = Array ->
  analyzeSchema (S fuel) spec schema visited depth
  = analyzeSchema fuel spec (opt_get schema "items") visited (depth + 1).
Proof. intros Hs. rewrite analyzeSchema_shape, Hs. apply analyze_array_items. Qed.

(** An object counts its properties, plus the fields of those whose
    schema is structural, plus the fields of a map-valued
    [additionalProperties]; its depth is the current depth when it has a
    property, and at least the depth of every schema below it. *)
Theorem analyzeSchema_object s rs :
  shape_of (Some s) = Object ->
  let properties := properties_of s in
  let names := object_keys properties in
  Forall2 (fun name r =>
    analyzeSchema fuel spec (get_prop properties name) visited (depth + 1) = Ok r) names rs ->
  analyzeSchema (S fuel) spec (Some s) visited depth
  = additional_step (analyzeSchema fuel spec) (get_prop s "additionalProperties") visited depth
      (mkAnalysis (length names + sum_list (contribution properties <$> zip names rs))
                  (max_list ((if Nat.ltb 0 (length names) then depth else 0)
                             :: (maxDepth <$> rs)))).
Proof.
  intros Hs properties names Hrs. rewrite analyzeSchema_shape, Hs.
  unfold analyze_object. fold properties names.
  by rewrite (property_loop _ _ _ _ _ rs).
Qed.

(** A [$ref] that is truthy and not a string makes the analyzer throw
    a [TypeError] ([ref.replace] is not a function). *)
Theorem analyzeSchema_ref_not_string schema :
  shape_of schema = Ref -> (forall r, opt_get schema "$ref" <> Some (JStr r)) ->
  analyzeSchema (S fuel) spec schema visited depth = Err TypeError.
Proof.
  intros Hs Hr. rewrite analyzeSchema_shape, Hs. unfold analyze_ref.
  destruct (opt_get schema "$ref") as [[]|]; try done. by destruct (Hr s).
Qed.

(** An [allOf] that is truthy and neither an array nor a string makes
    the analyzer throw a [TypeError] (it is not iterable). *)
Theorem analyzeSchema_allOf_not_iterable schema :
  shape_of schema = AllOf -> js_iterate (opt_get schema "allOf") = Err TypeError ->
  analyzeSchema (S fuel) spec schema visited depth = Err TypeError.
Proof. intros Hs Hit. rewrite analyzeSchema_shape, Hs. unfold analyze_allOf. by rewrite Hit. Qed.
End analyzeSchema_rules.

(** ** Witnesses *)

Lemma analyzeSchema_falsy_witness :
  analyzeSchema 1 empty_doc (Some JNull) ∅ 1 = Ok no_fields.
Proof. apply (analyzeSchema_falsy 0 empty_doc ∅ 1 (Some JNull)). reflexivity. Defined.

Lemma analyzeSchema_cycle_witness :
  analyzeSchema 1 self_doc (Some (ref_schema "#/components/schemas/Node"))
    {[ "#/components/schemas/Node" ]} 3 = Ok (mkAnalysis 0 3).
Proof.
  apply (analyzeSchema_cycle 0 self_doc _ 3 _ "#/components/schemas/Node");
    [reflexivity | reflexivity | by apply elem_of_singleton].
Defined.

Lemma analyzeSchema_ref_witness :
  analyzeSchema 4 tree_doc (Some (ref_schema "#/definitions/Tree")) ∅ 1
  = analyzeSchema 3 tree_doc (resolveRef tree_doc "#/definitions/Tree")
      ({[ "#/definitions/Tree" ]} ∪ ∅) 1.
Proof.
  apply (analyzeSchema_ref 3 tree_doc ∅ 1 _ "#/definitions/Tree");
    [reflexivity | reflexivity | apply not_elem_of_empty].
Defined.

Lemma analyzeSchema_allOf_witness :
  analyzeSchema 4 empty_doc (Some (allOf_schema [flat_object; nested_object])) ∅ 1
  = Ok (mkAnalysis 4 2).
Proof.
  apply (analyzeSchema_allOf 3 empty_doc ∅ 1 _ [flat_object; nested_object]
           [mkAnalysis 2 1; mkAnalysis 2 2]);
    [reflexivity | reflexivity | repeat constructor].
Defined.

Lemma analyzeSchema_oneOf_witness :
  analyzeSchema 4 empty_doc (Some (oneOf_schema [flat_object; nested_object])) ∅ 1
  = Ok (mkAnalysis 2 2).
Proof.
  apply (analyzeSchema_oneOf 3 empty_doc ∅ 1 _ [flat_object; nested_object]
           [mkAnalysis 2 1; mkAnalysis 2 2]);
    [reflexivity | reflexivity | repeat constructor].
Defined.

Lemma analyzeSchema_array_witness :
  analyzeSchema 3 empty_doc (Some (array_schema flat_object)) ∅ 1
  = analyzeSchema 2 empty_doc (Some flat_object) ∅ 2.
Proof. apply (analyzeSchema_array 2 empty_doc ∅ 1 (Some (array_schema flat_object))). reflexivity. Defined.

Lemma analyzeSchema_object_witness :
  analyzeSchema 3 empty_doc (Some nested_object) ∅ 1 = Ok (mkAnalysis 2 2).
Proof.
  rewrite (analyzeSchema_object 2 empty_doc ∅ 1 nested_object [mkAnalysis 1 2]);
    [reflexivity | reflexivity | repeat constructor].
Defined.

Lemma analyzeSchema_ref_not_string_witness :
  analyzeSchema 1 empty_doc (Some (JObj [("$ref", JNum 5)])) ∅ 1 = Err TypeError.
Proof.
  apply (analyzeSchema_ref_not_string 0 empty_doc ∅ 1); [reflexivity | discriminate].
Defined.

Lemma analyzeSchema_allOf_not_iterable_witness :
  analyzeSchema 1 empty_doc (Some (JObj [("allOf", JObj [])])) ∅ 1 = Err TypeError.
Proof. apply (analyzeSchema_allOf_not_iterable 0 empty_doc ∅ 1); reflexivity. Defined.
