(* ===== verification/Termination.v ===== *)
(** Termination of the schema analyzer.

    Two facts make the fuel of [analyzeSchema] a proof device and not a
    restriction of the model:
    - more fuel never changes a run that ends (the order [approx] of the
      prelude, lifted through every branch of the analyzer);
    - [need spec schema visited] is always enough, so [analyze] never
      runs out.
    The measure is the one cycle detection provides: every reference step
    puts a new pointer of the document on the path, and between two
    reference steps the walk descends in the tree. *)

From Stdlib Require Import String Ascii List ZArith Lia.
From stdpp Require Import base tactics option list strings gmap.
From S2P Require Import Prelude JsValue Fixtures ResolveRef Analyzer.

#[local] Open Scope string_scope.

(** ** More fuel, same result *)

Section approx.
Context (rec rec' : option json -> gset string -> nat -> result SchemaAnalysis).
Context (spec : json).
Hypothesis Hrec : forall s v d, approx (rec s v d) (rec' s v d).

Ltac approx_step :=
  first [ reflexivity | apply Hrec
        | apply rbind_approx; [| intros ?]
        | apply foldM_approx; intros ?? ].

Lemma analyze_ref_approx ref v d :
  approx (analyze_ref rec spec ref v d) (analyze_ref rec' spec ref v d).
Proof. unfold analyze_ref. repeat case_match; approx_step. Qed.

Lemma analyze_allOf_approx a v d :
  approx (analyze_allOf rec a v d) (analyze_allOf rec' a v d).
Proof. unfold analyze_allOf, allOf_step. repeat approx_step. Qed.

Lemma analyze_oneOf_approx a v d :
  approx (analyze_oneOf rec a v d) (analyze_oneOf rec' a v d).
Proof. unfold analyze_oneOf, oneOf_step. repeat approx_step. Qed.

Lemma analyze_array_approx items v d :
  approx (analyze_array rec items v d) (analyze_array rec' items v d).
Proof. unfold analyze_array. repeat approx_step. Qed.

Lemma analyze_object_approx s v d :
  approx (analyze_object rec s v d) (analyze_object rec' s v d).
Proof.
  unfold analyze_object, property_step, additional_step.
  repeat approx_step. case_match; repeat approx_step.
Qed.

Lemma analyze_body_approx s v d :
  approx (analyze_body rec spec s v d) (analyze_body rec' spec s v d).
Proof.
  unfold analyze_body. repeat case_match; try reflexivity;
    auto using analyze_ref_approx, analyze_allOf_approx, analyze_oneOf_approx,
      analyze_array_approx, analyze_object_approx.
Qed.
End approx.

Lemma analyzeSchema_S_approx fuel spec s v d :
  approx (analyzeSchema fuel spec s v d) (analyzeSchema (S fuel) spec s v d).
Proof.
  revert s v d; induction fuel as [|fuel IH]; intros s v d; [by left|].
  apply analyze_body_approx, IH.
Qed.

Lemma analyzeSchema_le_approx fuel fuel' spec s v d :
  fuel <= fuel' ->
  approx (analyzeSchema fuel spec s v d) (analyzeSchema fuel' spec s v d).
Proof.
  induction 1 as [|fuel' _ IH]; [reflexivity|].
  etrans; [exact IH | apply analyzeSchema_S_approx].
Qed.

(** A result obtained with some fuel is the result with any larger
    fuel: the fuel never shows in what [analyzeSchema] returns or throws. *)
Theorem analyzeSchema_fuel_mono fuel fuel' spec s v d :
  fuel <= fuel' -> terminates (analyzeSchema fuel spec s v d) ->
  analyzeSchema fuel' spec s v d = analyzeSchema fuel spec s v d.
Proof. intros Hle. apply approx_terminates. by apply analyzeSchema_le_approx. Qed.

Lemma analyzeSchema_fuel_mono_witness :
  analyzeSchema 100 tree_doc (Some (ref_schema "#/definitions/Tree")) ∅ 1
  = analyzeSchema 5 tree_doc (Some (ref_schema "#/definitions/Tree")) ∅ 1.
Proof. apply analyzeSchema_fuel_mono; [lia | by vm_compute]. Defined.

(** ** Enough fuel *)

Lemma need_below spec j sub v : below j sub -> need spec sub v < need spec (Some j) v.
Proof.
  intros [Hh Hr]. unfold need. simpl.
  assert (size ((refs spec ∪ refs_opt sub) ∖ v) <= size ((refs spec ∪ refs j) ∖ v)) as Hle
    by (apply subseteq_size; set_solver).
  apply (Nat.mul_le_mono_r _ _ (S (height spec))) in Hle. lia.
Qed.

Lemma need_ref spec j r v :
  r ∈ refs j -> r ∉ v ->
  need spec (resolveRef spec r) ({[ r ]} ∪ v) < need spec (Some j) v.
Proof.
  intros Hr Hv. unfold need. simpl.
  pose proof (resolveRef_height spec r) as Hh.
  pose proof (resolveRef_refs spec r) as Hrefs.
  assert (size ((refs spec ∪ refs_opt (resolveRef spec r)) ∖ ({[ r ]} ∪ v))
          < size ((refs spec ∪ refs j) ∖ v)) as Hlt
    by (apply subset_size; set_solver).
  apply Nat.le_succ_l, (Nat.mul_le_mono_r _ _ (S (height spec))) in Hlt. lia.
Qed.

Section enough.
Context (rec : option json -> gset string -> nat -> result SchemaAnalysis).
Context (spec j : json) (visited : gset string).
Hypothesis Hrec : forall sub v d,
  need spec sub v < need spec (Some j) visited -> type_safe (rec sub v d).

Lemma rec_below sub d : below j sub -> type_safe (rec sub visited d).
Proof. intros Hb. by apply Hrec, need_below. Qed.

Lemma analyze_ref_safe d :
  type_safe (analyze_ref rec spec (get_prop j "$ref") visited d).
Proof.
  unfold analyze_ref. destruct (get_prop j "$ref") as [[]|] eqn:E; try safe_now.
  case_bool_decide; [safe_now|].
  apply Hrec, need_ref; [by apply keyword_ref | done].
Qed.

Lemma analyze_iter_safe step a d :
  below j a ->
  (forall acc sub, below j (Some sub) -> type_safe (step acc sub)) ->
  type_safe (let! subs := js_iterate a in foldM step subs (mkAnalysis 0 d))%result.
Proof.
  intros Ha Hstep. apply rbind_type_safe; [destruct a as [[]|]; safe_now|].
  intros subs Hsubs. apply foldM_type_safe. intros acc sub Hin.
  eapply Hstep, below_iterate; eauto.
Qed.

Lemma sub_step_safe d (k : SchemaAnalysis -> result SchemaAnalysis) sub :
  below j sub -> (forall r, type_safe (k r)) -> type_safe (rbind (rec sub visited d) k).
Proof. intros Hb Hk. apply rbind_type_safe; [by apply rec_below | auto]. Qed.

Lemma analyze_object_safe d : type_safe (analyze_object rec j visited d).
Proof.
  unfold analyze_object, properties_of.
  apply rbind_type_safe.
  - apply foldM_type_safe. intros acc name Hname.
    destruct (js_or_default_cases (get_prop j "properties") (JObj [])) as [[Ep Hp]|[_ Hp]];
      [|rewrite Hp in Hname; by apply elem_of_nil in Hname].
    apply below_truthy_keyword in Ep; [|solve_keyword]. rewrite Hp in Ep.
    apply sub_step_safe; [by apply below_prop | safe_now].
  - intros acc _. unfold additional_step.
    destruct (truthy (get_prop j "additionalProperties")) eqn:Ea; [|safe_now].
    case_match; [|safe_now].
    apply sub_step_safe; [by apply below_truthy_keyword; [solve_keyword|] | safe_now].
Qed.

Lemma analyze_body_safe d : type_safe (analyze_body rec spec (Some j) visited d).
Proof.
  unfold analyze_body.
  repeat (case_match; try safe_now); try apply analyze_ref_safe.
  - apply analyze_iter_safe; [by apply below_truthy_keyword; [solve_keyword|]|].
    intros. apply sub_step_safe; [done | safe_now].
  - apply analyze_iter_safe; [|intros; apply sub_step_safe; [done | safe_now]].
    match goal with H : _ || _ = true |- _ => apply js_or_cases in H as [[-> ?]|[-> ?]] end;
      by apply below_truthy_keyword; [solve_keyword|].
  - match goal with H : _ && _ = true |- _ => apply andb_prop in H as [_ ?] end.
    apply sub_step_safe; [by apply below_truthy_keyword; [solve_keyword|] | safe_now].
  - apply analyze_object_safe.
Qed.
End enough.

(** With [need] fuel the analyzer returns a result or throws a
    [TypeError]. *)
Lemma analyzeSchema_enough fuel spec s v d :
  need spec s v <= fuel -> type_safe (analyzeSchema fuel spec s v d).
Proof.
  revert s v d; induction fuel as [|fuel IH]; intros s v d Hfuel.
  { unfold need in Hfuel. lia. }
  destruct s as [j|]; [|safe_now]. simpl.
  apply analyze_body_safe. intros sub v' d' Hlt. apply IH. lia.
Qed.

Lemma analyze_type_safe spec schema : type_safe (analyze spec schema).
Proof. apply analyzeSchema_enough. reflexivity. Qed.

Lemma analyze_never_out_of_fuel spec schema : terminates (analyze spec schema).
Proof. apply type_safe_terminates, analyze_type_safe. Qed.

#[export] Hint Resolve analyze_never_out_of_fuel analyze_type_safe : fuel.

(** C1: [analyze] terminates on every document and every schema, cyclic or
    not: it returns a result or throws a [TypeError], and never runs out
    of the fuel [fuel_for] gives it. *)
Theorem analyze_terminates spec schema :
  (exists r, analyze spec schema = Ok r) \/ analyze spec schema = Err TypeError.
Proof. apply type_safe_cases, analyze_type_safe. Qed.

(** Any fuel on which the analyzer terminates gives the result of
    [analyze]: concrete runs may use a small fuel. *)
Lemma analyze_eq_fuel fuel spec schema :
  terminates (analyzeSchema fuel spec schema ∅ 1) ->
  analyze spec schema = analyzeSchema fuel spec schema ∅ 1.
Proof.
  intros Hf.
  assert (fuel <= Nat.max fuel (fuel_for spec schema)) as Hle1 by lia.
  assert (fuel_for spec schema <= Nat.max fuel (fuel_for spec schema)) as Hle2 by lia.
  rewrite <- (approx_terminates _ _ (analyzeSchema_le_approx _ _ spec schema ∅ 1 Hle1) Hf).
  symmetry. apply (approx_terminates _ _ (analyzeSchema_le_approx _ _ spec schema ∅ 1 Hle2)).
  apply analyze_never_out_of_fuel.
Qed.

(** [fuel_for] is enough and more changes nothing: with any fuel of at
    least [fuel_for spec schema], [analyzeSchema] computes what [analyze]
    computes. *)
Theorem analyzeSchema_enough_fuel fuel spec schema :
  fuel_for spec schema <= fuel ->
  analyzeSchema fuel spec schema ∅ 1 = analyze spec schema.
Proof.
  intros Hle. apply (approx_terminates _ _ (analyzeSchema_le_approx _ _ _ _ _ _ Hle)).
  apply analyze_never_out_of_fuel.
Qed.

Lemma analyzeSchema_enough_fuel_witness :
  analyzeSchema 50 tree_doc (Some (ref_schema "#/definitions/Tree")) ∅ 1
  = analyze tree_doc (Some (ref_schema "#/definitions/Tree")).
Proof. apply analyzeSchema_enough_fuel. vm_compute. lia. Defined.
