(* ===== verification/Shaped.v ===== *)
(** When the analyzer does not throw.

    [analyzeSchema] throws a [TypeError] in two places: [ref.replace] on
    a [$ref] that is not a string, and [for ... of] over an [allOf],
    [oneOf] or [anyOf] that is not iterable.  A set of schemas in which
    neither happens, and which holds the schemas every member sends the
    analyzer to, is [schema_closed]; on its members the analyzer returns
    a result.  The documents all of whose nodes are shaped as schemas
    ([well_shaped]) give such a set. *)

From Stdlib Require Import String Ascii List ZArith Lia.
From stdpp Require Import base tactics option list strings gmap.
From S2P Require Import Prelude JsValue Fixtures ResolveRef Extractor Hereditary Analyzer Termination.

#[local] Open Scope string_scope.
#[local] Open Scope list_scope.

(** A set [S] of schemas of [spec] the analyzer does not leave and in
    which it finds what it expects. *)
Record schema_closed (spec : json) (S : option json -> Prop) : Prop := {
  closed_ref s :
    S s -> shape_of s = Ref ->
    exists r, opt_get s "$ref" = Some (JStr r) /\ S (resolveRef spec r);
  closed_allOf s :
    S s -> shape_of s = AllOf ->
    exists subs, js_iterate (opt_get s "allOf") = Ok subs
                 /\ forall sub, sub ∈ subs -> S (Some sub);
  closed_oneOf s :
    S s -> shape_of s = OneOf ->
    exists subs, js_iterate (js_or (opt_get s "oneOf") (opt_get s "anyOf")) = Ok subs
                 /\ forall sub, sub ∈ subs -> S (Some sub);
  closed_array s : S s -> shape_of s = Array -> S (opt_get s "items");
  closed_object s :
    S s -> shape_of s = Object ->
    (forall name, S (get_prop (properties_of (default JNull s)) name))
    /\ S (opt_get s "additionalProperties");
}.

(** [v] can be iterated with [for ... of]. *)
Definition iterable (v : option json) : bool :=
  match v with
  | Some (JArr _) | Some (JStr _) => true
  | _ => false
  end.

(** What the branch a value takes as a schema expects of it. *)
Definition node_shaped (s : json) : bool :=
  match shape_of (Some s) with
  | Ref => match get_prop s "$ref" with Some (JStr _) => true | _ => false end
  | AllOf => iterable (get_prop s "allOf")
  | OneOf => iterable (js_or (get_prop s "oneOf") (get_prop s "anyOf"))
  | _ => true
  end.

(** Every node of the tree is shaped. *)
Fixpoint well_shaped (j : json) : bool :=
  node_shaped j
  && match j with
     | JArr l => forallb well_shaped l
     | JObj kvs => forallb (fun '(_, v) => well_shaped v) kvs
     | _ => true
     end.

(** * Lemmas *)

Section closed.
Context (spec : json) (S : option json -> Prop).
Hypothesis Hclosed : schema_closed spec S.

Lemma analyzeSchema_quiet fuel schema visited depth :
  S schema -> avoids TypeError (analyzeSchema fuel spec schema visited depth).
Proof.
  revert schema visited depth; induction fuel as [|fuel IH]; intros s v d Hs; [done|].
  rewrite analyzeSchema_shape. destruct (shape_of s) eqn:Hshape; try done.
  - destruct (closed_ref _ _ Hclosed s Hs Hshape) as (r & -> & Hr). simpl.
    case_bool_decide; [done | by apply IH].
  - destruct (closed_allOf _ _ Hclosed s Hs Hshape) as (subs & Hit & Hsubs).
    unfold analyze_allOf, allOf_step. rewrite Hit. simpl.
    apply foldM_avoids. intros acc sub Hsub. apply rbind_avoids; [by apply IH, Hsubs | done].
  - destruct (closed_oneOf _ _ Hclosed s Hs Hshape) as (subs & Hit & Hsubs).
    unfold analyze_oneOf, oneOf_step. rewrite Hit. simpl.
    apply foldM_avoids. intros acc sub Hsub. apply rbind_avoids; [by apply IH, Hsubs | done].
  - rewrite analyze_array_items. by apply IH, (closed_array _ _ Hclosed).
  - destruct (closed_object _ _ Hclosed s Hs Hshape) as [Hprops Hadd].
    destruct s as [s|]; [|done]. unfold analyze_object, property_step, additional_step.
    apply rbind_avoids.
    + apply foldM_avoids. intros acc name _. apply rbind_avoids; [by apply IH | done].
    + intros acc _. case_match; [|done]. apply rbind_avoids; [by apply IH | done].
Qed.

Lemma analyze_avoids e schema : S schema -> avoids e (analyze spec schema).
Proof.
  intros Hs Herr. destruct (avoids_Ok (analyze spec schema)) as [r Hr];
    [apply analyze_type_safe | by apply analyzeSchema_quiet | congruence].
Qed.

(** On a closed set of schemas the analyzer returns a result: it
    neither throws nor runs for ever. *)
Theorem closed_schemas_analyze schema :
  S schema -> exists r, analyze spec schema = Ok r.
Proof. intros Hs. apply avoids_all. intros e. by apply analyze_avoids. Qed.
End closed.

(** ** Well-shaped documents *)

Lemma well_shaped_children j x :
  well_shaped j = true -> x ∈ object_values j -> well_shaped x = true.
Proof.
  destruct j; try (by intros _ ?%elem_of_nil).
  - by intros _ [c ->]%chars_leaf.
  - change (well_shaped (JArr l)) with (node_shaped (JArr l) && forallb well_shaped l).
    intros [_ H]%andb_prop Hx. rewrite forallb_forall in H. by apply H, list_elem_of_In.
  - change (well_shaped (JObj kvs))
      with (node_shaped (JObj kvs) && forallb (fun '(_, v) => well_shaped v) kvs).
    intros [_ H]%andb_prop ([k v] & -> & Hkv)%list_elem_of_fmap.
    rewrite forallb_forall in H. by apply (H (k, v)), list_elem_of_In.
Qed.

#[export] Instance well_shaped_hereditary : Hereditary well_shaped.
Proof.
  split; try done.
  - intros l x. apply (well_shaped_children (JArr l)).
  - intros kvs k v H Hkv. apply (well_shaped_children (JObj kvs)); [done|].
    apply list_elem_of_fmap. by exists (k, v).
  - intros s. unfold well_shaped, node_shaped, shape_of. simpl.
    by destruct (negb (String.eqb s "")).
  - intros n. unfold well_shaped, node_shaped, shape_of. simpl.
    by destruct (negb (negb (n =? 0)%Z)).
Qed.

Lemma well_shaped_node j : well_shaped j = true -> node_shaped j = true.
Proof.
  assert (well_shaped j = true -> node_shaped j && true = true) as H; [|by rewrite andb_true_r in H].
  destruct j; try done; unfold well_shaped; fold well_shaped; by intros [-> _]%andb_prop.
Qed.

Lemma iterable_iterate v : iterable v = true -> exists l, js_iterate v = Ok l.
Proof. destruct v as [[]|]; try done; simpl; eauto. Qed.

Lemma well_shaped_closed spec :
  well_shaped spec = true -> schema_closed spec (fun s => holds well_shaped s = true).
Proof.
  intros Hspec. split; intros [s|] Hs Hshape; try done; simpl in Hs;
    pose proof (well_shaped_node s Hs) as Hnode; unfold node_shaped in Hnode;
    rewrite Hshape in Hnode; simpl.
  - destruct (get_prop s "$ref") as [[]|]; try done.
    eexists. split; [done|]. by apply resolveRef_holds; [apply _|].
  - apply iterable_iterate in Hnode as [l Hl]. exists l. split; [done|].
    intros sub Hsub. eapply (js_iterate_holds well_shaped); [|done..].
    by apply get_prop_holds; [apply _|].
  - apply iterable_iterate in Hnode as [l Hl]. exists l. split; [done|].
    intros sub Hsub. eapply (js_iterate_holds well_shaped); [|done..].
    by apply js_or_holds; apply get_prop_holds; try apply _.
  - by apply get_prop_holds; [apply _|].
  - split; [intros name|]; apply get_prop_holds; try apply _; [|done].
    apply (js_or_default_holds well_shaped); [|done]. by apply get_prop_holds; [apply _|].
Qed.

Lemma well_shaped_avoids e spec schema :
  well_shaped spec = true -> holds well_shaped schema = true ->
  avoids e (analyze spec schema).
Proof. intros Hspec Hschema. by apply (analyze_avoids spec _ (well_shaped_closed spec Hspec)). Qed.

(** C10: on a document all of whose nodes are shaped as schemas, every
    schema of the document is analysed without an exception. *)
Theorem well_shaped_analyze spec schema :
  well_shaped spec = true -> holds well_shaped schema = true ->
  exists r, analyze spec schema = Ok r.
Proof. intros Hspec Hschema. apply avoids_all. intros e. by apply well_shaped_avoids. Qed.

Lemma well_shaped_analyze_witness :
  exists r, analyze tree_doc (Some (ref_schema "#/definitions/Pair")) = Ok r.
Proof. apply well_shaped_analyze; reflexivity. Defined.

Lemma closed_schemas_analyze_witness :
  exists r, analyze self_doc (Some (ref_schema "#/components/schemas/Node")) = Ok r.
Proof.
  apply (closed_schemas_analyze self_doc (fun s => holds well_shaped s = true));
    [by apply well_shaped_closed | reflexivity].
Defined.
