(* ===== verification/Spec.v ===== *)
(** The analyzer as a relation: the resolution rules of the specification
    (section 4.3), without fuel.

    [Analyzes spec schema visited depth r] is derivable exactly when the
    rules assign [r] to [schema]: one constructor per rule, the rule
    chosen by [shape_of] (first matching rule wins), lists of branches
    and of properties analyzed by [AnalyzesAll].  The theorems of this
    file show that [analyzeSchema] implements the rules: what it returns
    is derivable, and what is derivable it returns. *)

From Stdlib Require Import String Ascii List ZArith Lia.
From stdpp Require Import base tactics option list strings gmap.
From S2P Require Import Prelude JsValue Fixtures ResolveRef Analyzer Termination.

#[local] Open Scope string_scope.
#[local] Open Scope list_scope.

(** The schema under [additionalProperties], when it is analyzed. *)
Definition additional_schemas (s : json) : list (option json) :=
  let ap := get_prop s "additionalProperties" in
  if truthy ap && typeof_object ap then [ap] else [].

(** The result of an object whose properties have the results [rs] and
    whose [additionalProperties] has the results [extras]. *)
Definition object_result (s : json) (depth : nat) (rs extras : list SchemaAnalysis)
  : SchemaAnalysis :=
  let properties := properties_of s in
  let names := object_keys properties in
  mkAnalysis
    (length names + sum_list (contribution properties <$> zip names rs)
     + sum_list (fieldCount <$> extras))
    (max_list ((if Nat.ltb 0 (length names) then depth else 0)
               :: (maxDepth <$> rs ++ extras))).

Inductive Analyzes (spec : json)
  : option json -> gset string -> nat -> SchemaAnalysis -> Prop :=
| Analyzes_absent schema v d :
    shape_of schema = Falsy -> Analyzes spec schema v d no_fields
| Analyzes_cycle schema r v d :
    shape_of schema = Ref -> opt_get schema "$ref" = Some (JStr r) -> r ∈ v ->
    Analyzes spec schema v d (mkAnalysis 0 d)
| Analyzes_ref schema r v d res :
    shape_of schema = Ref -> opt_get schema "$ref" = Some (JStr r) -> r ∉ v ->
    Analyzes spec (resolveRef spec r) ({[ r ]} ∪ v) d res ->
    Analyzes spec schema v d res
| Analyzes_allOf schema subs rs v d :
    shape_of schema = AllOf -> js_iterate (opt_get schema "allOf") = Ok subs ->
    AnalyzesAll spec (Some <$> subs) v d rs ->
    Analyzes spec schema v d
      (mkAnalysis (sum_list (fieldCount <$> rs)) (max_list (d :: (maxDepth <$> rs))))
| Analyzes_oneOf schema subs rs v d :
    shape_of schema = OneOf ->
    js_iterate (js_or (opt_get schema "oneOf") (opt_get schema "anyOf")) = Ok subs ->
    AnalyzesAll spec (Some <$> subs) v d rs ->
    Analyzes spec schema v d
      (mkAnalysis (max_list (fieldCount <$> rs)) (max_list (d :: (maxDepth <$> rs))))
| Analyzes_array schema v d res :
    shape_of schema = Array ->
    Analyzes spec (opt_get schema "items") v (d + 1) res ->
    Analyzes spec schema v d res
| Analyzes_object s rs extras v d :
    shape_of (Some s) = Object ->
    AnalyzesAll spec (get_prop (properties_of s) <$> object_keys (properties_of s))
      v (d + 1) rs ->
    AnalyzesAll spec (additional_schemas s) v (d + 1) extras ->
    Analyzes spec (Some s) v d (object_result s d rs extras)
| Analyzes_primitive schema v d :
    shape_of schema = Primitive -> Analyzes spec schema v d no_fields
with AnalyzesAll (spec : json)
  : list (option json) -> gset string -> nat -> list SchemaAnalysis -> Prop :=
| AnalyzesAll_nil v d : AnalyzesAll spec [] v d []
| AnalyzesAll_cons schema schemas r rs v d :
    Analyzes spec schema v d r -> AnalyzesAll spec schemas v d rs ->
    AnalyzesAll spec (schema :: schemas) v d (r :: rs).

Scheme Analyzes_mut := Minimality for Analyzes Sort Prop
  with AnalyzesAll_mut := Minimality for AnalyzesAll Sort Prop.

Combined Scheme Analyzes_mutind from Analyzes_mut, AnalyzesAll_mut.

(** * The loops of the code, read back *)

Section inversion.
Context (rec : option json -> gset string -> nat -> result SchemaAnalysis).
Context (visited : gset string) (depth : nat).

Lemma analyze_allOf_inv allOf res :
  analyze_allOf rec allOf visited depth = Ok res ->
  exists subs rs, js_iterate allOf = Ok subs
    /\ Forall2 (fun sub r => rec (Some sub) visited depth = Ok r) subs rs
    /\ res = mkAnalysis (sum_list (fieldCount <$> rs)) (max_list (depth :: (maxDepth <$> rs))).
Proof.
  intros H. pose proof H as H'. unfold analyze_allOf, allOf_step in H'.
  apply rbind_ok in H' as (subs & Hit & [rs Hrs]%foldM_results_inv).
  exists subs, rs. repeat split; [done..|].
  rewrite (analyze_allOf_sum _ _ _ _ subs rs) in H by done. by injection H.
Qed.

Lemma analyze_oneOf_inv schemas res :
  analyze_oneOf rec schemas visited depth = Ok res ->
  exists subs rs, js_iterate schemas = Ok subs
    /\ Forall2 (fun sub r => rec (Some sub) visited depth = Ok r) subs rs
    /\ res = mkAnalysis (max_list (fieldCount <$> rs)) (max_list (depth :: (maxDepth <$> rs))).
Proof.
  intros H. pose proof H as H'. unfold analyze_oneOf, oneOf_step in H'.
  apply rbind_ok in H' as (subs & Hit & [rs Hrs]%foldM_results_inv).
  exists subs, rs. repeat split; [done..|].
  rewrite (analyze_oneOf_max _ _ _ _ subs rs) in H by done. by injection H.
Qed.

(** [additionalProperties] as a loop over at most one schema. *)
Lemma additional_step_extras s acc extras :
  Forall2 (fun schema r => rec schema visited (depth + 1) = Ok r) (additional_schemas s) extras ->
  additional_step rec (get_prop s "additionalProperties") visited depth acc
  = Ok (mkAnalysis (fieldCount acc + sum_list (fieldCount <$> extras))
                   (Nat.max (maxDepth acc) (max_list (maxDepth <$> extras)))).
Proof.
  unfold additional_step, additional_schemas. destruct (_ && _).
  - intros (r & k & Hr & ->%Forall2_nil_inv_l & ->)%Forall2_cons_inv_l.
    rewrite Hr. simpl. do 2 f_equal; lia.
  - intros ->%Forall2_nil_inv_l. destruct acc. simpl. do 2 f_equal; lia.
Qed.

Lemma additional_step_inv s acc res :
  additional_step rec (get_prop s "additionalProperties") visited depth acc = Ok res ->
  exists extras,
    Forall2 (fun schema r => rec schema visited (depth + 1) = Ok r) (additional_schemas s) extras.
Proof.
  unfold additional_step, additional_schemas. destruct (_ && _); [|by exists []].
  intros H. inv_ok. eexists [_]. by repeat constructor.
Qed.

Lemma analyze_object_results s rs extras :
  Forall2 (fun name r => rec (get_prop (properties_of s) name) visited (depth + 1) = Ok r)
    (object_keys (properties_of s)) rs ->
  Forall2 (fun schema r => rec schema visited (depth + 1) = Ok r) (additional_schemas s) extras ->
  analyze_object rec s visited depth = Ok (object_result s depth rs extras).
Proof.
  intros Hrs Hextras. unfold analyze_object.
  rewrite (property_loop _ _ _ _ _ rs) by done. simpl.
  rewrite (additional_step_extras _ _ extras) by done. unfold object_result. simpl.
  rewrite fmap_app, max_list_app. do 2 f_equal; lia.
Qed.

Lemma analyze_object_inv s res :
  analyze_object rec s visited depth = Ok res ->
  exists rs extras,
    Forall2 (fun name r => rec (get_prop (properties_of s) name) visited (depth + 1) = Ok r)
      (object_keys (properties_of s)) rs
    /\ Forall2 (fun schema r => rec schema visited (depth + 1) = Ok r)
         (additional_schemas s) extras
    /\ res = object_result s depth rs extras.
Proof.
  intros H. pose proof H as H'. unfold analyze_object in H'.
  apply rbind_ok in H' as (acc & Hloop & [extras Hextras]%additional_step_inv).
  rewrite (foldM_ext _ _ _ _ (property_step_contribution rec visited depth _)) in Hloop.
  apply foldM_results_inv in Hloop as [rs Hrs].
  exists rs, extras. repeat split; [done..|].
  rewrite (analyze_object_results s rs extras) in H by done. by injection H.
Qed.
End inversion.

(** C4: an object counts its properties, adds the fields of the
    properties whose schema is structural and the fields of a map-valued
    [additionalProperties], and reports the deepest of its own depth (when
    it has a property) and the depths found below: given the results of
    the schemas under it, its result is [object_result]. *)
Theorem analyzeSchema_object_result fuel spec s v d rs extras :
  shape_of (Some s) = Object ->
  Forall2 (fun name r =>
             analyzeSchema fuel spec (get_prop (properties_of s) name) v (d + 1) = Ok r)
    (object_keys (properties_of s)) rs ->
  Forall2 (fun schema r => analyzeSchema fuel spec schema v (d + 1) = Ok r)
    (additional_schemas s) extras ->
  analyzeSchema (S fuel) spec (Some s) v d = Ok (object_result s d rs extras).
Proof. intros Hs Hrs Hextras. rewrite analyzeSchema_shape, Hs. by apply analyze_object_results. Qed.

Lemma analyzeSchema_object_result_witness :
  analyzeSchema 4 empty_doc
    (Some (JObj [("properties", JObj [("a", flat_object); ("b", string_schema)]);
                 ("additionalProperties", nested_object)])) ∅ 1
  = Ok (mkAnalysis 6 3).
Proof.
  apply (analyzeSchema_object_result 3 empty_doc
           (JObj [("properties", JObj [("a", flat_object); ("b", string_schema)]);
                  ("additionalProperties", nested_object)]) ∅ 1
           [mkAnalysis 2 2; no_fields] [mkAnalysis 2 3]);
    [reflexivity | by repeat constructor..].
Defined.

(** * The code implements the rules *)

Lemma Forall2_AnalyzesAll {X} spec (f : X -> option json) (g : option json -> result SchemaAnalysis)
    v d (l : list X) rs :
  (forall schema r, g schema = Ok r -> Analyzes spec schema v d r) ->
  Forall2 (fun x r => g (f x) = Ok r) l rs -> AnalyzesAll spec (f <$> l) v d rs.
Proof. intros Hg. induction 1; csimpl; constructor; auto. Qed.

Lemma analyzeSchema_derivable fuel spec schema v d r :
  analyzeSchema fuel spec schema v d = Ok r -> Analyzes spec schema v d r.
Proof.
  revert schema v d r; induction fuel as [|fuel IH]; intros schema v d r; [done|].
  rewrite analyzeSchema_shape. destruct (shape_of schema) eqn:Hs.
  - intros [= <-]. by apply Analyzes_absent.
  - unfold analyze_ref. destruct (opt_get schema "$ref") as [[]|] eqn:Hr; try done.
    case_bool_decide; [intros [= <-]; by eapply Analyzes_cycle|].
    intros Hres%IH. by eapply Analyzes_ref.
  - intros (subs & rs & Hit & Hrs & ->)%analyze_allOf_inv.
    eapply Analyzes_allOf; [done..|].
    apply (Forall2_AnalyzesAll spec Some (fun s => analyzeSchema fuel spec s v d));
      [intros ??; apply IH | done].
  - intros (subs & rs & Hit & Hrs & ->)%analyze_oneOf_inv.
    eapply Analyzes_oneOf; [done..|].
    apply (Forall2_AnalyzesAll spec Some (fun s => analyzeSchema fuel spec s v d));
      [intros ??; apply IH | done].
  - rewrite analyze_array_items. intros Hres%IH. by apply Analyzes_array.
  - destruct schema as [s|]; [|done]. simpl default.
    intros (rs & extras & Hrs & Hextras & ->)%analyze_object_inv.
    apply Analyzes_object; [done|..].
    + apply (Forall2_AnalyzesAll spec (get_prop (properties_of s))
               (fun s => analyzeSchema fuel spec s v (d + 1))); [intros ??; apply IH | done].
    + rewrite <- (list_fmap_id (additional_schemas s)).
      apply (Forall2_AnalyzesAll spec id (fun s => analyzeSchema fuel spec s v (d + 1)));
        [intros ??; apply IH | done].
  - intros [= <-]. by apply Analyzes_primitive.
Qed.

(** A result stays when fuel is added. *)
Lemma analyzeSchema_Ok_le fuel fuel' spec schema v d r :
  fuel <= fuel' -> analyzeSchema fuel spec schema v d = Ok r ->
  analyzeSchema fuel' spec schema v d = Ok r.
Proof. intros Hle. apply approx_Ok. by apply analyzeSchema_le_approx. Qed.

(** What the list relation means for the code: one fuel for all. *)
Definition all_returned (spec : json) (schemas : list (option json)) (v : gset string)
    (d : nat) (rs : list SchemaAnalysis) : Prop :=
  exists fuel, Forall2 (fun schema r => analyzeSchema fuel spec schema v d = Ok r) schemas rs.

Lemma all_returned_le spec schemas v d rs fuel fuel' :
  fuel <= fuel' ->
  Forall2 (fun schema r => analyzeSchema fuel spec schema v d = Ok r) schemas rs ->
  Forall2 (fun schema r => analyzeSchema fuel' spec schema v d = Ok r) schemas rs.
Proof.
  intros Hle H. eapply Forall2_impl; [exact H|]. intros ??. by apply analyzeSchema_Ok_le.
Qed.

Lemma derivable_returned spec :
  (forall schema v d r, Analyzes spec schema v d r ->
     exists fuel, analyzeSchema fuel spec schema v d = Ok r)
  /\ (forall schemas v d rs, AnalyzesAll spec schemas v d rs -> all_returned spec schemas v d rs).
Proof.
  apply Analyzes_mutind; intros.
  - exists 1. by rewrite analyzeSchema_shape, H.
  - exists 1. rewrite analyzeSchema_shape, H, H0. by apply analyze_ref_cycle.
  - destruct H3 as [fuel Hf]. exists (S fuel).
    by rewrite analyzeSchema_shape, H, H0, analyze_ref_fresh.
  - destruct H2 as [fuel Hf]. exists (S fuel). rewrite analyzeSchema_shape, H.
    apply (analyze_allOf_sum _ _ _ _ subs rs); [done|]. by apply Forall2_fmap_l in Hf.
  - destruct H2 as [fuel Hf]. exists (S fuel). rewrite analyzeSchema_shape, H.
    apply (analyze_oneOf_max _ _ _ _ subs rs); [done|]. by apply Forall2_fmap_l in Hf.
  - destruct H1 as [fuel Hf]. exists (S fuel).
    by rewrite analyzeSchema_shape, H, analyze_array_items.
  - destruct H1 as [fuel1 H1], H3 as [fuel2 H3]. exists (S (Nat.max fuel1 fuel2)).
    rewrite analyzeSchema_shape, H. apply analyze_object_results.
    + apply (all_returned_le _ _ _ _ _ _ (Nat.max fuel1 fuel2)) in H1; [|lia].
      by apply Forall2_fmap_l in H1.
    + eapply all_returned_le; [|exact H3]. lia.
  - exists 1. by rewrite analyzeSchema_shape, H.
  - by exists 0.
  - destruct H0 as [fuel1 H0], H2 as [fuel2 H2]. exists (Nat.max fuel1 fuel2).
    constructor; [eapply analyzeSchema_Ok_le; [|exact H0]; lia|].
    eapply all_returned_le; [|exact H2]. lia.
Qed.

(** What the rules derive at the top level, the code returns. *)
Lemma rules_returned spec schema r : Analyzes spec schema ∅ 1 r -> analyze spec schema = Ok r.
Proof.
  intros [fuel Hf]%derivable_returned. rewrite (analyze_eq_fuel fuel); [done | by rewrite Hf].
Qed.

(** C2: [analyzeSchema] implements the rules of the specification: with
    the default arguments it returns [r] exactly when the rules assign
    [r] to the schema, starting from an empty path at depth 1. *)
Theorem analyze_implements_rules spec schema r :
  analyze spec schema = Ok r <-> Analyzes spec schema ∅ 1 r.
Proof. split; [apply analyzeSchema_derivable | apply rules_returned]. Qed.

Lemma Analyzes_functional spec schema v d r r' :
  Analyzes spec schema v d r -> Analyzes spec schema v d r' -> r = r'.
Proof.
  intros [fuel Hf]%derivable_returned [fuel' Hf']%derivable_returned.
  apply (analyzeSchema_Ok_le _ (Nat.max fuel fuel')) in Hf, Hf'; [congruence | lia..].
Qed.

(** The rules assign at most one result to a schema: the relation is
    a partial function, the one [analyzeSchema] computes. *)
Theorem Analyzes_deterministic spec schema v d r r' :
  Analyzes spec schema v d r -> Analyzes spec schema v d r' -> r = r'.
Proof. apply Analyzes_functional. Qed.

Lemma Analyzes_deterministic_witness : mkAnalysis 2 1 = mkAnalysis 2 1.
Proof.
  apply (Analyzes_deterministic empty_doc (Some flat_object) ∅ 1);
    by apply (analyzeSchema_derivable 5).
Defined.

(** When the rules assign no result, the analyzer throws: on every
    schema [analyze] returns the one result the rules assign, or the
    rules assign none and it ends in a [TypeError]. *)
Theorem analyze_total_on_rules spec schema :
  (exists r, analyze spec schema = Ok r /\ Analyzes spec schema ∅ 1 r)
  \/ (analyze spec schema = Err TypeError /\ forall r, ~ Analyzes spec schema ∅ 1 r).
Proof.
  destruct (type_safe_cases _ (analyze_type_safe spec schema)) as [[r Hr]|He].
  - left. exists r. split; [done | by apply analyzeSchema_derivable in Hr].
  - right. split; [done|]. intros r [fuel Hf]%derivable_returned.
    rewrite (analyze_eq_fuel fuel) in He; [congruence | by rewrite Hf].
Qed.

(** * The order of branches

    The rules sum and maximise over the branches of a composition, so the
    order of the branches cannot matter.  For the code this also says
    that a branch that throws makes the analysis throw wherever it stands
    in the list. *)

Lemma AnalyzesAll_Permutation spec l l' v d rs :
  l ≡ₚ l' -> AnalyzesAll spec l v d rs ->
  exists rs', rs ≡ₚ rs' /\ AnalyzesAll spec l' v d rs'.
Proof.
  intros Hp. revert rs. induction Hp as [|x l l' _ IH|x y l|l1 l2 l3 _ IH1 _ IH2]; intros rs H.
  - by exists rs.
  - inversion H as [|? ? r rs0 ? ? Hx Hl]; subst. destruct (IH _ Hl) as (rs' & Hp' & H').
    exists (r :: rs'). split; [by apply perm_skip | by constructor].
  - inversion H as [|? ? r rs0 ? ? Hy Hl]; subst.
    inversion Hl as [|? ? r' rs1 ? ? Hx Hl']; subst.
    exists (r' :: r :: rs1). split; [apply perm_swap | by do 2 (constructor; [done|])].
  - destruct (IH1 _ H) as (rs2 & Hp2 & H2). destruct (IH2 _ H2) as (rs3 & Hp3 & H3).
    exists rs3. split; [by etrans | done].
Qed.

(** Two schemas with the same derivable results have the same analysis,
    exceptions included. *)
Lemma analyze_ext spec schema schema' :
  (forall r, Analyzes spec schema ∅ 1 r -> Analyzes spec schema' ∅ 1 r) ->
  (forall r, Analyzes spec schema' ∅ 1 r -> Analyzes spec schema ∅ 1 r) ->
  analyze spec schema = analyze spec schema'.
Proof.
  intros H12 H21.
  destruct (analyze_total_on_rules spec schema) as [(r & -> & Hr)|[-> Hnone]],
    (analyze_total_on_rules spec schema') as [(r' & -> & Hr')|[-> Hnone']]; try done.
  - f_equal. eapply Analyzes_functional; eauto.
  - by destruct (Hnone' r); auto.
  - by destruct (Hnone r'); auto.
Qed.

Lemma Analyzes_composition_perm spec (compose : list json -> json) subs subs' v d r :
  (compose = allOf_schema \/ compose = oneOf_schema) -> subs ≡ₚ subs' ->
  Analyzes spec (Some (compose subs)) v d r -> Analyzes spec (Some (compose subs')) v d r.
Proof.
  intros Hc Hp H.
  inversion H as [| | |? subs0 rs ? ? Hs Hit Hall|? subs0 rs ? ? Hs Hit Hall| | |]; subst;
    destruct Hc as [-> | ->]; try discriminate; injection Hit as <-;
    apply (AnalyzesAll_Permutation _ _ (Some <$> subs')) in Hall as (rs' & Hrs & Hall);
    try (by apply fmap_Permutation); rewrite Hrs.
  - by apply (Analyzes_allOf spec _ subs').
  - by apply (Analyzes_oneOf spec _ subs').
Qed.

(** C28: the order of the branches of an [allOf], [oneOf] or [anyOf] does
    not change the analysis, its exceptions included: permuting the
    branches gives the same result or the same [TypeError]. *)
Theorem composition_order_irrelevant spec subs subs' :
  subs ≡ₚ subs' ->
  analyze spec (Some (allOf_schema subs)) = analyze spec (Some (allOf_schema subs'))
  /\ analyze spec (Some (oneOf_schema subs)) = analyze spec (Some (oneOf_schema subs')).
Proof.
  intros Hp. split; apply analyze_ext; intros r;
    apply Analyzes_composition_perm; auto; by symmetry.
Qed.

Lemma composition_order_irrelevant_witness :
  analyze empty_doc (Some (allOf_schema [flat_object; nested_object]))
  = analyze empty_doc (Some (allOf_schema [nested_object; flat_object]))
  /\ analyze empty_doc (Some (oneOf_schema [flat_object; nested_object]))
     = analyze empty_doc (Some (oneOf_schema [nested_object; flat_object])).
Proof. apply composition_order_irrelevant. apply perm_swap. Defined.
