(* ===== verification/Stateful.v ===== *)
(** The analyzer with its [Set]s on a heap.

    [analyzeSchema] of [src/src/lib/openapi-parser.ts] does not pass sets
    around, it passes references to mutable [Set] objects: the reference
    branch adds to the set it was given and recurses with it, the array
    branch recurses with it, and the loops hand each branch a
    [new Set(visited)].  This file models exactly that: a heap of sets,
    addresses for [visited], [has], [add] and copy as heap operations.
    The refinement theorem shows that the sharing cannot be observed: the
    stateful analyzer returns what [Analyzer.analyzeSchema], which passes
    sets by value, returns. *)

From Stdlib Require Import String Ascii List ZArith Lia.
From stdpp Require Import base tactics option list strings gmap.
From S2P Require Import Prelude JsValue Fixtures ResolveRef Analyzer Termination.

#[local] Open Scope string_scope.
#[local] Open Scope list_scope.
#[local] Open Scope result_scope.

(** The [Set] objects allocated so far; an address is an index. *)
Abbreviation heap := (list (gset string)).

(** [visited.has(r)] *)
Definition set_has (r : string) (a : nat) (h : heap) : bool :=
  bool_decide (r ∈ h !!! a).

(** [visited.add(r)] *)
Definition set_add (r : string) (a : nat) (h : heap) : heap :=
  <[a := {[ r ]} ∪ h !!! a]> h.

(** [new Set(visited)]: the address of the copy and the heap with it. *)
Definition set_copy (a : nat) (h : heap) : nat * heap :=
  (length h, h ++ [h !!! a]).

Section body.
Context (rec : option json -> nat -> nat -> heap -> result (SchemaAnalysis * heap)).
Context (spec : json).

Definition ref_st (ref : option json) (a depth : nat) (h : heap)
  : result (SchemaAnalysis * heap) :=
  match ref with
  | Some (JStr r) =>
      if set_has r a h then Ok (mkAnalysis 0 depth, h)
      else rec (resolveRef spec r) a depth (set_add r a h)
  | _ => Err TypeError
  end.

(** [analyzeSchema(spec, sub, new Set(visited), depth)] *)
Definition branch_st (sub : option json) (a depth : nat) (h : heap)
  : result (SchemaAnalysis * heap) :=
  rec sub (set_copy a h).1 depth (set_copy a h).2.

(** A loop body that analyzes [sub] on a copy and folds the result into
    the accumulator with [combine]. *)
Definition step_st {X : Type} (sub : X -> option json)
    (combine : SchemaAnalysis -> X -> SchemaAnalysis -> SchemaAnalysis)
    (a depth : nat) (acc : SchemaAnalysis * heap) (x : X)
  : result (SchemaAnalysis * heap) :=
  let! rh := branch_st (sub x) a depth acc.2 in
  Ok (combine acc.1 x rh.1, rh.2).

Definition allOf_combine (acc : SchemaAnalysis) (_ : json) (r : SchemaAnalysis) :=
  mkAnalysis (fieldCount acc + fieldCount r) (Nat.max (maxDepth acc) (maxDepth r)).

Definition oneOf_combine (acc : SchemaAnalysis) (_ : json) (r : SchemaAnalysis) :=
  mkAnalysis (Nat.max (fieldCount acc) (fieldCount r)) (Nat.max (maxDepth acc) (maxDepth r)).

Definition property_combine (properties : json) (acc : SchemaAnalysis) (propName : string)
    (propResult : SchemaAnalysis) :=
  mkAnalysis
    (if Nat.ltb 0 (fieldCount propResult) && structural (get_prop properties propName)
     then fieldCount acc + fieldCount propResult else fieldCount acc)
    (Nat.max (maxDepth acc) (maxDepth propResult)).

Definition allOf_st (allOf : option json) (a depth : nat) (h : heap) :=
  let! subs := js_iterate allOf in
  foldM (step_st Some allOf_combine a depth) subs (mkAnalysis 0 depth, h).

Definition oneOf_st (schemas : option json) (a depth : nat) (h : heap) :=
  let! subs := js_iterate schemas in
  foldM (step_st Some oneOf_combine a depth) subs (mkAnalysis 0 depth, h).

(** The set itself goes to the items, not a copy. *)
Definition array_st (items : option json) (a depth : nat) (h : heap) :=
  let! rh := rec items a (depth + 1) h in
  Ok (mkAnalysis (fieldCount rh.1) (maxDepth rh.1), rh.2).

Definition additional_st (additionalProperties : option json) (a depth : nat)
    (acc : SchemaAnalysis * heap) : result (SchemaAnalysis * heap) :=
  if truthy additionalProperties && typeof_object additionalProperties
  then step_st (fun _ : unit => additionalProperties)
         (fun acc _ r => allOf_combine acc JNull r) a (depth + 1) acc tt
  else Ok acc.

Definition object_st (s : json) (a depth : nat) (h : heap) :=
  let properties := properties_of s in
  let propertyNames := object_keys properties in
  let init := mkAnalysis (length propertyNames)
                         (if Nat.ltb 0 (length propertyNames) then depth else 0) in
  let! acc := foldM (step_st (get_prop properties) (property_combine properties) a (depth + 1))
                propertyNames (init, h) in
  additional_st (get_prop s "additionalProperties") a depth acc.

Definition body_st (schema : option json) (a depth : nat) (h : heap)
  : result (SchemaAnalysis * heap) :=
  match shape_of schema with
  | Falsy | Primitive => Ok (no_fields, h)
  | Ref => ref_st (opt_get schema "$ref") a depth h
  | AllOf => allOf_st (opt_get schema "allOf") a depth h
  | OneOf => oneOf_st (js_or (opt_get schema "oneOf") (opt_get schema "anyOf")) a depth h
  | Array => array_st (opt_get schema "items") a depth h
  | Object => object_st (default JNull schema) a depth h
  end.
End body.

Fixpoint analyzeSchema_st (fuel : nat) (spec : json) (schema : option json)
    (a depth : nat) (h : heap) {struct fuel} : result (SchemaAnalysis * heap) :=
  match fuel with
  | 0 => Err OutOfFuel
  | S fuel' => body_st (analyzeSchema_st fuel' spec) spec schema a depth h
  end.

(** [analyzeSchema(spec, schema)]: the default [visited] is a new, empty
    set, allocated on the heap as the calls before have left it. *)
Definition analyze_st (spec : json) (schema : option json) (h : heap)
  : result (SchemaAnalysis * heap) :=
  analyzeSchema_st (fuel_for spec schema) spec schema (length h) 1 (h ++ [∅]).

(** * Refinement *)

(** [h'] has every set of [h] but the one at [a] unchanged. *)
Definition frame (a : option nat) (h h' : heap) : Prop :=
  forall b, b < length h -> Some b <> a -> h' !! b = h !! b.

(** The stateful computation [c], started on the heap [h] with its set at
    [a], returns what the pure computation [p] returns and leaves the
    other sets alone. *)
Definition refines (a : option nat) (h : heap)
    (c : result (SchemaAnalysis * heap)) (p : result SchemaAnalysis) : Prop :=
  rmap fst c = p /\ forall r h', c = Ok (r, h') -> frame a h h'.

Lemma frame_length a h h' b : frame a h h' -> b < length h -> Some b <> a -> b < length h'.
Proof.
  intros Hf Hb Hne. apply lookup_lt_is_Some_1. rewrite (Hf b Hb Hne).
  by apply lookup_lt_is_Some_2.
Qed.

Lemma frame_refl a h : frame a h h.
Proof. by intros b. Qed.

Lemma frame_trans h1 h2 h3 : frame None h1 h2 -> frame None h2 h3 -> frame None h1 h3.
Proof.
  intros H12 H23 b Hb _. rewrite (H23 b), (H12 b); try done.
  by apply (frame_length None h1).
Qed.

Lemma frame_total a h h' b :
  frame a h h' -> b < length h -> Some b <> a -> h' !!! b = h !!! b.
Proof. intros Hf Hb Hne. by rewrite !list_lookup_total_alt, (Hf b Hb Hne). Qed.

Lemma frame_set_add r a h : frame (Some a) h (set_add r a h).
Proof.
  intros b Hb Hne. unfold set_add. apply list_lookup_insert_ne. congruence.
Qed.

(** A callee that changes only the set at a new address changes nothing
    the caller has. *)
Lemma frame_copy a h h' : frame (Some (length h)) (set_copy a h).2 h' -> frame None h h'.
Proof.
  intros Hf b Hb _. rewrite Hf; simpl.
  - by apply lookup_app_l.
  - rewrite length_app. lia.
  - intros [= ->]. lia.
Qed.

Lemma refines_Ok a h r : refines a h (Ok (r, h)) (Ok r).
Proof. split; [done|]. intros ?? [= <- <-]. apply frame_refl. Qed.

Lemma refines_Err a h e : refines a h (Err e) (Err e).
Proof. by split. Qed.

Section refinement.
Context (rec_st : option json -> nat -> nat -> heap -> result (SchemaAnalysis * heap)).
Context (rec : option json -> gset string -> nat -> result SchemaAnalysis).
Context (spec : json).
Hypothesis Hrec : forall schema a d h,
  a < length h -> refines (Some a) h (rec_st schema a d h) (rec schema (h !!! a) d).

Lemma branch_refines sub a d h :
  a < length h -> refines None h (branch_st rec_st sub a d h) (rec sub (h !!! a) d).
Proof.
  intros Ha. unfold branch_st. simpl.
  destruct (Hrec sub (length h) d (h ++ [h !!! a])) as [Hres Hframe];
    [rewrite length_app; simpl; lia|].
  rewrite list_lookup_total_middle in Hres by done.
  split; [done|]. intros r h' Heq. apply (frame_copy a). exact (Hframe r h' Heq).
Qed.

Lemma step_refines {X} (sub : X -> option json) combine a d h0 acc h x :
  a < length h0 -> frame None h0 h ->
  refines None h (step_st rec_st sub combine a d (acc, h) x)
    (let! r := rec (sub x) (h0 !!! a) d in Ok (combine acc x r)).
Proof.
  intros Ha Hh. unfold step_st. simpl.
  destruct (branch_refines (sub x) a d h) as [Hres Hframe];
    [by apply (frame_length None h0)|].
  rewrite (frame_total None h0 h) in Hres by done. rewrite <- Hres.
  destruct (branch_st rec_st (sub x) a d h) as [[r h']|]; simpl; [|done].
  split; [done|]. intros ?? [= <- <-]. by apply (Hframe r).
Qed.

Lemma loop_refines {X} (sub : X -> option json) combine a d h0 (l : list X) acc h :
  a < length h0 -> frame None h0 h ->
  refines None h (foldM (step_st rec_st sub combine a d) l (acc, h))
    (foldM (fun acc x => let! r := rec (sub x) (h0 !!! a) d in Ok (combine acc x r)) l acc).
Proof.
  intros Ha. revert acc h; induction l as [|x l IH]; intros acc h Hh; [apply refines_Ok|].
  simpl. destruct (step_refines sub combine a d h0 acc h x Ha Hh) as [Hres Hframe].
  rewrite <- Hres.
  destruct (step_st rec_st sub combine a d (acc, h) x) as [[acc' h']|]; simpl; [|done].
  specialize (Hframe acc' h' eq_refl).
  destruct (IH acc' h') as [Hres' Hframe']; [by eapply frame_trans|].
  split; [done|]. intros r h'' Heq. eapply frame_trans; eauto.
Qed.

Lemma ref_refines ref a d h :
  a < length h ->
  refines (Some a) h (ref_st rec_st spec ref a d h) (analyze_ref rec spec ref (h !!! a) d).
Proof.
  intros Ha. unfold ref_st, analyze_ref, set_has.
  destruct ref as [[| | |r| |]|]; try apply refines_Err.
  case_bool_decide; [apply refines_Ok|].
  destruct (Hrec (resolveRef spec r) a d (set_add r a h)) as [Hres Hframe];
    [unfold set_add; by rewrite length_insert|].
  unfold set_add in Hres at 2. rewrite list_lookup_total_insert_eq in Hres by done.
  split; [done|]. intros res h' Heq b Hb Hne.
  rewrite (Hframe res h' Heq b), (frame_set_add r a h b); try done.
  unfold set_add. by rewrite length_insert.
Qed.

Lemma weaken_refines a h c p : refines None h c p -> refines (Some a) h c p.
Proof. intros [Hres Hframe]. split; [done|]. intros r h' Heq b Hb _. by eapply Hframe. Qed.

Lemma allOf_refines allOf a d h :
  a < length h ->
  refines (Some a) h (allOf_st rec_st allOf a d h) (analyze_allOf rec allOf (h !!! a) d).
Proof.
  intros Ha. unfold allOf_st, analyze_allOf.
  destruct (js_iterate allOf); simpl; [|apply refines_Err].
  apply weaken_refines, (loop_refines Some allOf_combine a d h); [done | apply frame_refl].
Qed.

Lemma oneOf_refines schemas a d h :
  a < length h ->
  refines (Some a) h (oneOf_st rec_st schemas a d h) (analyze_oneOf rec schemas (h !!! a) d).
Proof.
  intros Ha. unfold oneOf_st, analyze_oneOf.
  destruct (js_iterate schemas); simpl; [|apply refines_Err].
  apply weaken_refines, (loop_refines Some oneOf_combine a d h); [done | apply frame_refl].
Qed.

Lemma array_refines items a d h :
  a < length h ->
  refines (Some a) h (array_st rec_st items a d h) (analyze_array rec items (h !!! a) d).
Proof.
  intros Ha. unfold array_st, analyze_array.
  destruct (Hrec items a (d + 1) h Ha) as [Hres Hframe]. rewrite <- Hres.
  destruct (rec_st items a (d + 1) h) as [[r h']|]; simpl; [|done].
  split; [by destruct r|]. intros ?? [= <- <-]. by apply (Hframe r).
Qed.

Lemma property_step_combine properties v d acc name :
  property_step rec properties v d acc name
  = (let! r := rec (get_prop properties name) v (d + 1) in
     Ok (property_combine properties acc name r)).
Proof. reflexivity. Qed.

Lemma object_refines s a d h :
  a < length h ->
  refines (Some a) h (object_st rec_st s a d h) (analyze_object rec s (h !!! a) d).
Proof.
  intros Ha. apply weaken_refines. unfold object_st, analyze_object.
  destruct (loop_refines (get_prop (properties_of s)) (property_combine (properties_of s))
              a (d + 1) h (object_keys (properties_of s))
              (mkAnalysis (length (object_keys (properties_of s)))
                 (if Nat.ltb 0 (length (object_keys (properties_of s))) then d else 0))
              h Ha (frame_refl _ _)) as [Hres Hframe].
  rewrite (foldM_ext _ _ _ _ (property_step_combine _ _ _)), <- Hres.
  destruct (foldM _ _ (_, h)) as [[acc h1]|]; simpl; [|done].
  specialize (Hframe acc h1 eq_refl). unfold additional_st, additional_step.
  destruct (_ && _); [|split; [done|]; by intros ?? [= <- <-]].
  destruct (step_refines (fun _ : unit => get_prop s "additionalProperties")
              (fun acc _ r => allOf_combine acc JNull r) a (d + 1) h acc h1 tt Ha Hframe)
    as [Hres' Hframe'].
  split; [done|]. intros r h' Heq. eapply frame_trans; eauto.
Qed.

Lemma body_refines schema a d h :
  a < length h ->
  refines (Some a) h (body_st rec_st spec schema a d h)
    (analyze_body rec spec schema (h !!! a) d).
Proof.
  intros Ha. rewrite analyze_body_shape. unfold body_st.
  destruct (shape_of schema);
    auto using refines_Ok, ref_refines, allOf_refines, oneOf_refines, array_refines,
      object_refines.
Qed.
End refinement.

Lemma analyzeSchema_st_refines fuel spec schema a d h :
  a < length h ->
  refines (Some a) h (analyzeSchema_st fuel spec schema a d h)
    (analyzeSchema fuel spec schema (h !!! a) d).
Proof.
  revert schema a d h; induction fuel as [|fuel IH]; intros schema a d h Ha;
    [apply refines_Err|].
  by apply body_refines.
Qed.

(** Where the analyzer returns, the stateful analyzer returns the same
    result and a heap. *)
Lemma analyze_st_returns spec schema h r :
  analyze spec schema = Ok r -> exists h', analyze_st spec schema h = Ok (r, h').
Proof.
  intros Hr.
  destruct (analyzeSchema_st_refines (fuel_for spec schema) spec schema (length h) 1 (h ++ [∅]))
    as [Hres _]; [rewrite length_app; simpl; lia|].
  rewrite list_lookup_total_middle in Hres by done. unfold analyze_st, analyze in *.
  destruct (analyzeSchema_st _ _ _ _ _ _) as [[r' h']|]; simpl in Hres; [|congruence].
  exists h'. congruence.
Qed.

(** C3: sharing is not observable.  The analyzer that mutates [Set]
    objects on a heap (adding to the caller's set in the reference
    branch, passing the set itself to the items of an array, copying it
    for every branch of a loop) returns and throws exactly what the
    analyzer that passes sets by value does, whatever sets earlier calls
    have left on the heap. *)
Theorem analyze_st_refines spec schema h :
  rmap fst (analyze_st spec schema h) = analyze spec schema.
Proof.
  destruct (analyzeSchema_st_refines (fuel_for spec schema) spec schema (length h) 1 (h ++ [∅]))
    as [Hres _]; [rewrite length_app; simpl; lia|].
  by rewrite list_lookup_total_middle in Hres.
Qed.

(** A call changes no set of its caller except the one it was given:
    every other [Set] on the heap is as it was when the call returns. *)
Theorem analyzeSchema_st_frame fuel spec schema a d h r h' b :
  a < length h -> analyzeSchema_st fuel spec schema a d h = Ok (r, h') ->
  b < length h -> b <> a -> h' !! b = h !! b.
Proof.
  intros Ha Heq Hb Hne.
  destruct (analyzeSchema_st_refines fuel spec schema a d h Ha) as [_ Hframe].
  apply (Hframe r h' Heq b Hb). congruence.
Qed.

Lemma analyzeSchema_st_frame_witness :
  [∅; {[ "T" ]}; {[ "T" ]}] !! 0 = [∅ : gset string; ∅] !! 0.
Proof.
  apply (analyzeSchema_st_frame 6
           (JObj [("T", object_schema [("c", array_schema (ref_schema "T"))])])
           (Some (ref_schema "T")) 1 1 [∅; ∅] (mkAnalysis 1 3));
    [simpl; lia | | simpl; lia | lia].
  vm_compute. reflexivity.
Defined.
