(* ===== verification/Invariant.v ===== *)
(** The invariant of [SchemaAnalysis] results.

    The spec asks for non-negative counts (the type [nat] gives that) and
    says when a depth is zero.  What the code guarantees is [depth_ok]:
    the depth a call reports is either [0] (nothing was found) or at
    least the depth the call started at, and it is never [0] when
    fields were counted. *)

From Stdlib Require Import String Ascii List ZArith Lia.
From stdpp Require Import base tactics option list strings gmap.
From S2P Require Import Prelude JsValue Fixtures ResolveRef Analyzer Termination.

#[local] Open Scope string_scope.

Definition depth_ok (depth : nat) (r : SchemaAnalysis) : Prop :=
  (maxDepth r = 0 \/ depth <= maxDepth r)
  /\ (0 < fieldCount r -> depth <= maxDepth r).

Lemma depth_ok_reached depth f m : depth <= m -> depth_ok depth (mkAnalysis f m).
Proof. intros H. split; simpl; auto. Qed.

Lemma depth_ok_deeper depth r : depth_ok (depth + 1) r -> depth_ok depth r.
Proof. intros [[H|H] H']; split; lia. Qed.

Lemma depth_ok_init depth n :
  depth_ok depth (mkAnalysis n (if Nat.ltb 0 n then depth else 0)).
Proof. destruct (Nat.ltb_spec 0 n); split; simpl; lia. Qed.

(** Folding a deeper result into an accumulator keeps [depth_ok]. *)
Lemma depth_ok_fold depth acc r f :
  depth_ok depth acc -> depth_ok (depth + 1) r ->
  f <= fieldCount acc + fieldCount r ->
  depth_ok depth (mkAnalysis f (Nat.max (maxDepth acc) (maxDepth r))).
Proof. intros [[?|?] ?] [[?|?] ?] ?; split; simpl; lia. Qed.

Section invariant.
Context (rec : option json -> gset string -> nat -> result SchemaAnalysis).
Context (spec : json).
Hypothesis Hrec : forall s v d r, rec s v d = Ok r -> depth_ok d r.

Lemma analyze_ref_ok ref v d r :
  analyze_ref rec spec ref v d = Ok r -> depth_ok d r.
Proof.
  unfold analyze_ref. destruct ref as [[]|]; try done.
  case_bool_decide; [intros [= <-]; by apply depth_ok_reached | apply Hrec].
Qed.

(** Both composition loops start at the current depth and only go up. *)
Lemma composition_loop_reached (step : SchemaAnalysis -> json -> result SchemaAnalysis) subs d r :
  (forall acc sub acc', step acc sub = Ok acc' -> maxDepth acc <= maxDepth acc') ->
  foldM step subs (mkAnalysis 0 d) = Ok r -> d <= maxDepth r.
Proof.
  intros Hstep Hr.
  apply (foldM_invariant (fun acc => d <= maxDepth acc)) in Hr; [done..|].
  intros acc sub acc' _ Hacc Hacc'. apply Hstep in Hacc'. lia.
Qed.

Lemma analyze_allOf_reached a v d r : analyze_allOf rec a v d = Ok r -> d <= maxDepth r.
Proof.
  unfold analyze_allOf. intros H. inv_ok. eapply composition_loop_reached; [|done].
  unfold allOf_step. intros ??? Hs. inv_ok. simpl. lia.
Qed.

Lemma analyze_oneOf_reached a v d r : analyze_oneOf rec a v d = Ok r -> d <= maxDepth r.
Proof.
  unfold analyze_oneOf. intros H. inv_ok. eapply composition_loop_reached; [|done].
  unfold oneOf_step. intros ??? Hs. inv_ok. simpl. lia.
Qed.

Lemma analyze_allOf_ok a v d r : analyze_allOf rec a v d = Ok r -> depth_ok d r.
Proof. intros H%analyze_allOf_reached. destruct r. by apply depth_ok_reached. Qed.

Lemma analyze_oneOf_ok a v d r : analyze_oneOf rec a v d = Ok r -> depth_ok d r.
Proof. intros H%analyze_oneOf_reached. destruct r. by apply depth_ok_reached. Qed.

Lemma analyze_array_ok items v d r : analyze_array rec items v d = Ok r -> depth_ok d r.
Proof.
  rewrite analyze_array_items. intros H%Hrec. by apply depth_ok_deeper.
Qed.

Lemma property_step_ok properties v d acc name acc' :
  depth_ok d acc -> property_step rec properties v d acc name = Ok acc' -> depth_ok d acc'.
Proof.
  rewrite property_step_contribution. intros Hacc H. inv_ok.
  eapply depth_ok_fold; [done | by eapply Hrec |].
  unfold contribution. simpl. case_match; lia.
Qed.

Lemma additional_step_ok ap v d acc acc' :
  depth_ok d acc -> additional_step rec ap v d acc = Ok acc' -> depth_ok d acc'.
Proof.
  unfold additional_step. intros Hacc H. case_match; inv_ok; [|done].
  eapply depth_ok_fold; [done | by eapply Hrec | done].
Qed.

Lemma analyze_object_ok s v d r : analyze_object rec s v d = Ok r -> depth_ok d r.
Proof.
  unfold analyze_object. intros H. inv_ok.
  eapply additional_step_ok; [|done].
  eapply (foldM_invariant (depth_ok d)); [apply depth_ok_init | |done].
  intros ???? Hacc. by apply property_step_ok.
Qed.

Lemma analyze_body_ok s v d r : analyze_body rec spec s v d = Ok r -> depth_ok d r.
Proof.
  rewrite analyze_body_shape. destruct (shape_of s);
    eauto using analyze_ref_ok, analyze_allOf_ok, analyze_oneOf_ok,
      analyze_array_ok, analyze_object_ok;
    intros [= <-]; split; simpl; lia.
Qed.
End invariant.

Lemma analyzeSchema_ok fuel spec s v d r :
  analyzeSchema fuel spec s v d = Ok r -> depth_ok d r.
Proof.
  revert s v d r; induction fuel as [|fuel IH]; intros s v d r; [done|].
  apply analyze_body_ok, IH.
Qed.

(** C11: every result of [analyzeSchema] is [0] deep or at least as deep
    as the call that returned it: the depth reported for a schema met at
    depth [d] is never a positive number below [d]. *)
Theorem analyzeSchema_depth_ok fuel spec s v d r :
  analyzeSchema fuel spec s v d = Ok r -> maxDepth r = 0 \/ d <= maxDepth r.
Proof. intros H%analyzeSchema_ok. apply H. Qed.

Lemma analyzeSchema_depth_ok_witness :
  maxDepth (mkAnalysis 2 3) = 0 \/ 2 <= maxDepth (mkAnalysis 2 3).
Proof.
  apply (analyzeSchema_depth_ok 5 empty_doc (Some nested_object) ∅ 2). reflexivity.
Defined.

(** C31: a composition always reports a depth: an [allOf], [oneOf] or
    [anyOf] met at depth [d] answers a depth of at least [d], also when
    it has no branch or only primitive ones, where the specification's
    invariant asks for a depth of [0]. *)
Theorem composition_reaches_depth fuel spec schema v d r :
  shape_of schema = AllOf \/ shape_of schema = OneOf ->
  analyzeSchema (S fuel) spec schema v d = Ok r -> d <= maxDepth r.
Proof.
  intros Hs. rewrite analyzeSchema_shape.
  destruct Hs as [-> | ->]; [apply analyze_allOf_reached | apply analyze_oneOf_reached].
Qed.

Lemma composition_reaches_depth_witness : 1 <= maxDepth (mkAnalysis 0 1).
Proof.
  apply (composition_reaches_depth 1 empty_doc (Some (allOf_schema [string_schema])) ∅ 1);
    [by left | reflexivity].
Defined.

(** A report never shows fields at depth zero: what [analyze] returns
    has [maxDepth >= 1] as soon as [fieldCount > 0]. *)
Theorem analyze_fields_have_depth spec schema r :
  analyze spec schema = Ok r -> 0 < fieldCount r -> 1 <= maxDepth r.
Proof. intros H%analyzeSchema_ok. by apply H. Qed.

Lemma analyze_fields_have_depth_witness : 1 <= maxDepth (mkAnalysis 2 2).
Proof.
  apply (analyze_fields_have_depth empty_doc (Some nested_object));
    [by rewrite (analyze_eq_fuel 5) | simpl; lia].
Defined.

(** ** A bound on the depth *)

Section depth_bound.
Context (rec : option json -> gset string -> nat -> result SchemaAnalysis).
Context (spec : json) (n : nat).
Hypothesis Hrec : forall s v d r, rec s v d = Ok r -> maxDepth r <= d + n.

(** A loop whose body folds in the depth of a call at most one level
    down keeps the bound. *)
Lemma loop_bound {X} (step : SchemaAnalysis -> X -> result SchemaAnalysis)
    (sub : X -> option json) v d d' l acc r :
  d' <= d + 1 ->
  (forall acc x acc', step acc x = Ok acc' ->
     exists res, rec (sub x) v d' = Ok res
       /\ maxDepth acc' = Nat.max (maxDepth acc) (maxDepth res)) ->
  maxDepth acc <= d + S n -> foldM step l acc = Ok r -> maxDepth r <= d + S n.
Proof.
  intros Hd Hstep Hacc. apply (foldM_invariant (fun acc => maxDepth acc <= d + S n)); [done|].
  intros acc0 x acc' _ H0 (res & Hres%Hrec & ->)%Hstep. lia.
Qed.

Lemma analyze_body_bound s v d r :
  analyze_body rec spec s v d = Ok r -> maxDepth r <= d + S n.
Proof.
  rewrite analyze_body_shape. destruct (shape_of s).
  - intros [= <-]. simpl. lia.
  - unfold analyze_ref. destruct (opt_get s "$ref") as [[]|]; try done.
    case_bool_decide; [intros [= <-]; simpl; lia | intros Hres%Hrec; lia].
  - unfold analyze_allOf. intros H. inv_ok.
    eapply (loop_bound _ Some v d d); [lia | | | done]; [|simpl; lia].
    unfold allOf_step. intros ??? Hs. inv_ok. eauto.
  - unfold analyze_oneOf. intros H. inv_ok.
    eapply (loop_bound _ Some v d d); [lia | | | done]; [|simpl; lia].
    unfold oneOf_step. intros ??? Hs. inv_ok. eauto.
  - rewrite analyze_array_items. intros Hres%Hrec. lia.
  - unfold analyze_object, additional_step. intros H. inv_ok.
    assert (maxDepth r0 <= d + S n) as Hacc.
    { eapply (loop_bound _ (get_prop _) v d (d + 1)); [lia | | | done];
        [|simpl; destruct (Nat.ltb _ _); lia].
      intros ??? Hs. rewrite property_step_contribution in Hs. inv_ok. eauto. }
    case_match; inv_ok; [|done]. simpl.
    match goal with H : rec _ _ _ = Ok _ |- _ => apply Hrec in H end. lia.
  - intros [= <-]. simpl. lia.
Qed.
End depth_bound.

Lemma analyzeSchema_bound fuel spec s v d r :
  analyzeSchema fuel spec s v d = Ok r -> maxDepth r <= d + fuel.
Proof.
  revert s v d r; induction fuel as [|fuel IH]; intros s v d r; [done|].
  by apply analyze_body_bound.
Qed.

(** C12: the depth a report shows is bounded by the size of the document:
    it is at most the number of distinct references times the height of
    the document, plus the height of the schema, plus two. *)
Theorem analyze_depth_bounded spec schema r :
  analyze spec schema = Ok r ->
  maxDepth r <= size (refs spec ∪ refs_opt schema) * S (height spec) + height_opt schema + 2.
Proof.
  intros H%analyzeSchema_bound. unfold fuel_for, need in H.
  replace ((refs spec ∪ refs_opt schema) ∖ ∅) with (refs spec ∪ refs_opt schema) in H
    by set_solver.
  lia.
Qed.

Lemma analyze_depth_bounded_witness :
  maxDepth (mkAnalysis 2 2)
  <= size (refs empty_doc ∪ refs_opt (Some nested_object)) * S (height empty_doc)
     + height_opt (Some nested_object) + 2.
Proof.
  apply (analyze_depth_bounded empty_doc (Some nested_object)). by rewrite (analyze_eq_fuel 5).
Defined.
