(* ===== verification/Scenarios.v ===== *)
(** The analyzer on the schemas the specification names, and on the
    schemas where code and specification part ways. *)

From Stdlib Require Import String Ascii List ZArith Lia.
From stdpp Require Import base tactics option list strings gmap.
From S2P Require Import Prelude JsValue Fixtures ResolveRef Analyzer Termination.

#[local] Open Scope string_scope.

(** ** The scenarios of the specification *)

Example scenario_flat_object :
  analyze empty_doc (Some flat_object) = Ok (mkAnalysis 2 1).
Proof. reflexivity. Qed.

Example scenario_nested_object :
  analyze empty_doc (Some nested_object) = Ok (mkAnalysis 2 2).
Proof. reflexivity. Qed.

Example scenario_array_of_strings :
  analyze empty_doc (Some (array_schema string_schema)) = Ok no_fields.
Proof. reflexivity. Qed.

Example scenario_recursive_tree :
  analyze tree_doc (Some (ref_schema "#/definitions/Tree")) = Ok (mkAnalysis 2 3).
Proof. vm_compute. reflexivity. Qed.

(** A schema that is a reference to itself is analyzed as a cycle at
    the starting depth: [analyze] returns [{0, 1}] and does not loop. *)
Theorem analyze_self_reference spec s r :
  shape_of (Some s) = Ref -> get_prop s "$ref" = Some (JStr r) ->
  resolveRef spec r = Some s ->
  analyze spec (Some s) = Ok (mkAnalysis 0 1).
Proof.
  intros Hshape Hr Hres.
  assert (analyzeSchema 2 spec (Some s) ∅ 1 = Ok (mkAnalysis 0 1)) as H2.
  { rewrite analyzeSchema_shape, Hshape. simpl opt_get.
    rewrite Hr, analyze_ref_fresh, Hres by set_solver.
    rewrite analyzeSchema_shape, Hshape. simpl opt_get.
    rewrite Hr. apply analyze_ref_cycle. set_solver. }
  rewrite (analyze_eq_fuel 2); [done | by rewrite H2].
Qed.

Lemma analyze_self_reference_witness :
  analyze self_doc (Some (ref_schema "#/components/schemas/Node")) = Ok (mkAnalysis 0 1).
Proof.
  apply (analyze_self_reference self_doc _ "#/components/schemas/Node");
    reflexivity.
Defined.

(** Sibling branches do not share their cycle history: both
    branches of an [allOf] that names the same schema twice are analyzed
    from the same path, and the fields of the schema are counted twice. *)
Theorem siblings_are_independent fuel spec s v d r :
  analyzeSchema fuel spec (Some s) v d = Ok r ->
  analyzeSchema (S fuel) spec (Some (allOf_schema [s; s])) v d
  = Ok (mkAnalysis (fieldCount r + fieldCount r) (Nat.max d (maxDepth r))).
Proof.
  intros Hr. rewrite analyzeSchema_shape. simpl.
  rewrite (analyze_allOf_sum _ _ _ _ [s; s] [r; r]) by (done || by repeat constructor).
  simpl. do 2 f_equal; lia.
Qed.

Lemma siblings_are_independent_witness :
  analyzeSchema 6 tree_doc (Some (allOf_schema [ref_schema "#/definitions/Tree";
                                                ref_schema "#/definitions/Tree"])) ∅ 1
  = Ok (mkAnalysis (2 + 2) (Nat.max 1 3)).
Proof. apply (siblings_are_independent 5 tree_doc _ ∅ 1 (mkAnalysis 2 3)). by vm_compute. Defined.

(** ** Where the code leaves the specification *)

(** C29: the analyzer can throw, although the specification says it never
    raises: a truthy [$ref] that is not a string, and a truthy [allOf]
    that cannot be iterated, end the analysis of any document in a
    [TypeError]. *)
Theorem analyze_can_throw spec schema :
  (shape_of schema = Ref /\ forall r, opt_get schema "$ref" <> Some (JStr r))
  \/ (shape_of schema = AllOf /\ js_iterate (opt_get schema "allOf") = Err TypeError) ->
  analyze spec schema = Err TypeError.
Proof.
  intros H. rewrite (analyze_eq_fuel 1); destruct H as [[Hs H]|[Hs H]];
    rewrite ?(analyzeSchema_ref_not_string 0 _ _ _ _ Hs H),
            ?(analyzeSchema_allOf_not_iterable 0 _ _ _ _ Hs H); done.
Qed.

Lemma analyze_can_throw_witness :
  analyze empty_doc (Some (JObj [("$ref", JNum 5)])) = Err TypeError.
Proof. apply analyze_can_throw. left. split; [reflexivity | discriminate]. Defined.

(** C30: the structural guard changes results.  A property whose schema is
    not structural (a composition, say) is counted as one field whatever
    fields its own analysis finds: the specification's design note, that
    the guard could be dropped, does not hold. *)
Theorem guard_hides_fields fuel spec name sub r :
  structural (Some sub) = false ->
  analyzeSchema fuel spec (Some sub) ∅ 2 = Ok r ->
  analyze spec (Some (object_schema [(name, sub)]))
  = Ok (mkAnalysis 1 (Nat.max 1 (maxDepth r))).
Proof.
  intros Hguard Hr.
  assert (get_prop (JObj [(name, sub)]) name = Some sub) as Hget
    by (simpl; by rewrite String.eqb_refl).
  assert (analyzeSchema (S fuel) spec (Some (object_schema [(name, sub)])) ∅ 1
          = Ok (mkAnalysis 1 (Nat.max 1 (maxDepth r)))) as H.
  { rewrite analyzeSchema_shape. simpl shape_of. cbv iota. unfold analyze_object.
    change (properties_of _) with (JObj [(name, sub)]).
    rewrite (property_loop _ _ _ _ _ [r]) by (constructor; [simpl fst; by rewrite Hget | constructor]).
    unfold contribution. simpl zip. csimpl. rewrite String.eqb_refl, Hguard. simpl.
    do 2 f_equal; lia. }
  rewrite (analyze_eq_fuel (S fuel)); [done | by rewrite H].
Qed.

Lemma guard_hides_fields_witness :
  analyze empty_doc (Some (object_schema [("a", allOf_schema [flat_object])]))
  = Ok (mkAnalysis 1 (Nat.max 1 (maxDepth (mkAnalysis 2 2)))).
Proof. apply (guard_hides_fields 5); reflexivity. Defined.
