(* ===== verification/Blowup.v ===== *)
(** The size of a result against the size of the document.

    [analyzeSchema] ([src/src/lib/openapi-parser.ts], lines 33-121)
    keeps the pointers it has followed on the way to a schema, not the
    schemas it has analysed: a schema that is referred to twice is
    analysed twice.  [chain_doc n] has [n + 1] definitions, the first an
    object with one property and each further one an [allOf] of two
    references to the one before.  The analysis of the last definition
    counts [2 ^ n] fields: neither the result nor the number of calls
    that add it up is bounded by the size of the document. *)

From Stdlib Require Import String Ascii List ZArith Lia.
From stdpp Require Import base tactics option list strings gmap.
From S2P Require Import Prelude JsValue Fixtures ResolveRef Analyzer Termination Spec Stateful.

#[local] Open Scope string_scope.
#[local] Open Scope list_scope.
#[local] Open Scope result_scope.

(** ** The documents *)

(** The name of the [i]-th definition: [leaf], [xleaf], [xxleaf], ... *)
Fixpoint level (i : nat) : string :=
  match i with
  | 0 => "leaf"
  | S i => String "x" (level i)
  end.

Definition pointer (i : nat) : string := "#/" +:+ level i.

(** [{allOf: [{$ref: p}, {$ref: p}]}] for the pointer [p] to level [i]. *)
Definition twice (i : nat) : json :=
  allOf_schema [ref_schema (pointer i); ref_schema (pointer i)].

Definition leaf : json := object_schema [("id", string_schema)].

Fixpoint levels (n : nat) : list (string * json) :=
  match n with
  | 0 => [(level 0, leaf)]
  | S n' => (level n, twice n') :: levels n'
  end.

Definition chain_doc (n : nat) : json := JObj (levels n).

Definition definition (i : nat) : json :=
  match i with
  | 0 => leaf
  | S i => twice i
  end.

(** The number of values a document is made of. *)
Fixpoint nodes (j : json) : nat :=
  match j with
  | JArr l => S (sum_list (nodes <$> l))
  | JObj kvs => S (sum_list ((fun kv => nodes kv.2) <$> kvs))
  | _ => 1
  end.

(** A computation on the heap [h] that, when it returns, has allocated
    [k] sets. *)
Definition allocates (k : nat) (h : heap) (c : result (SchemaAnalysis * heap)) : Prop :=
  forall r h', c = Ok (r, h') -> length h' = length h + k.

(** * Lemmas *)

(** ** Names and pointers *)

Lemma level_inj i j : level i = level j -> i = j.
Proof.
  revert j; induction i as [|i IH]; intros [|j]; simpl; try done.
  intros [= H]. by rewrite (IH j).
Qed.

Lemma level_no_slash i : ~ has_char "/" (level i).
Proof.
  unfold has_char. induction i as [|i IH]; simpl.
  - by vm_compute; intros H; repeat (apply elem_of_cons in H as [H|H]; [done|]); apply elem_of_nil in H.
  - rewrite not_elem_of_cons. by split.
Qed.

Lemma pointer_inj i j : pointer i = pointer j -> i = j.
Proof. unfold pointer. simpl. intros [= H]. by apply level_inj. Qed.

(** ** The definitions of a document *)


Lemma levels_lookup n i : i <= n -> alist_lookup (level i) (levels n) = Some (definition i).
Proof.
  induction n as [|n IH]; intros Hi; cbn [levels alist_lookup].
  - assert (i = 0) as -> by lia. by rewrite String.eqb_refl.
  - destruct (String.eqb_spec (level (S n)) (level i)) as [<-%level_inj|Hne]; [done|].
    apply IH. destruct (decide (i = S n)) as [->|]; [done | lia].
Qed.

Lemma resolve_level n i : i <= n -> resolveRef (chain_doc n) (pointer i) = Some (definition i).
Proof.
  intros Hi. change (pointer i) with ("#/" +:+ join "/" [level i]).
  rewrite resolveRef_join; [| done | by repeat constructor; apply level_no_slash].
  by apply levels_lookup.
Qed.

(** ** The size of a document *)

Lemma nodes_twice i : nodes (twice i) = 6.
Proof. done. Qed.

Lemma nodes_levels n : sum_list ((fun kv => nodes kv.2) <$> levels n) = 6 * n + 5.
Proof.
  induction n as [|n IH]; [done|]. cbn [levels fmap list_fmap sum_list snd].
  rewrite IH, nodes_twice. unfold id. lia.
Qed.

(** ** The analysis of a level *)

Lemma leaf_analysis spec v d : Analyzes spec (Some leaf) v d (mkAnalysis 1 d).
Proof.
  replace (mkAnalysis 1 d) with (object_result leaf d [no_fields] [])
    by (unfold object_result; simpl; f_equal; lia).
  apply Analyzes_object; [done | | constructor].
  apply AnalyzesAll_cons; [by apply Analyzes_primitive | constructor].
Qed.

Lemma pointer_ref i : shape_of (Some (ref_schema (pointer i))) = Ref.
Proof. done. Qed.

Lemma level_analysis n i v d :
  i <= n -> (forall j, j <= i -> pointer j ∉ v) ->
  Analyzes (chain_doc n) (Some (ref_schema (pointer i))) v d (mkAnalysis (2 ^ i) d).
Proof.
  revert v. induction i as [|i IH]; intros v Hi Hv;
    (eapply Analyzes_ref; [apply pointer_ref | done | by apply Hv | rewrite resolve_level by done]).
  - apply leaf_analysis.
  - assert (Hbelow : forall j, j <= i -> pointer j ∉ ({[pointer (S i)]} ∪ v : gset string)).
    { intros j Hj [E%elem_of_singleton%pointer_inj|Hin]%elem_of_union; [lia|].
      by apply (Hv j); [lia|]. }
    replace (mkAnalysis (2 ^ S i) d) with
      (mkAnalysis (sum_list (fieldCount <$> [mkAnalysis (2 ^ i) d; mkAnalysis (2 ^ i) d]))
                  (max_list (d :: (maxDepth <$> [mkAnalysis (2 ^ i) d; mkAnalysis (2 ^ i) d]))))
      by (simpl; f_equal; lia).
    eapply Analyzes_allOf; [done | done |].
    repeat (apply AnalyzesAll_cons; [apply IH; [lia | done]|]). constructor.
Qed.

(** ** The sets of a level *)

Lemma ref_level_st fuel n i a d h :
  i <= n -> pointer i ∉ h !!! a ->
  analyzeSchema_st (S fuel) (chain_doc n) (Some (ref_schema (pointer i))) a d h
  = analyzeSchema_st fuel (chain_doc n) (Some (definition i)) a d (set_add (pointer i) a h).
Proof.
  intros Hi Hv. cbn [analyzeSchema_st]. unfold body_st. rewrite pointer_ref.
  unfold ref_st, set_has. cbn [opt_get ref_schema get_prop alist_lookup String.eqb Ascii.eqb Bool.eqb].
  by rewrite bool_decide_false, resolve_level.
Qed.

Lemma twice_st fuel spec i a d h r h' :
  analyzeSchema_st (S fuel) spec (Some (twice i)) a d h = Ok (r, h') ->
  exists r1 h1 r2,
    analyzeSchema_st fuel spec (Some (ref_schema (pointer i))) (length h) d (h ++ [h !!! a])
    = Ok (r1, h1)
    /\ analyzeSchema_st fuel spec (Some (ref_schema (pointer i))) (length h1) d (h1 ++ [h1 !!! a])
      = Ok (r2, h').
Proof.
  cbn [analyzeSchema_st]. unfold body_st. change (shape_of (Some (twice i))) with AllOf.
  unfold allOf_st. cbn. unfold step_st, branch_st, set_copy. cbn [fst snd].
  intros ([acc1 h1] & ([r1 h1'] & H1 & [= _ <-])%rbind_ok & Hrest)%rbind_ok.
  apply rbind_ok in Hrest as ([acc2 h2] & ([r2 h2'] & H2 & [= _ <-])%rbind_ok & [= _ <-]).
  by exists r1, h1', r2.
Qed.

Lemma leaf_allocates fuel spec a d h :
  allocates 1 h (analyzeSchema_st fuel spec (Some leaf) a d h).
Proof.
  destruct fuel as [|[|fuel]]; [done..|]. intros r h' [= _ <-].
  rewrite length_app. simpl. lia.
Qed.

Lemma allocates_set_add k r a h c : allocates k (set_add r a h) c -> allocates k h c.
Proof. intros Hc res h' Heq. rewrite (Hc res h' Heq). unfold set_add. by rewrite length_insert. Qed.

Lemma copy_lookup a (h : heap) : a < length h -> (h ++ [h !!! a]) !!! length h = h !!! a.
Proof. intros _. by apply list_lookup_total_middle. Qed.

(** The set of a caller after a branch has returned. *)
Lemma branch_keeps fuel spec schema a d h r h' :
  a < length h ->
  analyzeSchema_st fuel spec schema (length h) d (h ++ [h !!! a]) = Ok (r, h') ->
  h' !!! a = h !!! a.
Proof.
  intros Ha Heq. rewrite !list_lookup_total_alt.
  apply analyzeSchema_st_frame with (b := a) in Heq; rewrite ?length_app; simpl; try lia.
  by rewrite Heq, lookup_app_l.
Qed.

Lemma level_allocates n i : forall fuel a d h,
  i <= n -> a < length h -> (forall j, j <= i -> pointer j ∉ h !!! a) ->
  allocates (3 * 2 ^ i - 2) h
    (analyzeSchema_st fuel (chain_doc n) (Some (ref_schema (pointer i))) a d h).
Proof.
  induction i as [|i IH]; intros [|fuel] a d h Hi Ha Hv; try done;
    rewrite ref_level_st by auto;
    [apply (allocates_set_add _ (pointer 0) a), leaf_allocates|].
  apply (allocates_set_add _ (pointer (S i)) a).
  assert (Ha0 : a < length (set_add (pointer (S i)) a h))
    by (unfold set_add; by rewrite length_insert).
  assert (Hv0 : forall j, j <= i -> pointer j ∉ set_add (pointer (S i)) a h !!! a).
  { intros j Hj. unfold set_add. rewrite list_lookup_total_insert_eq by done.
    intros [E%elem_of_singleton%pointer_inj|Hin]%elem_of_union; [lia|]. by apply (Hv j); [lia|]. }
  remember (set_add (pointer (S i)) a h) as h0 eqn:E. clear E Hv Ha.
  destruct fuel as [|fuel]; [done|]. cbn [definition].
  intros r h' (r1 & h1 & r2 & H1 & H2)%twice_st.
  pose proof (branch_keeps _ _ _ _ _ _ _ _ Ha0 H1) as Hkeep.
  apply IH in H1, H2; rewrite ?length_app in *; simpl in *; try lia.
  - pose proof (Nat.pow_nonzero 2 i). lia.
  - intros j Hj. rewrite list_lookup_total_middle, Hkeep by done. by apply Hv0.
  - intros j Hj. rewrite list_lookup_total_middle by done. by apply Hv0.
Qed.

Lemma chain_analysis n :
  analyze (chain_doc n) (Some (ref_schema (pointer n))) = Ok (mkAnalysis (2 ^ n) 1).
Proof. apply rules_returned, level_analysis; [done | set_solver]. Qed.

(** * Theorems *)

(** C13: neither the result of an analysis nor the work it takes is bounded
    by the size of the document.  [chain_doc n] is made of [6 * n + 6]
    values; the analysis of its last definition counts [2 ^ n] fields,
    and it has allocated [3 * 2 ^ n - 1] [Set] objects when it
    returns. *)
Theorem analysis_exponential n :
  nodes (chain_doc n) = 6 * n + 6
  /\ analyze (chain_doc n) (Some (ref_schema (pointer n))) = Ok (mkAnalysis (2 ^ n) 1)
  /\ exists h, analyze_st (chain_doc n) (Some (ref_schema (pointer n))) [] = Ok (mkAnalysis (2 ^ n) 1, h)
       /\ length h + 1 = 3 * 2 ^ n.
Proof.
  split; [by simpl; rewrite nodes_levels; lia|]. split; [apply chain_analysis|].
  destruct (analyze_st_returns _ _ [] _ (chain_analysis n)) as [h Hh]. exists h. split; [done|].
  apply level_allocates in Hh; [| done | simpl; lia | set_solver].
  rewrite Hh. pose proof (Nat.pow_nonzero 2 n). cbn [length app]. lia.
Qed.

(** Ten definitions, a thousand fields. *)
Example chain_ten :
  analyze (chain_doc 10) (Some (ref_schema (pointer 10))) = Ok (mkAnalysis 1024 1).
Proof. by vm_compute. Qed.
