(* ===== verification/Pipeline.v ===== *)
(** The pipeline: [parseOpenAPI] of [src/src/lib/openapi-parser.ts], from
    the text of a document to the report.

    The two decoders, [JSON.parse] and [yaml.load] of js-yaml, are library
    code: the pipeline is written against the interface [Decoder] and its
    theorems hold for every decoder. *)

From Stdlib Require Import String Ascii List ZArith Lia.
From stdpp Require Import base tactics option list strings gmap.
From S2P Require Import Prelude JsValue Fixtures ResolveRef Extractor Analyzer Termination.

#[local] Open Scope string_scope.
#[local] Open Scope list_scope.
#[local] Open Scope result_scope.

(** What the pipeline asks of the decoders: a value or an exception
    ([None]); [yaml.load] may also return [undefined] ([Some None]), for
    an empty document. *)
Class Decoder : Type := {
  JSON_parse : string -> option json;
  yaml_load : string -> option (option json);
}.

(** [interface EndpointAnalysis]; the optional fields carry whatever the
    document holds under the key. *)
Record EndpointAnalysis : Type := mkEndpoint {
  path : string;
  method : string;
  operationId : option json;
  summary : option json;
  request : SchemaAnalysis;
  response : SchemaAnalysis;
}.

(** [interface OpenAPIAnalysis]; [title] and [version] are the document's
    values when truthy, strings or not. *)
Record OpenAPIAnalysis : Type := mkReport {
  title : json;
  version : json;
  endpoints : list EndpointAnalysis;
  totalEndpoints : nat;
}.

Definition methods : list string :=
  ["get"; "post"; "put"; "patch"; "delete"; "options"; "head"].

Definition upper_char (c : ascii) : ascii :=
  let n := nat_of_ascii c in
  if (97 <=? n)%nat && (n <=? 122)%nat then ascii_of_nat (n - 32) else c.

(** [s.toUpperCase()] on the ASCII letters (the method names are). *)
Fixpoint toUpperCase (s : string) : string :=
  match s with
  | EmptyString => EmptyString
  | String c s' => String (upper_char c) (toUpperCase s')
  end.

(** The [try { JSON.parse } catch { try { yaml.load } catch { throw } }]
    at the top of [parseOpenAPI]. *)
Definition decode `{Decoder} (content : string) : result (option json) :=
  match JSON_parse content with
  | Some j => Ok (Some j)
  | None =>
      match yaml_load content with
      | Some v => Ok v
      | None => Err ParseFailure
      end
  end.

(** The body of the inner loop, once [operation] is known to be truthy. *)
Definition analyze_operation (spec : json) (path : string) (method : string)
    (operation : json) : result EndpointAnalysis :=
  let! requestSchema := getRequestSchema spec operation in
  let responseSchema := getResponseSchema spec operation in
  let! requestAnalysis := analyze spec requestSchema in
  let! responseAnalysis := analyze spec responseSchema in
  Ok (mkEndpoint path (toUpperCase method)
        (get_prop operation "operationId") (get_prop operation "summary")
        requestAnalysis responseAnalysis).

(** One turn of [for (const method of methods)]. *)
Definition method_step (spec : json) (path : string) (pathItem : json)
    (endpoints : list EndpointAnalysis) (method : string)
  : result (list EndpointAnalysis) :=
  let operation := get_prop pathItem method in
  if negb (truthy operation) then Ok endpoints
  else
    let! endpoint := analyze_operation spec path method (default JNull operation) in
    Ok (endpoints ++ [endpoint]).

(** One turn of [for (const [path, pathItem] of Object.entries(paths))]. *)
Definition path_step (spec : json) (endpoints : list EndpointAnalysis)
    (entry : string * json) : result (list EndpointAnalysis) :=
  let '(path, pathItem) := entry in
  if negb (truthy_json pathItem) || negb (typeof_object (Some pathItem)) then Ok endpoints
  else foldM (method_step spec path pathItem) methods endpoints.

(** [parseOpenAPI] after decoding. *)
Definition analyze_document (spec : option json) : result OpenAPIAnalysis :=
  let! openapi := get_prop_strict spec "openapi" in
  if negb (truthy openapi) && negb (truthy (opt_get spec "swagger")) then Err InvalidSpec
  else
    let info := js_or_default (opt_get spec "info") (JObj []) in
    let paths := js_or_default (opt_get spec "paths") (JObj []) in
    let! endpoints := foldM (path_step (default JNull spec)) (object_entries paths) [] in
    Ok (mkReport (js_or_default (get_prop info "title") (JStr "Untitled API"))
                 (js_or_default (get_prop info "version") (JStr "N/A"))
                 endpoints (length endpoints)).

Definition parseOpenAPI `{Decoder} (content : string) : result OpenAPIAnalysis :=
  let! spec := decode content in
  analyze_document spec.

(** A decoder for the examples: it knows three JSON texts and reads the
    empty text as an empty YAML document. *)
Definition table_decoder : Decoder := {|
  JSON_parse content :=
    alist_lookup content [("items.json", items_doc); ("null", JNull); ("{}", JObj [])];
  yaml_load content := if String.eqb content EmptyString then Some None else None;
|}.

(** The report of [items_doc]. *)
Definition items_report : OpenAPIAnalysis :=
  mkReport (JStr "Untitled API") (JStr "N/A")
    [mkEndpoint "/items" "GET" None None (mkAnalysis 0 0) (mkAnalysis 0 0);
     mkEndpoint "/items" "POST" (Some (JStr "createItem")) None
       (mkAnalysis 2 1) (mkAnalysis 2 2)]
    2.

(** * Lemmas *)

(** ** The operations of a document, declaratively *)

Definition is_path_item (pathItem : json) : bool :=
  truthy_json pathItem && typeof_object (Some pathItem).

(** The operations the loops of [parseOpenAPI] reach, with the path,
    the method as written in [methods] and the value found under it. *)

Definition declared_in (p : string) (pathItem : json) : list (string * string * json) :=
  methods ≫= fun m =>
    match get_prop pathItem m with
    | Some operation => if truthy_json operation then [(p, m, operation)] else []
    | None => []
    end.

Definition operations_in (entry : string * json) : list (string * string * json) :=
  if is_path_item entry.2 then declared_in entry.1 entry.2 else [].

Definition operations (paths : json) : list (string * string * json) :=
  object_entries paths ≫= operations_in.

(** [e] is what [analyze_operation] returns for the operation [o]. *)
Definition analysis_of (doc : json) (e : EndpointAnalysis) (o : string * string * json) : Prop :=
  analyze_operation doc o.1.1 o.1.2 o.2 = Ok e.

(** The (path, METHOD) pairs of a document: paths in enumeration order,
    methods in the fixed order. *)
Definition declared_operations (paths : json) : list (string * string) :=
  (fun o => (o.1.1, toUpperCase o.1.2)) <$> operations paths.

Definition endpoint_key (e : EndpointAnalysis) : string * string := (path e, method e).

Lemma analyze_operation_key spec p m operation e :
  analyze_operation spec p m operation = Ok e -> endpoint_key e = (p, toUpperCase m).
Proof. unfold analyze_operation. intros H. by inv_ok. Qed.

(** ** What an endpoint holds *)

(** [e] is the endpoint of an operation the document declares under
    [paths]. *)
Definition declared_endpoint (doc paths : json) (e : EndpointAnalysis) : Prop :=
  exists p pathItem m operation,
    (p, pathItem) ∈ object_entries paths /\ m ∈ methods
    /\ get_prop pathItem m = Some operation
    /\ analyze_operation doc p m operation = Ok e.

(** The four steps of [analyze_operation], read back from its result. *)
Lemma analyze_operation_Ok doc p m operation e :
  analyze_operation doc p m operation = Ok e ->
  exists requestSchema,
    getRequestSchema doc operation = Ok requestSchema
    /\ analyze doc requestSchema = Ok (request e)
    /\ analyze doc (getResponseSchema doc operation) = Ok (response e)
    /\ e = mkEndpoint p (toUpperCase m) (get_prop operation "operationId")
            (get_prop operation "summary") (request e) (response e).
Proof. unfold analyze_operation. intros H. inv_ok. eauto. Qed.

Lemma elem_of_operations paths p m operation :
  (p, m, operation) ∈ operations paths
  <-> exists pathItem,
        (p, pathItem) ∈ object_entries paths /\ is_path_item pathItem = true
        /\ m ∈ methods /\ get_prop pathItem m = Some operation
        /\ truthy_json operation = true.
Proof.
  unfold operations, operations_in, declared_in. rewrite list_elem_of_bind. split.
  - intros ([p' pathItem] & Ho & Hentry). cbn [fst snd] in Ho.
    destruct (is_path_item pathItem) eqn:Hitem; [|by apply elem_of_nil in Ho].
    apply list_elem_of_bind in Ho as (m' & Ho & Hm).
    destruct (get_prop pathItem m') as [operation'|] eqn:E; [|by apply elem_of_nil in Ho].
    destruct (truthy_json operation') eqn:Ht; [|by apply elem_of_nil in Ho].
    apply list_elem_of_singleton in Ho as [= -> -> ->]. by exists pathItem.
  - intros (pathItem & Hentry & Hitem & Hm & Hop & Ht). exists (p, pathItem).
    split; [|done]. cbn [fst snd]. rewrite Hitem. apply list_elem_of_bind. exists m.
    split; [|done]. rewrite Hop, Ht. by left.
Qed.

Lemma method_step_operations doc p pathItem acc m acc' :
  method_step doc p pathItem acc m = Ok acc' ->
  exists new, acc' = acc ++ new
    /\ Forall2 (analysis_of doc) new
         match get_prop pathItem m with
         | Some operation => if truthy_json operation then [(p, m, operation)] else []
         | None => []
         end.
Proof.
  unfold method_step. destruct (get_prop pathItem m) as [operation|]; simpl;
    [destruct (truthy_json operation)|]; simpl; intros H; inv_ok;
    try (exists []; by rewrite app_nil_r).
  eexists [_]. split; [done|]. by repeat constructor.
Qed.

Lemma path_step_operations doc acc entry acc' :
  path_step doc acc entry = Ok acc' ->
  exists new, acc' = acc ++ new /\ Forall2 (analysis_of doc) new (operations_in entry).
Proof.
  destruct entry as [p pathItem]. unfold path_step, operations_in, is_path_item, declared_in.
  rewrite <- negb_andb. destruct (_ && _); cbn [negb fst snd].
  - apply foldM_extends. intros ???? Hs. by apply method_step_operations.
  - intros [= <-]. exists []. by rewrite app_nil_r.
Qed.

Lemma analyses_keys doc es os :
  Forall2 (analysis_of doc) es os ->
  endpoint_key <$> es = (fun o => (o.1.1, toUpperCase o.1.2)) <$> os.
Proof.
  induction 1 as [|e o es os He _ IH]; [done|]. csimpl. f_equal; [|done].
  by eapply analyze_operation_key.
Qed.

Lemma analyses_declared doc paths es :
  Forall2 (analysis_of doc) es (operations paths) -> Forall (declared_endpoint doc paths) es.
Proof.
  intros H. eapply Forall2_Forall_l; [done|]. apply Forall_forall.
  intros [[p m] operation] (pathItem & ? & _ & ? & ? & _)%elem_of_operations e He.
  by exists p, pathItem, m, operation.
Qed.

(** ** The report *)

Section report.
Context (spec : option json) (report : OpenAPIAnalysis).
Hypothesis Hreport : analyze_document spec = Ok report.

(** [totalEndpoints] is the number of endpoints of the report. *)
Theorem totalEndpoints_length : totalEndpoints report = length (endpoints report).
Proof. revert Hreport. unfold analyze_document. intros H. inv_ok. by case_match; inv_ok. Qed.

(** The endpoints of the report are the analyses of the operations of
    the document, one for one and in their order. *)
Lemma report_operations :
  Forall2 (analysis_of (default JNull spec)) (endpoints report)
    (operations (js_or_default (opt_get spec "paths") (JObj []))).
Proof.
  revert Hreport. unfold analyze_document. intros H. inv_ok. case_match; inv_ok. simpl.
  match goal with H : foldM _ _ _ = _ |- _ =>
    apply (foldM_extends _ (analysis_of (default JNull spec)) operations_in) in H
      as (new & -> & Hnew); [done|] end.
  intros ???? Hs. by apply path_step_operations.
Qed.

(** C15: the report has one endpoint per declared operation: the paths in
    the order [Object.entries] enumerates them (the order of the document,
    for paths that are not array indices), for each path the methods it
    declares in the order GET, POST, PUT, PATCH, DELETE, OPTIONS, HEAD. *)
Theorem endpoints_in_document_order :
  endpoint_key <$> endpoints report
  = declared_operations (js_or_default (opt_get spec "paths") (JObj [])).
Proof. apply analyses_keys with (default JNull spec), report_operations. Qed.

Lemma report_declared :
  Forall (declared_endpoint (default JNull spec)
            (js_or_default (opt_get spec "paths") (JObj []))) (endpoints report).
Proof. apply analyses_declared, report_operations. Qed.

(** C14: every endpoint of the report is the analysis of an operation of
    the document: its path is declared under [paths], its method is one
    of the seven, and its request and response are what [analyze] returns
    for the schemas [getRequestSchema] and [getResponseSchema] find in
    that operation. *)
Theorem endpoints_are_analyses e :
  e ∈ endpoints report ->
  let doc := default JNull spec in
  exists pathItem m operation requestSchema,
    (path e, pathItem) ∈ object_entries (js_or_default (opt_get spec "paths") (JObj []))
    /\ m ∈ methods /\ method e = toUpperCase m
    /\ get_prop pathItem m = Some operation
    /\ getRequestSchema doc operation = Ok requestSchema
    /\ analyze doc requestSchema = Ok (request e)
    /\ analyze doc (getResponseSchema doc operation) = Ok (response e).
Proof.
  intros He. pose proof report_declared as Hall. rewrite Forall_forall in Hall.
  destruct (Hall e He) as (p & pathItem & m & operation & ? & ? & ? & Hop).
  destruct (analyze_operation_Ok _ _ _ _ _ Hop) as (rs & ? & ? & ? & ->).
  by exists pathItem, m, operation, rs.
Qed.

(** The methods of a report are the seven, in capitals. *)
Lemma report_methods e :
  e ∈ endpoints report -> exists m, m ∈ methods /\ method e = toUpperCase m.
Proof.
  intros He. pose proof report_declared as Hall. rewrite Forall_forall in Hall.
  destruct (Hall e He) as (p & pathItem & m & operation & ? & ? & ? & Hop).
  apply analyze_operation_key in Hop. exists m. split; [done|]. by injection Hop.
Qed.

(** The title and the version of the report are those of the
    document's [info] when they are truthy, and ["Untitled API"] and
    ["N/A"] otherwise, also when there is no [info]. *)
Theorem report_metadata :
  let info := js_or_default (opt_get spec "info") (JObj []) in
  title report = js_or_default (get_prop info "title") (JStr "Untitled API")
  /\ version report = js_or_default (get_prop info "version") (JStr "N/A").
Proof. revert Hreport. unfold analyze_document. intros H. inv_ok. by case_match; inv_ok. Qed.

(** A document needs the marker [openapi] or [swagger] to get a
    report. *)
Theorem report_needs_marker :
  truthy (opt_get spec "openapi") || truthy (opt_get spec "swagger") = true.
Proof.
  revert Hreport. unfold analyze_document. intros H. inv_ok.
  destruct spec as [[]|]; simpl in *; try done; simplify_eq;
    case_match; try done; by destruct (truthy _), (truthy _).
Qed.
End report.

Lemma analyze_items_doc : analyze_document (Some items_doc) = Ok items_report.
Proof. by vm_compute. Qed.

Lemma totalEndpoints_length_witness :
  totalEndpoints items_report = length (endpoints items_report).
Proof. apply (totalEndpoints_length (Some items_doc)). by vm_compute. Defined.

Lemma endpoints_in_document_order_witness :
  endpoint_key <$> endpoints items_report
  = declared_operations (js_or_default (opt_get (Some items_doc) "paths") (JObj [])).
Proof. apply (endpoints_in_document_order (Some items_doc)). by vm_compute. Defined.

Lemma report_needs_marker_witness :
  truthy (opt_get (Some items_doc) "openapi") || truthy (opt_get (Some items_doc) "swagger")
  = true.
Proof. apply (report_needs_marker (Some items_doc) items_report). by vm_compute. Defined.

Lemma endpoints_are_analyses_witness :
  exists pathItem m operation requestSchema,
    ("/items", pathItem) ∈ object_entries (js_or_default (opt_get (Some items_doc) "paths") (JObj []))
    /\ m ∈ methods /\ "POST" = toUpperCase m
    /\ get_prop pathItem m = Some operation
    /\ getRequestSchema items_doc operation = Ok requestSchema
    /\ analyze items_doc requestSchema = Ok (mkAnalysis 2 1)
    /\ analyze items_doc (getResponseSchema items_doc operation) = Ok (mkAnalysis 2 2).
Proof.
  apply (endpoints_are_analyses (Some items_doc) items_report analyze_items_doc
           (mkEndpoint "/items" "POST" (Some (JStr "createItem")) None
              (mkAnalysis 2 1) (mkAnalysis 2 2))).
  by apply (list_elem_of_lookup_2 _ 1).
Defined.

Lemma report_metadata_witness :
  title items_report = JStr "Untitled API" /\ version items_report = JStr "N/A".
Proof. apply (report_metadata (Some items_doc) items_report). by vm_compute. Defined.

(** ** Errors *)

Section errors.
Context `{Decoder}.

(** Text that neither decoder accepts is rejected with the parse
    error. *)
Theorem parseOpenAPI_unreadable content :
  JSON_parse content = None -> yaml_load content = None ->
  parseOpenAPI content = Err ParseFailure.
Proof. intros H1 H2. unfold parseOpenAPI, decode. by rewrite H1, H2. Qed.

(** C24: a decoded document that is not [null] and has neither a truthy
    [openapi] nor a truthy [swagger] is rejected as an invalid
    specification. *)
Theorem parseOpenAPI_no_marker content spec :
  decode content = Ok (Some spec) -> spec <> JNull ->
  truthy (get_prop spec "openapi") = false ->
  truthy (get_prop spec "swagger") = false ->
  parseOpenAPI content = Err InvalidSpec.
Proof.
  intros Hd Hnull H1 H2. unfold parseOpenAPI, analyze_document. rewrite Hd. simpl.
  destruct spec; try done; simpl in *; by rewrite ?H1, ?H2.
Qed.

(** C25: a document that decodes to [null] or to [undefined] (the text
    [null], an empty YAML file) is rejected with a [TypeError], which is
    neither of the two errors [parseOpenAPI] declares. *)
Theorem parseOpenAPI_null content spec :
  decode content = Ok spec -> spec = None \/ spec = Some JNull ->
  parseOpenAPI content = Err TypeError.
Proof. intros Hd [-> | ->]; unfold parseOpenAPI; by rewrite Hd. Qed.

Lemma analyze_operation_terminates spec p m operation :
  terminates (analyze_operation spec p m operation).
Proof. unfold analyze_operation. eauto 8 with fuel. Qed.

Lemma path_step_terminates spec acc entry : terminates (path_step spec acc entry).
Proof.
  destruct entry as [p pathItem]. unfold path_step, method_step.
  case_match; [auto with fuel|]. apply foldM_terminates. intros acc' m _.
  case_match; [auto with fuel|].
  apply rbind_terminates; auto using analyze_operation_terminates with fuel.
Qed.

Lemma analyze_document_terminates spec : terminates (analyze_document spec).
Proof.
  unfold analyze_document. apply rbind_terminates; [destruct spec as [[]|]; simpl; auto with fuel|].
  intros openapi _. case_match; [auto with fuel|].
  apply rbind_terminates; [|auto with fuel].
  apply foldM_terminates. auto using path_step_terminates.
Qed.

(** C16: [parseOpenAPI] terminates on every text: it returns a report or
    throws, whatever reference cycles the document has. *)
Theorem parseOpenAPI_terminates content : terminates (parseOpenAPI content).
Proof.
  unfold parseOpenAPI, decode. apply rbind_terminates.
  - by repeat case_match.
  - intros. apply analyze_document_terminates.
Qed.
End errors.

Lemma parseOpenAPI_unreadable_witness :
  @parseOpenAPI table_decoder "openapi: [" = Err ParseFailure.
Proof. apply parseOpenAPI_unreadable; reflexivity. Defined.

Lemma parseOpenAPI_no_marker_witness : @parseOpenAPI table_decoder "{}" = Err InvalidSpec.
Proof. apply (parseOpenAPI_no_marker "{}" (JObj [])); done. Defined.

Lemma parseOpenAPI_null_witness : @parseOpenAPI table_decoder "null" = Err TypeError.
Proof. apply (parseOpenAPI_null "null" (Some JNull)); [reflexivity | by right]. Defined.

(** The same [TypeError] for an empty YAML file, which [yaml.load]
    reads as [undefined]. *)
Example parseOpenAPI_empty_yaml : @parseOpenAPI table_decoder EmptyString = Err TypeError.
Proof. reflexivity. Qed.

(** The pipeline on a document with two operations under one path:
    GET comes first although the document declares POST first, and each
    endpoint carries the analyses of its request and response schemas. *)
Example parseOpenAPI_items : @parseOpenAPI table_decoder "items.json" = Ok items_report.
Proof. by vm_compute. Qed.

(** The third scenario of the specification: one [GET /items] without a
    request body that answers an array of strings. *)
Example scenario_get_items :
  analyze_document
    (Some (JObj [("swagger", JStr "2.0");
                 ("paths", JObj [("/items", JObj [("get", items_get)])])]))
  = Ok (mkReport (JStr "Untitled API") (JStr "N/A")
          [mkEndpoint "/items" "GET" None None no_fields no_fields] 1).
Proof. by vm_compute. Qed.

(** The fourth scenario, in general: without an [info] the report is
    titled ["Untitled API"], version ["N/A"]. *)
Lemma report_without_info spec report :
  analyze_document spec = Ok report -> truthy (opt_get spec "info") = false ->
  title report = JStr "Untitled API" /\ version report = JStr "N/A".
Proof.
  intros Hreport Hinfo. destruct (report_metadata spec report Hreport) as [-> ->].
  by destruct (opt_get spec "info") as [j|]; simpl in *; rewrite ?Hinfo.
Qed.
