(* ===== verification/Success.v ===== *)
(** When [parseOpenAPI] returns a report.

    The errors of [parseOpenAPI] are the parse error, the missing
    marker and the [TypeError]s of the code it runs.  This file gives
    conditions on the decoded document under which none of them
    happens: the document is not [null], it has a marker, its nodes are
    shaped as schemas ([well_shaped]) and the [parameters] of its
    operations are arrays without [null]s. *)

From Stdlib Require Import String Ascii List ZArith Lia.
From stdpp Require Import base tactics option list strings gmap.
From S2P Require Import Prelude JsValue Fixtures ResolveRef Extractor Hereditary Analyzer Termination Shaped Pipeline.

#[local] Open Scope string_scope.
#[local] Open Scope list_scope.

(** [operation.parameters] can be searched for a body parameter: it is
    falsy, or an array none of whose elements is [null]. *)
Definition parameters_shaped (operation : json) : bool :=
  match get_prop operation "parameters" with
  | Some (JArr l) => forallb (fun p => match p with JNull => false | _ => true end) l
  | v => negb (truthy v)
  end.

Definition has_marker (spec : json) : bool :=
  truthy (get_prop spec "openapi") || truthy (get_prop spec "swagger").

(** The documents [parseOpenAPI] is written for. *)
Definition document_shaped (spec : json) : bool :=
  match spec with JNull => false | _ => true end
  && has_marker spec && well_shaped spec
  && forallb (fun o => parameters_shaped o.2)
       (operations (js_or_default (get_prop spec "paths") (JObj []))).

(** * Lemmas *)

Lemma is_body_param_Ok p : p <> JNull -> exists b, is_body_param p = Ok b.
Proof. destruct p; try done; intros _; unfold is_body_param; simpl; eauto. Qed.

Lemma getRequestSchema_avoids e spec operation :
  parameters_shaped operation = true -> avoids e (getRequestSchema spec operation).
Proof.
  intros Hp. unfold getRequestSchema.
  assert (avoids e (body_parameter_schema operation)) as Hbody; [|by repeat case_match].
  unfold body_parameter_schema, parameters_shaped in *.
  destruct (get_prop operation "parameters") as [[]|]; simpl in *; try done;
    try (by rewrite (negb_true_iff _) in Hp; rewrite Hp).
  apply rbind_avoids; [|intros; by case_match].
  apply findM_avoids. intros p Hin. rewrite forallb_forall in Hp.
  destruct (is_body_param_Ok p) as [b ->]; [|done].
  intros ->. by apply list_elem_of_In, Hp in Hin.
Qed.

Section shaped.
Context (spec : json).
Hypothesis Hshaped : well_shaped spec = true.

Lemma analyze_operation_avoids e p m operation :
  well_shaped operation = true -> parameters_shaped operation = true ->
  avoids e (analyze_operation spec p m operation).
Proof.
  intros Hop Hparams. unfold analyze_operation.
  apply rbind_avoids; [by apply getRequestSchema_avoids|]. intros requestSchema Hrs.
  apply rbind_avoids.
  { apply well_shaped_avoids; [done|]. by eapply (getRequestSchema_holds well_shaped). }
  intros r1 _. apply rbind_avoids; [|done].
  apply well_shaped_avoids; [done|]. by apply (getResponseSchema_holds well_shaped).
Qed.

Lemma path_step_avoids e paths entry acc :
  well_shaped paths = true -> entry ∈ object_entries paths ->
  Forall (fun o => parameters_shaped o.2 = true) (operations paths) ->
  avoids e (path_step spec acc entry).
Proof.
  destruct entry as [p pathItem]. intros Hpaths Hentry Hops. unfold path_step.
  rewrite <- negb_andb. fold (is_path_item pathItem).
  destruct (is_path_item pathItem) eqn:Hitem; [|done]. cbn [negb].
  apply foldM_avoids. intros acc' m Hm. unfold method_step.
  destruct (get_prop pathItem m) as [operation|] eqn:Hop; [|done]. simpl.
  destruct (truthy_json operation) eqn:Ht; [|done]. simpl.
  apply rbind_avoids; [|done]. apply analyze_operation_avoids.
  - apply (object_entries_holds well_shaped) in Hentry; [|done].
    apply (get_prop_holds well_shaped pathItem m) in Hentry. by rewrite Hop in Hentry.
  - rewrite Forall_forall in Hops. apply (Hops (p, m, operation)), elem_of_operations.
    by exists pathItem.
Qed.
End shaped.

(** C17: [parseOpenAPI] returns a report for every shaped document. *)
Theorem shaped_document_report spec :
  document_shaped spec = true -> exists report, analyze_document (Some spec) = Ok report.
Proof.
  unfold document_shaped, has_marker.
  intros [[[Hnull Hmarker]%andb_prop Hshaped]%andb_prop Hops]%andb_prop.
  apply avoids_all. intros e. unfold analyze_document.
  assert (get_prop_strict (Some spec) "openapi" = Ok (get_prop spec "openapi")) as ->
    by by destruct spec.
  simpl. apply orb_prop in Hmarker.
  assert (negb (truthy (get_prop spec "openapi")) && negb (truthy (get_prop spec "swagger"))
          = false) as -> by (destruct Hmarker as [-> | ->]; by rewrite ?andb_false_r).
  apply rbind_avoids; [|done]. apply foldM_avoids. intros acc entry Hentry.
  eapply path_step_avoids; [done | | done |].
  - apply (js_or_default_holds well_shaped); [|done]. by apply get_prop_holds; [apply _|].
  - apply Forall_forall. intros o Ho. rewrite forallb_forall in Hops.
    by apply Hops, list_elem_of_In.
Qed.

Lemma shaped_document_report_witness :
  exists report, analyze_document (Some items_doc) = Ok report.
Proof. apply shaped_document_report. reflexivity. Defined.
