(* ===== verification/Typing.v ===== *)
(** The declared types of the report.

    The interfaces [EndpointAnalysis] and [OpenAPIAnalysis] of
    [src/src/lib/openapi-parser.ts] give every field a type; the
    document is an [any], so nothing checks that what [parseOpenAPI]
    copies out of it ([title], [version], [operationId], [summary]) has
    the type of the field it lands in.  This file has the types as a
    judgement on values ([has_type]), the reports that inhabit their
    interface ([report_typed]) and the documents whose report does
    ([document_typed]): the two coincide. *)

From Stdlib Require Import String Ascii List ZArith Lia.
From stdpp Require Import base tactics option list strings gmap.
From S2P Require Import Prelude JsValue Fixtures Analyzer Pipeline.

#[local] Open Scope string_scope.
#[local] Open Scope list_scope.

(** The types the interfaces give to the fields read from the document:
    [string], and [t | undefined] for a field declared with [?]. *)
Inductive ts_type : Type :=
| TString
| TOptional (t : ts_type).

Fixpoint has_type (t : ts_type) (v : option json) : bool :=
  match t, v with
  | TString, Some (JStr _) => true
  | TString, _ => false
  | TOptional _, None => true
  | TOptional t', Some _ => has_type t' v
  end.

(** [operationId?: string; summary?: string] *)
Definition endpoint_typed (e : EndpointAnalysis) : bool :=
  has_type (TOptional TString) (operationId e) && has_type (TOptional TString) (summary e).

(** [title: string; version: string; endpoints: EndpointAnalysis[]] *)
Definition report_typed (r : OpenAPIAnalysis) : bool :=
  has_type TString (Some (title r)) && has_type TString (Some (version r))
  && forallb endpoint_typed (endpoints r).

(** The methods of the data model: the seven of [methods], in capitals. *)
Definition method_names : list string := toUpperCase <$> methods.

(** ** The documents with a typed report *)

(** [v || 'default'] is a string: [v] is one, or it is falsy. *)
Definition string_or_falsy (v : option json) : bool :=
  negb (truthy v) || has_type TString v.

Definition operation_typed (operation : json) : bool :=
  has_type (TOptional TString) (get_prop operation "operationId")
  && has_type (TOptional TString) (get_prop operation "summary").

Definition document_typed (spec : option json) : bool :=
  let info := js_or_default (opt_get spec "info") (JObj []) in
  let paths := js_or_default (opt_get spec "paths") (JObj []) in
  string_or_falsy (get_prop info "title") && string_or_falsy (get_prop info "version")
  && forallb (fun o => operation_typed o.2) (operations paths).

(** A document whose title is a number and whose one operation has an
    array of tags where the summary goes. *)
Definition untyped_doc : json :=
  JObj [("openapi", JStr "3.0.0");
        ("info", JObj [("title", JNum 7)]);
        ("paths", JObj [("/a", JObj [("get", JObj [("summary", JArr [JStr "x"])])])])].

(** A document whose title is an object. *)
Definition object_title_doc : json :=
  JObj [("openapi", JStr "3.0.0"); ("info", JObj [("title", JObj [("en", JStr "Pets")])])].

(** * Lemmas *)

Lemma default_is_string (v : option json) (d : string) :
  has_type TString (Some (js_or_default v (JStr d))) = string_or_falsy v.
Proof.
  unfold js_or_default, string_or_falsy.
  destruct v as [j|]; [|done]. by destruct j, (truthy (Some _)) eqn:E; simpl in *; rewrite ?E.
Qed.

Lemma analysis_of_typed doc e o : analysis_of doc e o -> endpoint_typed e = operation_typed o.2.
Proof. intros (rs & _ & _ & _ & ->)%analyze_operation_Ok. done. Qed.

Lemma forallb_Forall2 {A B} (f : A -> bool) (g : B -> bool) (R : A -> B -> Prop) l k :
  (forall a b, R a b -> f a = g b) -> Forall2 R l k -> forallb f l = forallb g k.
Proof. intros Hfg. induction 1 as [|a b l k Hab _ IH]; simpl; [done|]. by rewrite (Hfg a b), IH. Qed.

(** C18: the report has the type its interface declares exactly when the
    document has strings where the report copies from it: [info.title]
    and [info.version] are strings or falsy, and the [operationId] and
    the [summary] of every operation are strings or missing. *)
Theorem report_typed_iff spec report :
  analyze_document spec = Ok report -> report_typed report = document_typed spec.
Proof.
  intros Hreport. unfold report_typed, document_typed.
  destruct (report_metadata spec report Hreport) as [-> ->].
  rewrite !default_is_string. f_equal.
  eapply forallb_Forall2; [|by apply report_operations].
  intros e o. apply analysis_of_typed.
Qed.

Lemma report_typed_iff_witness : report_typed items_report = document_typed (Some items_doc).
Proof. apply report_typed_iff. by vm_compute. Defined.

(** The methods of a report are those of the data model. *)
Theorem report_method_names spec report e :
  analyze_document spec = Ok report -> e ∈ endpoints report -> method e ∈ method_names.
Proof.
  intros Hreport He. destruct (report_methods spec report Hreport e He) as (m & Hm & ->).
  unfold method_names. by apply list_elem_of_fmap_2.
Qed.

Lemma report_method_names_witness : "POST" ∈ method_names.
Proof.
  apply (report_method_names (Some items_doc) items_report
           (mkEndpoint "/items" "POST" (Some (JStr "createItem")) None
              (mkAnalysis 2 1) (mkAnalysis 2 2))); [by vm_compute|].
  by apply (list_elem_of_lookup_2 _ 1).
Defined.

(** A report that does not have its type: the title is a number and the
    summary an array, and the page will be handed both as strings. *)
Example untyped_report :
  analyze_document (Some untyped_doc)
  = Ok (mkReport (JNum 7) (JStr "N/A")
          [mkEndpoint "/a" "GET" None (Some (JArr [JStr "x"])) no_fields no_fields] 1).
Proof. by vm_compute. Qed.
