(* ===== verification/Wf.v ===== *)
(** Decoded documents are well formed, and what that buys.

    The objects [JSON.parse] and [yaml.load] build are ordinary
    JavaScript objects: no key twice, and [Object.keys] lists the keys
    that are array indices first, in ascending order, before the other
    keys.  [wf_json] says that of every object of a tree.  Every value
    the parser reads out of a well-formed document is well formed, and
    on such a value the [.sort()] of [getResponseSchema]
    ([src/src/lib/openapi-parser.ts], line 145) changes nothing: the
    success codes already come in ascending order. *)

From Stdlib Require Import String Ascii List ZArith Lia.
From stdpp Require Import base tactics option list strings gmap sorting.
From S2P Require Import Prelude JsValue Fixtures ResolveRef Extractor Hereditary Analyzer Pipeline.

#[local] Open Scope string_scope.
#[local] Open Scope list_scope.

(** An array index is a canonical numeral below [2^32 - 1]. *)
Definition array_index (k : string) : option nat :=
  match parse_index k with
  | Some i => if (Z.of_nat i <? 4294967295)%Z then Some i else None
  | None => None
  end.

(** [k] may be enumerated before [k']. *)
Definition comes_before (k k' : string) : bool :=
  match array_index k, array_index k' with
  | Some i, Some j => Nat.ltb i j
  | None, Some _ => false
  | _, None => true
  end.

(** The order of [Object.keys]. *)
Fixpoint enum_ordered (keys : list string) : bool :=
  match keys with
  | [] => true
  | k :: rest => forallb (comes_before k) rest && enum_ordered rest
  end.

Fixpoint wf_json (j : json) : bool :=
  match j with
  | JArr l => forallb wf_json l
  | JObj kvs =>
      bool_decide (NoDup kvs.*1) && enum_ordered kvs.*1
      && forallb (fun '(_, v) => wf_json v) kvs
  | _ => true
  end.

Abbreviation wf_opt := (holds wf_json).

(** What the decoders guarantee. *)
Class DecoderLaws (D : Decoder) : Prop := {
  JSON_parse_wf content j : JSON_parse content = Some j -> wf_json j = true;
  yaml_load_wf content j : yaml_load content = Some (Some j) -> wf_json j = true;
}.

(** * Lemmas *)

(** ** Every part of a well-formed value is well formed *)

#[export] Instance wf_json_hereditary : Hereditary wf_json.
Proof.
  split; try done.
  - simpl. intros l x H Hx. rewrite forallb_forall in H. by apply H, list_elem_of_In.
  - simpl. intros kvs k v [_ H]%andb_prop Hkv. rewrite forallb_forall in H.
    by apply (H (k, v)), list_elem_of_In.
Qed.

(** ** The order of the success codes *)

Lemma array_index_key i :
  array_index (index_key i) = if (Z.of_nat i <? 4294967295)%Z then Some i else None.
Proof. unfold array_index. by rewrite parse_index_key. Qed.

Lemma success_code_array_index code :
  is_success_code code = true -> exists n, 200 <= n <= 299 /\ code = index_key n /\ array_index code = Some n.
Proof.
  intros (n & Hn & ->)%success_code_is_index. exists n. repeat split; [lia..|].
  rewrite array_index_key. case_match eqn:E; [done|]. apply Z.ltb_ge in E. lia.
Qed.

(** Numerals of three digits compare as their numbers do. *)
Lemma success_codes_compare n m :
  200 <= n <= 299 -> 200 <= m <= 299 -> n < m -> str_le (index_key n) (index_key m).
Proof.
  intros Hn Hm Hnm.
  assert (Hall : forallb (fun a => forallb (fun b =>
            implb (Nat.ltb a b) (String.leb (index_key a) (index_key b)))
            (seq 200 100)) (seq 200 100) = true) by (vm_compute; reflexivity).
  rewrite forallb_forall in Hall. specialize (Hall n).
  rewrite forallb_forall in Hall. specialize (Hall ltac:(apply in_seq; lia) m ltac:(apply in_seq; lia)).
  apply Nat.ltb_lt in Hnm. by rewrite Hnm in Hall.
Qed.

Lemma comes_before_success_codes k k' :
  is_success_code k = true -> is_success_code k' = true -> comes_before k k' = true ->
  str_le k k'.
Proof.
  intros (n & Hn & -> & Hk)%success_code_array_index
         (m & Hm & -> & Hk')%success_code_array_index.
  unfold comes_before. rewrite Hk, Hk'. intros Hnm%Nat.ltb_lt.
  by apply success_codes_compare.
Qed.

Lemma enum_ordered_success_codes keys :
  enum_ordered keys = true ->
  Sorted str_le (filter (fun code => is_success_code code = true) keys).
Proof.
  intros Hkeys. apply StronglySorted_Sorted.
  induction keys as [|k keys IH]; [constructor|].
  simpl in Hkeys. apply andb_prop in Hkeys as [Hk Hkeys]. rewrite filter_cons.
  case_decide as Hcode; [|by apply IH]. constructor; [by apply IH|].
  apply Forall_forall. intros k' [Hcode' Hk']%list_elem_of_filter.
  rewrite forallb_forall in Hk. apply comes_before_success_codes; [done..|].
  by apply Hk, list_elem_of_In.
Qed.

(** ** The keys of a well-formed value *)

Lemma enum_ordered_seq a n : enum_ordered (index_key <$> seq a n) = true.
Proof.
  revert a; induction n as [|n IH]; intros a; [done|]. simpl. rewrite IH, andb_true_r.
  apply forallb_forall. intros k [j [-> Hj%elem_of_seq]]%list_elem_of_In%list_elem_of_fmap.
  unfold comes_before. rewrite !array_index_key.
  destruct (Z.ltb_spec (Z.of_nat a) 4294967295), (Z.ltb_spec (Z.of_nat j) 4294967295);
    try done; [apply Nat.ltb_lt | exfalso]; lia.
Qed.

Lemma object_keys_ordered j : wf_json j = true -> enum_ordered (object_keys j) = true.
Proof.
  destruct j; simpl; try done; try (intros _; apply enum_ordered_seq).
  by intros [[_ ?]%andb_prop _]%andb_prop.
Qed.

(** Keys in the order of [Object.keys]: sorting their success codes
    changes nothing. *)
Lemma js_sort_success_codes keys :
  enum_ordered keys = true ->
  js_sort (filter (fun code => is_success_code code = true) keys)
  = filter (fun code => is_success_code code = true) keys.
Proof.
  intros Hkeys. unfold js_sort. apply (Sorted_unique str_le).
  - apply Sorted_merge_sort; apply _.
  - by apply enum_ordered_success_codes.
  - apply merge_sort_Permutation.
Qed.

(** C20: on a well-formed value the sort of [getResponseSchema] is the
    identity: the success codes are those of [Object.keys], in the
    order [Object.keys] lists them. *)
Theorem success_codes_already_sorted responses :
  wf_json responses = true ->
  success_codes responses
  = filter (fun code => is_success_code code = true) (object_keys responses).
Proof. intros Hwf. by apply js_sort_success_codes, object_keys_ordered. Qed.

Lemma success_codes_already_sorted_witness :
  success_codes (JObj [("200", JNull); ("204", JNull); ("default", JNull)]) = ["200"; "204"].
Proof. by apply (success_codes_already_sorted (JObj [("200", JNull); ("204", JNull); ("default", JNull)])). Defined.

(** Without the order of [Object.keys] the sort does work. *)
Example success_codes_unordered :
  success_codes (JObj [("204", JNull); ("200", JNull)]) = ["200"; "204"]
  /\ wf_json (JObj [("204", JNull); ("200", JNull)]) = false.
Proof. by vm_compute. Qed.

(** ** The operations of a well-formed document *)

Lemma operations_wf paths o : wf_json paths = true -> o ∈ operations paths -> wf_json o.2 = true.
Proof.
  destruct o as [[p m] operation].
  intros Hp (pathItem & Hentry & _ & _ & Hop & _)%elem_of_operations.
  apply (object_entries_holds wf_json paths) in Hentry; [|done].
  apply (get_prop_holds wf_json pathItem m) in Hentry. by rewrite Hop in Hentry.
Qed.

(** ** Decoded documents *)

#[export] Instance table_decoder_laws : DecoderLaws table_decoder.
Proof.
  split; intros content j.
  - unfold JSON_parse, table_decoder. intros Hj%alist_lookup_elem_of.
    repeat (apply elem_of_cons in Hj as [[= -> ->]|Hj]); [by vm_compute.. |].
    by apply elem_of_nil in Hj.
  - unfold yaml_load, table_decoder. by case_match.
Qed.

Section decoded.
Context {D : Decoder} {HD : DecoderLaws D}.

Lemma decode_wf content spec : decode content = Ok spec -> wf_opt spec = true.
Proof.
  unfold decode. destruct (JSON_parse content) eqn:E1; [intros [= <-]; by eapply JSON_parse_wf|].
  destruct (yaml_load content) as [[j|]|] eqn:E2; intros [= <-]; [|done].
  by eapply yaml_load_wf.
Qed.

Lemma decoded_operation_wf content spec o :
  decode content = Ok (Some spec) ->
  o ∈ operations (js_or_default (get_prop spec "paths") (JObj [])) -> wf_json o.2 = true.
Proof.
  intros Hspec%decode_wf. apply operations_wf.
  apply (js_or_default_holds wf_json); [|done]. by apply get_prop_holds; [apply _|].
Qed.

(** In a decoded document the response schema of an operation is
    found by trying its success codes in the order [Object.keys] lists
    them: the sort does not change which response is read. *)
Theorem decoded_response_in_key_order content spec o responses :
  decode content = Ok (Some spec) ->
  o ∈ operations (js_or_default (get_prop spec "paths") (JObj [])) ->
  get_prop o.2 "responses" = Some responses -> truthy_json responses = true ->
  getResponseSchema spec o.2
  = scan_responses responses
      (filter (fun code => is_success_code code = true) (object_keys responses)).
Proof.
  intros Hspec Ho Hr Ht. pose proof (decoded_operation_wf content spec o Hspec Ho) as Hop.
  unfold getResponseSchema, success_codes.
  rewrite Hr, Ht, js_sort_success_codes; [done|]. apply object_keys_ordered.
  apply (get_prop_holds wf_json o.2 "responses") in Hop. by rewrite Hr in Hop.
Qed.
End decoded.

Lemma items_post_declared :
  ("/items", "post", items_post) ∈ operations (js_or_default (get_prop items_doc "paths") (JObj [])).
Proof. by apply (list_elem_of_lookup_2 _ 1). Qed.

Lemma decoded_response_in_key_order_witness :
  getResponseSchema items_doc items_post
  = scan_responses (JObj [("201", json_content nested_object); ("404", JObj [])]) ["201"].
Proof.
  apply (decoded_response_in_key_order (D := table_decoder) "items.json" items_doc
           ("/items", "post", items_post)); [reflexivity | apply items_post_declared | done..].
Defined.
