(* ===== verification/Table.v ===== *)
(** The endpoint table: [AnalysisTable] of
    [src/src/components/AnalysisTable.tsx] and the badge it puts in the
    first column, [MethodBadge] of [src/src/components/MethodBadge.tsx].

    What a component renders is a record of the texts, numbers and
    conditions its markup depends on; the fixed class names are left
    out.  A row is what [AnalysisTable] computes for an endpoint: its
    React key, its animation delay, its badge and its cells. *)

From Stdlib Require Import String Ascii List ZArith Lia DecimalString.
From stdpp Require Import base tactics option list.
From S2P Require Import Prelude JsValue Fixtures Analyzer Pipeline.

#[local] Open Scope string_scope.
#[local] Open Scope list_scope.

(** ** Values in braces

    What React makes of a value between braces: a string or a number
    becomes text, a boolean, [null] and [undefined] nothing, an array
    its elements; any other object is an error, which takes the page
    down. *)
Fixpoint renderable (j : json) : bool :=
  match j with
  | JObj _ => false
  | JArr l => forallb renderable l
  | _ => true
  end.

(** The value leaves text on the page. *)
Fixpoint visible (j : json) : bool :=
  match j with
  | JStr s => negb (String.eqb s EmptyString)
  | JNum _ => true
  | JArr l => existsb visible l
  | _ => false
  end.

(** [{v && <span>{v}</span>}]: the element when [v] is truthy, the
    value of [v] itself when it is falsy. *)
Inductive guarded : Type :=
| InSpan (v : json)
| Bare (v : option json).

Definition guard_span (v : option json) : guarded :=
  match v with
  | Some j => if truthy_json j then InSpan j else Bare v
  | None => Bare None
  end.

Definition guarded_value (g : guarded) : option json :=
  match g with InSpan v => Some v | Bare v => v end.

(** ** The badge *)

Definition methodColors : list (string * string) :=
  [("GET", "bg-method-get/15 text-method-get border-method-get/30");
   ("POST", "bg-method-post/15 text-method-post border-method-post/30");
   ("PUT", "bg-method-put/15 text-method-put border-method-put/30");
   ("PATCH", "bg-method-patch/15 text-method-patch border-method-patch/30");
   ("DELETE", "bg-method-delete/15 text-method-delete border-method-delete/30")].

Definition defaultColor : string := "bg-muted text-muted-foreground border-border".

(** [methodColors[method] || 'bg-muted ...'] *)
Definition colorClass (method : string) : string :=
  match alist_lookup method methodColors with
  | Some color => if String.eqb color EmptyString then defaultColor else color
  | None => defaultColor
  end.

(** What the badge shows: the colour class, the class its caller adds
    and the method as text. *)
Record badge : Type := mkBadge {
  colour : string;
  extraClass : option string;
  label : string;
}.

Definition MethodBadge (method : string) (className : option string) : badge :=
  mkBadge (colorClass method) className method.

(** ** The rows *)

(** [`${endpoint.method}-${endpoint.path}-${index}`]; a number in a
    template literal is written as [index_key] writes it. *)
Definition rowKey (endpoint : EndpointAnalysis) (index : nat) : string :=
  method endpoint ++ "-" ++ path endpoint ++ "-" ++ index_key index.

(** [`${index * 30}ms`] *)
Definition rowDelay (index : nat) : string := index_key (index * 30) ++ "ms".

Record row : Type := mkRow {
  key : string;
  animationDelay : string;
  methodCell : badge;
  pathCell : string;
  summaryCell : guarded;
  numberCells : list nat;
}.

(** The body of [analysis.endpoints.map((endpoint, index) => ...)]. *)
Definition tableRow (index : nat) (endpoint : EndpointAnalysis) : row :=
  mkRow (rowKey endpoint index) (rowDelay index) (MethodBadge (method endpoint) None)
    (path endpoint)
    (guard_span (summary endpoint))
    [fieldCount (request endpoint); maxDepth (request endpoint);
     fieldCount (response endpoint); maxDepth (response endpoint)].

Definition tableRows (analysis : OpenAPIAnalysis) : list row :=
  imap tableRow (endpoints analysis).

(** The six column heads, the last four in two lines. *)
Definition tableHead : list (string * option string) :=
  [("Method", None); ("Path", None);
   ("Request", Some "Fields"); ("Request", Some "Depth");
   ("Response", Some "Fields"); ("Response", Some "Depth")].

Record table : Type := mkTable {
  columns : list (string * option string);
  rows : list row;
}.

Definition AnalysisTable (analysis : OpenAPIAnalysis) : table :=
  mkTable tableHead (tableRows analysis).

(** * Lemmas *)

(** ** Keys *)

Definition dash : ascii := "-"%char.

Definition dashless (s : string) : Prop := dash ∉ list_ascii_of_string s.

Lemma dashless_app_dash x d : ~ dashless (x ++ String dash d).
Proof.
  unfold dashless. induction x as [|c x IH]; simpl; rewrite not_elem_of_cons; tauto.
Qed.

(** The text after the last dash of a string is determined by the
    string. *)
Lemma last_segment_inj x y d d' :
  dashless d -> dashless d' -> (x ++ String dash d = y ++ String dash d')%string -> d = d'.
Proof.
  intros Hd Hd'. revert y; induction x as [|c x IH]; intros [|c' y]; simpl; intros H;
    injection H as H; subst.
  - done.
  - by destruct (dashless_app_dash y d').
  - by destruct (dashless_app_dash x d).
  - eauto.
Qed.

Lemma string_of_uint_dashless d : dashless (NilEmpty.string_of_uint d).
Proof.
  unfold dashless. induction d; simpl; rewrite ?not_elem_of_cons;
    [apply not_elem_of_nil | split; [discriminate | done]..].
Qed.

Lemma rowKey_index e e' i j : rowKey e i = rowKey e' j -> i = j.
Proof.
  unfold rowKey. intros H. apply (inj index_key).
  apply (last_segment_inj (method e ++ "-" ++ path e) (method e' ++ "-" ++ path e'));
    [apply string_of_uint_dashless.. |].
  by rewrite !string_app_assoc.
Qed.

(** The rows of the table have pairwise distinct keys, whatever the
    report: two endpoints with the same method and path still differ in
    the index their key ends with. *)
Theorem row_keys_distinct analysis : NoDup (key <$> tableRows analysis).
Proof.
  apply NoDup_alt. intros i j k. unfold tableRows.
  rewrite !list_lookup_fmap, !list_lookup_imap.
  destruct (endpoints analysis !! i) as [e|]; [|done].
  destruct (endpoints analysis !! j) as [e'|]; [|done]. simpl.
  intros [= <-] [= H]. symmetry. by eapply rowKey_index.
Qed.

(** ** Badges *)

Lemma colorClass_methods m :
  m ∈ methods ->
  colorClass (toUpperCase m) = defaultColor
  <-> toUpperCase m = "OPTIONS" \/ toUpperCase m = "HEAD".
Proof. intros Hm. unfold methods in Hm. elem_of_cases Hm; vm_compute; intuition congruence. Qed.

(** In the table of a report, the badges of OPTIONS and HEAD
    operations have the default colour and every other badge has the
    colour of its method. *)
Theorem badge_default_iff spec report e :
  analyze_document spec = Ok report -> e ∈ endpoints report ->
  colorClass (method e) = defaultColor <-> method e = "OPTIONS" \/ method e = "HEAD".
Proof.
  intros Hreport He. destruct (report_methods spec report Hreport e He) as (m & Hm & ->).
  by apply colorClass_methods.
Qed.

Lemma badge_default_iff_witness :
  colorClass "POST" = defaultColor <-> "POST" = "OPTIONS" \/ "POST" = "HEAD".
Proof.
  apply (badge_default_iff (Some items_doc) items_report
           (mkEndpoint "/items" "POST" (Some (JStr "createItem")) None
              (mkAnalysis 2 1) (mkAnalysis 2 2)));
    [by vm_compute | by apply (list_elem_of_lookup_2 _ 1)].
Defined.

(** The table of [items_doc]. *)
Example tableRows_items :
  tableRows items_report
  = [mkRow "GET-/items-0" "0ms"
       (mkBadge "bg-method-get/15 text-method-get border-method-get/30" None "GET")
       "/items" (Bare None) [0; 0; 0; 0];
     mkRow "POST-/items-1" "30ms"
       (mkBadge "bg-method-post/15 text-method-post border-method-post/30" None "POST")
       "/items" (Bare None) [2; 1; 2; 2]].
Proof. reflexivity. Qed.

(** ** Cells *)

(** Every row has a cell for every column. *)
Lemma rows_fill_columns analysis r :
  r ∈ rows (AnalysisTable analysis) ->
  2 + length (numberCells r) = length (columns (AnalysisTable analysis)).
Proof.
  unfold AnalysisTable, tableRows. simpl. intros [i Hi]%list_elem_of_lookup.
  rewrite list_lookup_imap in Hi.
  destruct (endpoints analysis !! i); simpl in Hi; [|done]. by injection Hi as <-.
Qed.

(** A falsy summary is not behind the guard: a summary that is the
    number zero is rendered, as a bare [0] under the path. *)
Example zero_summary_is_visible :
  let e := mkEndpoint "/a" "GET" None (Some (JNum 0)) no_fields no_fields in
  summaryCell (tableRow 0 e) = Bare (Some (JNum 0))
  /\ from_option visible false (guarded_value (summaryCell (tableRow 0 e))) = true.
Proof. done. Qed.
