(* ===== verification/Dashboard.v ===== *)
(** The page: the state, handlers and derived figures of [Index] in
    [src/src/pages/Index.tsx].

    The component keeps three state variables and starts a timer for
    every file it is handed; the callback of the timer runs the pipeline.
    [world] is the component's state with the two things its handlers act
    on beside it: the timers that are pending and the toasts shown so far.
    The handlers are functions on [world], and [step] runs one of them. *)

From Stdlib Require Import String Ascii List ZArith Lia.
From stdpp Require Import base tactics option list strings gmap.
From S2P Require Import Prelude JsValue Fixtures Analyzer Pipeline.

#[local] Open Scope string_scope.
#[local] Open Scope list_scope.

(** The two toasts of [handleFileLoad]. *)
Inductive toast : Type :=
| AnalysisComplete (found : nat) (api : json)
| ParseError (e : error).

(** The [useState] variables. *)
Record page : Type := mkPage {
  analysis : option OpenAPIAnalysis;
  fileName : string;
  isLoading : bool;
}.

Record world : Type := mkWorld {
  ui : page;
  timers : list string;
  toasts : list toast;
}.

Definition initial : world := mkWorld (mkPage None "" false) [] [].

(** ** The derived figures *)

Definition endpoints_of (a : option OpenAPIAnalysis) : list EndpointAnalysis :=
  from_option endpoints [] a.

(** [analysis?.endpoints.reduce((sum, e) => sum + e.request.fieldCount, 0) || 0] *)
Definition totalRequestFields (a : option OpenAPIAnalysis) : nat :=
  fold_left (fun sum e => sum + fieldCount (request e)) (endpoints_of a) 0.

Definition totalResponseFields (a : option OpenAPIAnalysis) : nat :=
  fold_left (fun sum e => sum + fieldCount (response e)) (endpoints_of a) 0.

(** [analysis?.endpoints.reduce((max, e) => Math.max(max, e.request.maxDepth), 0) || 0] *)
Definition maxRequestDepth (a : option OpenAPIAnalysis) : nat :=
  fold_left (fun m e => Nat.max m (maxDepth (request e))) (endpoints_of a) 0.

Definition maxResponseDepth (a : option OpenAPIAnalysis) : nat :=
  fold_left (fun m e => Nat.max m (maxDepth (response e))) (endpoints_of a) 0.

(** The value of the "Max Nesting Depth" card. *)
Definition maxNestingDepth (a : option OpenAPIAnalysis) : nat :=
  Nat.max (maxRequestDepth a) (maxResponseDepth a).

(** ** The handlers *)

Section handlers.
Context `{Decoder}.

(** [handleFileLoad]: the part that runs at once. *)
Definition handleFileLoad (content name : string) (w : world) : world :=
  mkWorld (mkPage (analysis (ui w)) name true) (timers w ++ [content]) (toasts w).

(** The callback given to [setTimeout]: [try], [catch], [finally]. *)
Definition timer_callback (content : string) (w : world) : world :=
  match parseOpenAPI content with
  | Ok result =>
      mkWorld (mkPage (Some result) (fileName (ui w)) false) (timers w)
              (toasts w ++ [AnalysisComplete (totalEndpoints result) (title result)])
  | Err e =>
      mkWorld (mkPage None (fileName (ui w)) false) (timers w)
              (toasts w ++ [ParseError e])
  end.

(** [handleReset] *)
Definition handleReset (w : world) : world :=
  mkWorld (mkPage None "" (isLoading (ui w))) (timers w) (toasts w).

Inductive event : Type :=
| FileLoaded (content name : string)
| TimerFired
| ResetClicked.

(** Timers of equal delay fire in the order they were set. *)
Definition step (w : world) (e : event) : world :=
  match e with
  | FileLoaded content name => handleFileLoad content name w
  | TimerFired =>
      match timers w with
      | [] => w
      | content :: rest => timer_callback content (mkWorld (ui w) rest (toasts w))
      end
  | ResetClicked => handleReset w
  end.

Definition run_from (w : world) (events : list event) : world := fold_left step events w.

Definition run (events : list event) : world := run_from initial events.

(** The contents handed to the page so far. *)
Definition loaded (events : list event) : list string :=
  events ≫= fun e => match e with FileLoaded content _ => [content] | _ => [] end.

End handlers.

(** * Lemmas *)

(** ** The figures *)

(** The "Total Request Fields" card shows the sum of the request
    field counts of the report's endpoints, and [0] without a report. *)
Theorem totalRequestFields_sum a :
  totalRequestFields a = sum_list ((fun e => fieldCount (request e)) <$> endpoints_of a).
Proof. unfold totalRequestFields. by rewrite fold_left_sum. Qed.

Lemma maxRequestDepth_max a :
  maxRequestDepth a = max_list ((fun e => maxDepth (request e)) <$> endpoints_of a).
Proof. unfold maxRequestDepth. by rewrite fold_left_max. Qed.

Lemma maxResponseDepth_max a :
  maxResponseDepth a = max_list ((fun e => maxDepth (response e)) <$> endpoints_of a).
Proof. unfold maxResponseDepth. by rewrite fold_left_max. Qed.

(** The "Max Nesting Depth" card bounds the request depth and the
    response depth of every endpoint of the report. *)
Theorem maxNestingDepth_bounds a e :
  e ∈ endpoints_of a ->
  maxDepth (request e) <= maxNestingDepth a /\ maxDepth (response e) <= maxNestingDepth a.
Proof.
  intros He. unfold maxNestingDepth. rewrite maxRequestDepth_max, maxResponseDepth_max.
  pose proof (max_list_fmap_le (fun e => maxDepth (request e)) _ _ He).
  pose proof (max_list_fmap_le (fun e => maxDepth (response e)) _ _ He).
  simpl in *. lia.
Qed.

Lemma maxNestingDepth_bounds_witness :
  1 <= maxNestingDepth (Some items_report) /\ 2 <= maxNestingDepth (Some items_report).
Proof.
  apply (maxNestingDepth_bounds (Some items_report)
           (mkEndpoint "/items" "POST" (Some (JStr "createItem")) None
              (mkAnalysis 2 1) (mkAnalysis 2 2))).
  by apply (list_elem_of_lookup_2 _ 1).
Defined.

(** ** The state machine *)

Section machine.
Context `{Decoder}.

Lemma run_snoc events e : run (events ++ [e]) = step (run events) e.
Proof. unfold run, run_from. by rewrite fold_left_app. Qed.

Lemma loaded_snoc events e :
  loaded (events ++ [e])
  = loaded events ++ match e with FileLoaded content _ => [content] | _ => [] end.
Proof. unfold loaded. rewrite bind_app. simpl. by rewrite app_nil_r. Qed.

Lemma timer_callback_timers content w : timers (timer_callback content w) = timers w.
Proof. unfold timer_callback. by destruct (parseOpenAPI content). Qed.

Lemma timer_callback_toasts content w :
  length (toasts (timer_callback content w)) = S (length (toasts w)).
Proof.
  unfold timer_callback. destruct (parseOpenAPI content); simpl;
    rewrite length_app; simpl; lia.
Qed.

Lemma timer_callback_idle content w : isLoading (ui (timer_callback content w)) = false.
Proof. unfold timer_callback. by destruct (parseOpenAPI content). Qed.

Lemma load_accounting events :
  length (toasts (run events)) + length (timers (run events)) = length (loaded events).
Proof.
  induction events as [|e events IH] using rev_ind; [done|].
  rewrite run_snoc, loaded_snoc.
  destruct e as [content name| |]; simpl; rewrite ?length_app; simpl; [lia | | lia].
  destruct (timers (run events)) as [|content rest] eqn:E; rewrite ?E in *;
    rewrite ?timer_callback_timers, ?timer_callback_toasts; simpl in *; lia.
Qed.

(** Every file handed to the page is accounted for: after any
    sequence of events, the toasts shown and the timers pending are
    together as many as the files handed over. *)
Theorem every_load_is_answered events :
  length (toasts (run events)) + length (timers (run events)) = length (loaded events).
Proof. apply load_accounting. Qed.

(** The page only shows "loading" while a timer is pending. *)
Theorem loading_has_pending_timer events :
  isLoading (ui (run events)) = true -> timers (run events) <> [].
Proof.
  induction events as [|e events IH] using rev_ind; [done|].
  rewrite run_snoc. destruct e as [content name| |]; simpl; [| |exact IH].
  - intros _ Heq. by apply app_eq_nil in Heq as [_ ?].
  - destruct (timers (run events)) as [|content rest] eqn:E; [by rewrite E|].
    by rewrite timer_callback_idle.
Qed.

Lemma timers_are_loaded events content :
  content ∈ timers (run events) -> content ∈ loaded events.
Proof.
  induction events as [|e events IH] using rev_ind; [done|].
  rewrite run_snoc, loaded_snoc, elem_of_app.
  destruct e as [c name| |]; simpl; [rewrite elem_of_app; intuition| |intuition].
  destruct (timers (run events)) as [|c rest] eqn:E; [rewrite E; intuition|].
  rewrite timer_callback_timers. simpl. intros Hin. left. apply IH. by right.
Qed.

(** C36: the report on the page is what [parseOpenAPI] returned for one of
    the files handed to the page. *)
Theorem shown_report_was_parsed events report :
  analysis (ui (run events)) = Some report ->
  exists content, content ∈ loaded events /\ parseOpenAPI content = Ok report.
Proof.
  revert report. induction events as [|e events IH] using rev_ind; [done|].
  intros report. rewrite run_snoc, loaded_snoc.
  setoid_rewrite elem_of_app. destruct e as [content name| |]; simpl; [naive_solver| |done].
  pose proof (timers_are_loaded events) as Hloaded.
  destruct (timers (run events)) as [|content rest] eqn:E; [naive_solver|].
  unfold timer_callback. simpl.
  destruct (parseOpenAPI content) as [r|] eqn:Ep; simpl; [|done].
  intros [= <-]. exists content. split; [left; apply Hloaded; by left | done].
Qed.

(** What one firing of a timer does, on both branches of the [try]. *)
Lemma step_timer w content rest :
  timers w = content :: rest ->
  timers (step w TimerFired) = rest
  /\ length (toasts (step w TimerFired)) = S (length (toasts w))
  /\ isLoading (ui (step w TimerFired)) = false.
Proof.
  intros E. simpl. rewrite E.
  by rewrite timer_callback_timers, timer_callback_toasts, timer_callback_idle.
Qed.

Lemma drain w n :
  length (timers w) = n ->
  timers (run_from w (replicate n TimerFired)) = []
  /\ length (toasts (run_from w (replicate n TimerFired))) = length (toasts w) + n.
Proof.
  revert w; induction n as [|n IH]; intros w Hn.
  - split; [by apply nil_length_inv | simpl; lia].
  - destruct (timers w) as [|content rest] eqn:E; [done|].
    destruct (step_timer w content rest E) as (Ht & Hl & _).
    destruct (IH (step w TimerFired)) as [IH1 IH2]; [rewrite Ht; simpl in Hn; lia|].
    unfold run_from in *. cbn [replicate fold_left]. split; [done | lia].
Qed.

(** C37: once the pending timers have fired, every file handed to the page
    has been answered by exactly one toast and no timer is left. *)
Theorem pending_timers_drain events :
  let w := run_from (run events) (replicate (length (timers (run events))) TimerFired) in
  timers w = [] /\ length (toasts w) = length (loaded events).
Proof.
  destruct (drain (run events) _ eq_refl) as [H1 H2]. split; [done|].
  rewrite H2. apply load_accounting.
Qed.

(** Two files handed to the page before the first timer fires leave
    the page showing the report of the first file under the name of the
    second, with the loading flag off while the second timer is pending. *)
Theorem second_load_renames_report content1 name1 content2 name2 report :
  parseOpenAPI content1 = Ok report ->
  let w := run [FileLoaded content1 name1; FileLoaded content2 name2; TimerFired] in
  analysis (ui w) = Some report /\ fileName (ui w) = name2
  /\ isLoading (ui w) = false /\ timers w = [content2].
Proof. intros Hp. cbn. unfold timer_callback. by rewrite Hp. Qed.

(** A file that does not parse removes the report on the page and
    shows the error: after its timer has fired there is no report, the
    page is idle and the last toast carries the error. *)
Theorem failed_load_clears_report w content rest e :
  timers w = content :: rest -> parseOpenAPI content = Err e ->
  ui (step w TimerFired) = mkPage None (fileName (ui w)) false
  /\ toasts (step w TimerFired) = toasts w ++ [ParseError e].
Proof. intros E Hp. simpl. rewrite E. unfold timer_callback. by rewrite Hp. Qed.

(** [handleReset] forgets the report and the file name and leaves
    the pending timers alone: a reset while a file is loading does not
    stop its report from appearing. *)
Theorem reset_does_not_cancel content name report :
  parseOpenAPI content = Ok report ->
  analysis (ui (run [FileLoaded content name; ResetClicked; TimerFired])) = Some report
  /\ fileName (ui (run [FileLoaded content name; ResetClicked; TimerFired])) = EmptyString.
Proof. intros Hp. cbn. unfold timer_callback. by rewrite Hp. Qed.
End machine.

Lemma loading_has_pending_timer_witness :
  timers (@run table_decoder [FileLoaded "items.json" "items.json"]) <> [].
Proof. apply loading_has_pending_timer. reflexivity. Defined.

Lemma shown_report_was_parsed_witness :
  exists content,
    content ∈ loaded [FileLoaded "items.json" "items.json"; TimerFired]
    /\ @parseOpenAPI table_decoder content = Ok items_report.
Proof. apply (shown_report_was_parsed (H := table_decoder)). by vm_compute. Defined.

Lemma second_load_renames_report_witness :
  let w := @run table_decoder
             [FileLoaded "items.json" "items.json"; FileLoaded "{}" "other.json"; TimerFired] in
  analysis (ui w) = Some items_report /\ fileName (ui w) = "other.json"
  /\ isLoading (ui w) = false /\ timers w = ["{}"].
Proof. apply second_load_renames_report. by vm_compute. Defined.

Lemma failed_load_clears_report_witness :
  let w := @run table_decoder [FileLoaded "items.json" "a"; TimerFired; FileLoaded "{}" "b"] in
  ui (@step table_decoder w TimerFired) = mkPage None (fileName (ui w)) false
  /\ toasts (@step table_decoder w TimerFired) = toasts w ++ [ParseError InvalidSpec].
Proof. apply (failed_load_clears_report _ "{}" []); by vm_compute. Defined.

Lemma reset_does_not_cancel_witness :
  analysis (ui (@run table_decoder [FileLoaded "items.json" "a"; ResetClicked; TimerFired]))
  = Some items_report
  /\ fileName (ui (@run table_decoder [FileLoaded "items.json" "a"; ResetClicked; TimerFired]))
    = EmptyString.
Proof. apply reset_does_not_cancel. by vm_compute. Defined.
