(* ===== verification/Uploader.v ===== *)
(** The file picker: [FileUploader] of
    [src/src/components/FileUploader.tsx].

    The component checks the extension of the file it is handed, starts a
    [FileReader] on it and calls [onFileLoad] with the text when the
    reader is done.  The state is the two [useState] variables and the
    readers that have been started and have not answered yet; the client
    of [onFileLoad] is a parameter.  A file is its name and what reading
    it as text gives ([None]: the reader's [onerror]). *)

From Stdlib Require Import String Ascii List ZArith Lia.
From stdpp Require Import base tactics option list.
From S2P Require Import Prelude.

#[local] Open Scope string_scope.
#[local] Open Scope list_scope.

Definition lower_char (c : ascii) : ascii :=
  let n := nat_of_ascii c in
  if Nat.leb 65 n && Nat.leb n 90 then ascii_of_nat (n + 32) else c.

(** [s.toLowerCase()] on ASCII names. *)
Fixpoint toLowerCase (s : string) : string :=
  match s with
  | EmptyString => EmptyString
  | String c s' => String (lower_char c) (toLowerCase s')
  end.

(** [s.endsWith(ext)]: some suffix of [s] is [ext]. *)
Fixpoint endsWith (s ext : string) : bool :=
  String.eqb s ext
  || match s with
     | EmptyString => false
     | String _ s' => endsWith s' ext
     end.

Definition validExtensions : list string := [".json"; ".yaml"; ".yml"].

(** [validExtensions.some(ext => file.name.toLowerCase().endsWith(ext))] *)
Definition hasValidExtension (name : string) : bool :=
  existsb (fun ext => endsWith (toLowerCase name) ext) validExtensions.

Record File : Type := mkFile {
  name : string;
  contents : option string;
}.

(** [isDragOver] and [error] of the component ([uploadError]: the name
    [error] is the type of exceptions), and the readers at work. *)
Record uploader : Type := mkUploader {
  isDragOver : bool;
  uploadError : option string;
  readers : list File;
}.

Definition mounted : uploader := mkUploader false None [].

Section handlers.
Context {Client : Type} (onFileLoad : string -> string -> Client -> Client).

(** [handleFile]: the error is cleared, then the extension decides. *)
Definition handleFile (file : File) (u : uploader) : uploader :=
  if negb (hasValidExtension (name file))
  then mkUploader (isDragOver u) (Some "Please upload a JSON or YAML file") (readers u)
  else mkUploader (isDragOver u) None (readers u ++ [file]).

(** [handleDrop]: the first of the dropped files, if any. *)
Definition handleDrop (files : list File) (u : uploader) : uploader :=
  let u := mkUploader false (uploadError u) (readers u) in
  match files with
  | file :: _ => handleFile file u
  | [] => u
  end.

(** [handleChange]: the first of the chosen files, if any. *)
Definition handleChange (files : option (list File)) (u : uploader) : uploader :=
  match files with
  | Some (file :: _) => handleFile file u
  | _ => u
  end.

Definition onDragOver (u : uploader) : uploader :=
  mkUploader true (uploadError u) (readers u).

Definition onDragLeave (u : uploader) : uploader :=
  mkUploader false (uploadError u) (readers u).

(** [reader.onload] and [reader.onerror] of one file. *)
Definition reader_done (file : File) (uc : uploader * Client) : uploader * Client :=
  match contents file with
  | Some content => (uc.1, onFileLoad content (name file) uc.2)
  | None => (mkUploader (isDragOver uc.1) (Some "Failed to read file") (readers uc.1), uc.2)
  end.

Inductive action : Type :=
| Drop (files : list File)
| Change (files : option (list File))
| DragOver
| DragLeave
| ReaderDone (i : nat).

(** Readers answer in any order: [ReaderDone i] is the answer of the
    [i]-th reader at work. *)
Definition act (uc : uploader * Client) (a : action) : uploader * Client :=
  let '(u, c) := uc in
  match a with
  | Drop files => (handleDrop files u, c)
  | Change files => (handleChange files u, c)
  | DragOver => (onDragOver u, c)
  | DragLeave => (onDragLeave u, c)
  | ReaderDone i =>
      match readers u !! i with
      | Some file =>
          reader_done file (mkUploader (isDragOver u) (uploadError u) (delete i (readers u)), c)
      | None => uc
      end
  end.

End handlers.

(** * Lemmas *)

Lemma endsWith_app p ext : endsWith (p ++ ext) ext = true.
Proof.
  induction p as [|c p IH]; simpl.
  - destruct ext; simpl; [done|]. by rewrite Ascii.eqb_refl, String.eqb_refl.
  - rewrite IH. apply orb_true_r.
Qed.

(** [endsWith s ext] holds exactly when [s] is some prefix followed
    by [ext]. *)
Theorem endsWith_spec s ext : endsWith s ext = true <-> exists p, s = (p ++ ext)%string.
Proof.
  split; [|intros [p ->]; apply endsWith_app].
  induction s as [|c s IH]; intros H.
  - destruct ext; [by exists EmptyString | done].
  - change (String.eqb (String c s) ext || endsWith s ext = true) in H.
    apply orb_prop in H as [Heq|H].
    + apply String.eqb_eq in Heq as <-. by exists EmptyString.
    + destruct (IH H) as [p ->]. by exists (String c p).
Qed.

Lemma handleFile_readers file u :
  readers (handleFile file u)
  = if hasValidExtension (name file) then readers u ++ [file] else readers u.
Proof. unfold handleFile. by destruct (hasValidExtension (name file)). Qed.

(** A file whose name does not end in [.json], [.yaml] or [.yml],
    whatever the case of its letters, is refused: no reader is started
    and the message asks for a JSON or YAML file. *)
Theorem handleFile_refuses file u :
  (forall ext, ext ∈ validExtensions -> ~ exists p, toLowerCase (name file) = (p ++ ext)%string) ->
  readers (handleFile file u) = readers u
  /\ uploadError (handleFile file u) = Some "Please upload a JSON or YAML file".
Proof.
  intros Hext. unfold handleFile.
  assert (hasValidExtension (name file) = false) as ->; [|done].
  apply not_true_is_false. unfold hasValidExtension.
  intros (ext & Hin & [p Hp]%endsWith_spec)%existsb_exists.
  apply (Hext ext); [by apply list_elem_of_In | by exists p].
Qed.

Lemma handleFile_refuses_witness :
  readers (handleFile (mkFile "notes.txt" (Some "text")) mounted) = readers mounted
  /\ uploadError (handleFile (mkFile "notes.txt" (Some "text")) mounted)
     = Some "Please upload a JSON or YAML file".
Proof.
  apply handleFile_refuses. intros ext Hin [p Hp]. simpl in Hp.
  assert (endsWith "notes.txt" ext = true) as He by (apply endsWith_spec; by exists p).
  unfold validExtensions in Hin. elem_of_cases Hin; discriminate He.
Defined.

(** ** Only accepted files reach the client *)

Section safety.
Context {Client : Type} (onFileLoad : string -> string -> Client -> Client).
Context (I : Client -> Prop).
Hypothesis Hload : forall content name c,
  hasValidExtension name = true -> I c -> I (onFileLoad content name c).

Definition accepted (u : uploader) : Prop :=
  Forall (fun file => hasValidExtension (name file) = true) (readers u).

Lemma handleFile_accepted file u : accepted u -> accepted (handleFile file u).
Proof.
  unfold accepted. rewrite handleFile_readers.
  destruct (hasValidExtension (name file)) eqn:E; [|done].
  intros H. apply Forall_app. split; [done | by apply Forall_singleton].
Qed.

Lemma act_safe uc a :
  accepted uc.1 /\ I uc.2 -> accepted (act onFileLoad uc a).1 /\ I (act onFileLoad uc a).2.
Proof.
  destruct uc as [u c], a as [[|file files]|[[|file files]|]| | |i]; simpl;
    intros [Hu Hc]; try (split; [done || by apply handleFile_accepted | done]).
  destruct (readers u !! i) as [file|] eqn:E; [|done].
  assert (hasValidExtension (name file) = true) as Hfile
    by (by apply (Forall_lookup_1 _ _ _ _ Hu E)).
  assert (accepted (mkUploader (isDragOver u) (uploadError u) (delete i (readers u)))) as Hd
    by (by apply Forall_delete).
  unfold reader_done. destruct (contents file); simpl; auto.
Qed.

(** C40: whatever the user does, the client of [onFileLoad] only ever sees
    files with a valid extension: a property of the client that every
    such call keeps holds after any sequence of actions. *)
Theorem client_sees_valid_files actions c :
  I c -> I (fold_left (act onFileLoad) actions (mounted, c)).2.
Proof.
  intros Hc.
  assert (accepted (mounted, c).1 /\ I (mounted, c).2) as H by (split; [constructor | done]).
  revert H. generalize (mounted, c). induction actions as [|a actions IH]; intros uc H;
    [apply H | apply IH, act_safe, H].
Qed.
End safety.

Lemma client_sees_valid_files_witness :
  Forall (fun call : string * string => hasValidExtension call.2 = true)
    (fold_left (act (fun content name calls => calls ++ [(content, name)]))
       [Drop [mkFile "notes.txt" (Some "text")];
        Change (Some [mkFile "API.JSON" (Some "{}")]);
        ReaderDone 0]
       (mounted, [])).2.
Proof.
  apply (client_sees_valid_files
           (fun content name calls => calls ++ [(content, name)])
           (Forall (fun call : string * string => hasValidExtension call.2 = true)));
    [|constructor].
  intros content name calls Hname Hcalls. apply Forall_app. split; [done|].
  by apply Forall_singleton.
Defined.
