(* ===== verification/View.v ===== *)
(** What is rendered: the markup of [StatsCard]
    ([src/src/components/StatsCard.tsx]), of [FileUploader]
    ([src/src/components/FileUploader.tsx], lines 55 to 114) and of
    [Index] ([src/src/pages/Index.tsx], lines 52 to 185).

    A component is a function from its props and state to what it
    shows.  What it shows is a record of the parts of the markup that
    depend on props or state: the texts and numbers in braces, the
    alternatives of a [? :] and the elements behind an [&&].  Class
    names and fixed texts are not part of it, except where markup and
    logic must agree (the [accept] attribute of the file input). *)

From Stdlib Require Import String Ascii List ZArith Lia.
From stdpp Require Import base tactics option list.
From S2P Require Import Prelude JsValue Fixtures Analyzer Pipeline Typing Table Dashboard Uploader.

#[local] Open Scope string_scope.
#[local] Open Scope list_scope.

(** The icons of lucide-react the three components use. *)
Inductive icon : Type :=
| FileJson | Layers | Hash | ArrowRightLeft | FileText | RefreshCw | Upload | AlertCircle.

(** ** StatsCard *)

(** [value: string | number] *)
Inductive content : Type :=
| Number (n : nat)
| Text (s : string).

(** [interface StatsCardProps]; [subtitle] and [delay] are optional. *)
Record StatsCardProps : Type := mkProps {
  cardTitle : string;
  value : content;
  subtitle : option string;
  cardIcon : icon;
  delay : option nat;
}.

Record card : Type := mkCard {
  cardDelay : string;
  titleShown : string;
  valueShown : content;
  subtitleShown : option string;
  iconShown : icon;
}.

(** [`${delay}ms`], with [delay = 0] when the prop is missing; the
    subtitle is rendered when it is truthy. *)
Definition StatsCard (props : StatsCardProps) : card :=
  mkCard (index_key (default 0 (delay props)) ++ "ms")%string
    (cardTitle props) (value props)
    (match subtitle props with
     | Some s => if String.eqb s EmptyString then None else Some s
     | None => None
     end)
    (cardIcon props).

(** ** FileUploader *)

Record picker : Type := mkPicker {
  highlighted : bool;
  inert : bool;
  accept : string;
  pickerIcon : icon;
  prompt : string;
  overlay : bool;
  alert : option string;
}.

(** The [return] of [FileUploader]: [isDragOver] chooses the border, the
    icon, the prompt and the overlay; [isLoading] makes the label ignore
    the pointer and disables the input; the error is shown when there is
    one. *)
Definition FileUploader (isLoading : option bool) (u : Uploader.uploader) : picker :=
  mkPicker (isDragOver u) (default false isLoading) ".json,.yaml,.yml"
    (if isDragOver u then FileJson else Upload)
    (if isDragOver u then "Drop your file here" else "Drop your OpenAPI file here")
    (isDragOver u)
    (match uploadError u with
     | Some e => if String.eqb e EmptyString then None else Some e
     | None => None
     end).

(** ** Index *)

(** The four cards of the stats grid. *)
Definition statsCards (analysis : OpenAPIAnalysis) : list card :=
  let a := Some analysis in
  [StatsCard (mkProps "Total Endpoints" (Number (totalEndpoints analysis)) None
                ArrowRightLeft (Some 0));
   StatsCard (mkProps "Total Request Fields" (Number (totalRequestFields a)) None
                Hash (Some 50));
   StatsCard (mkProps "Total Response Fields" (Number (totalResponseFields a)) None
                Hash (Some 100));
   StatsCard (mkProps "Max Nesting Depth"
                (Number (Nat.max (maxRequestDepth a) (maxResponseDepth a)))
                (Some ("Req: " ++ index_key (maxRequestDepth a)
                       ++ " / Res: " ++ index_key (maxResponseDepth a))%string)
                Layers (Some 150))].

(** The branch of [Index] without a report: the invitation, the picker
    and the two feature hints. *)
Record upload_view : Type := mkUploadView {
  invitation : string * string;
  filePicker : picker;
  hints : list (icon * string * string);
}.

(** The branch with a report: the title, the version and the file name
    of the heading, the cards, and the table under its heading. *)
Record report_view : Type := mkReportView {
  apiTitle : json;
  apiVersion : json;
  shownName : string;
  cards : list card;
  tableHeading : string;
  endpointTable : table;
}.

Inductive main_view : Type :=
| UploadView (u : upload_view)
| ReportView (r : report_view).

(** The page: the header with its "New File" button, the main part and
    the footer. *)
Record screen : Type := mkScreen {
  heading : string * string;
  newFileButton : option string;
  main : main_view;
  footer : string;
}.

(** The [return] of [Index], with the state of the [FileUploader] it
    renders. *)
Definition Index (s : Uploader.uploader * world) : screen :=
  mkScreen ("OpenAPI Analyzer", "Analyze request/response structure complexity")
    (match analysis (ui s.2) with Some _ => Some "New File" | None => None end)
    (match analysis (ui s.2) with
     | None =>
         UploadView
           (mkUploadView
              ("Upload your OpenAPI specification",
               "Get instant insights on field counts and nesting depth for each endpoint")
              (FileUploader (Some (isLoading (ui s.2))) s.1)
              [(Hash, "Field Count", "Count all fields in request and response schemas");
               (Layers, "Nesting Depth", "Measure data structure complexity levels")])
     | Some a =>
         ReportView
           (mkReportView (title a) (version a) (fileName (ui s.2))
              (statsCards a) "Endpoint Analysis" (AnalysisTable a))
     end)
    "Supports OpenAPI 2.0 (Swagger) and OpenAPI 3.x specifications".

(** The picker on the screen, if there is one. *)
Definition picker_of (v : screen) : option picker :=
  match main v with
  | UploadView u => Some (filePicker u)
  | ReportView _ => None
  end.

(** The page can be rendered: no value in braces is an object that
    React refuses as a child. *)
Definition row_renders (r : row) : bool :=
  from_option renderable true (guarded_value (summaryCell r)).

Definition renders (v : screen) : bool :=
  match main v with
  | UploadView _ => true
  | ReportView r =>
      renderable (apiTitle r) && renderable (apiVersion r)
      && forallb row_renders (rows (endpointTable r))
  end.

(** The numbers of a column of the table. *)
Definition column (i : nat) (t : table) : list nat :=
  (fun r => default 0 (numberCells r !! i)) <$> rows t.

(** * Lemmas *)

(** ** StatsCard *)

(** A card shows its subtitle exactly when it is given one that is not
    the empty string. *)
Lemma StatsCard_subtitle props s :
  subtitleShown (StatsCard props) = Some s <-> subtitle props = Some s /\ s <> EmptyString.
Proof.
  unfold StatsCard. simpl. destruct (subtitle props) as [s'|]; [|naive_solver].
  destruct (String.eqb_spec s' EmptyString); naive_solver.
Qed.

(** ** The cards and the table *)

Lemma column_tableRows i (a : OpenAPIAnalysis) (f : EndpointAnalysis -> nat) :
  (forall k e, numberCells (tableRow k e) !! i = Some (f e)) ->
  column i (AnalysisTable a) = f <$> endpoints a.
Proof.
  intros Hf. unfold column, AnalysisTable, tableRows. simpl.
  apply list_eq. intros k. rewrite !list_lookup_fmap, list_lookup_imap.
  destruct (endpoints a !! k) as [e|]; [|done].
  pose proof (Hf k e) as He. simpl in *. by rewrite He.
Qed.

Lemma requestDepth_column a : maxRequestDepth (Some a) = max_list (column 1 (AnalysisTable a)).
Proof. by rewrite maxRequestDepth_max, (column_tableRows 1 a (fun e => maxDepth (request e))). Qed.

Lemma responseDepth_column a : maxResponseDepth (Some a) = max_list (column 3 (AnalysisTable a)).
Proof. by rewrite maxResponseDepth_max, (column_tableRows 3 a (fun e => maxDepth (response e))). Qed.

Lemma requestFields_column a :
  totalRequestFields (Some a) = sum_list (column 0 (AnalysisTable a)).
Proof.
  unfold totalRequestFields. by rewrite fold_left_sum,
    (column_tableRows 0 a (fun e => fieldCount (request e))).
Qed.

Lemma responseFields_column a :
  totalResponseFields (Some a) = sum_list (column 2 (AnalysisTable a)).
Proof.
  unfold totalResponseFields. by rewrite fold_left_sum,
    (column_tableRows 2 a (fun e => fieldCount (response e))).
Qed.

(** C34: the cards of a report of [parseOpenAPI] show the figures of the
    table under them: the number of its rows, the sums of its two field
    columns, the maximum of its two depth columns, and under that
    maximum the maxima of the request and of the response depths; only
    the last card has a subtitle. *)
Theorem cards_show_table spec report :
  analyze_document spec = Ok report ->
  let t := AnalysisTable report in
  statsCards report
  = [mkCard "0ms" "Total Endpoints" (Number (length (rows t))) None ArrowRightLeft;
     mkCard "50ms" "Total Request Fields" (Number (sum_list (column 0 t))) None Hash;
     mkCard "100ms" "Total Response Fields" (Number (sum_list (column 2 t))) None Hash;
     mkCard "150ms" "Max Nesting Depth" (Number (max_list (column 1 t ++ column 3 t)))
       (Some ("Req: " ++ index_key (max_list (column 1 t))
              ++ " / Res: " ++ index_key (max_list (column 3 t)))%string) Layers].
Proof.
  intros Hreport t. unfold statsCards, StatsCard. simpl.
  rewrite (totalEndpoints_length spec report Hreport), max_list_app.
  rewrite requestDepth_column, responseDepth_column, requestFields_column,
    responseFields_column.
  unfold t, AnalysisTable, tableRows. simpl. by rewrite length_imap.
Qed.

Lemma cards_show_table_witness :
  statsCards items_report
  = [mkCard "0ms" "Total Endpoints" (Number 2) None ArrowRightLeft;
     mkCard "50ms" "Total Request Fields" (Number 2) None Hash;
     mkCard "100ms" "Total Response Fields" (Number 2) None Hash;
     mkCard "150ms" "Max Nesting Depth" (Number 2) (Some "Req: 1 / Res: 2") Layers].
Proof. apply (cards_show_table (Some items_doc)). by vm_compute. Defined.

(** ** The picker *)

(** The extensions the file dialog offers are those [handleFile]
    accepts. *)
Lemma accept_validExtensions isLoading u :
  accept (FileUploader isLoading u) = String.concat "," validExtensions.
Proof. reflexivity. Qed.

(** ** The page *)

(** The page shows the picker or the report, never both, and the "New
    File" button with the report. *)
Lemma Index_main s :
  match analysis (ui s.2) with
  | None => picker_of (Index s) = Some (FileUploader (Some (isLoading (ui s.2))) s.1)
            /\ newFileButton (Index s) = None
  | Some a => picker_of (Index s) = None /\ newFileButton (Index s) = Some "New File"
  end.
Proof. unfold Index, picker_of. simpl. by destruct (analysis (ui s.2)). Qed.
