(* ===== verification/App.v ===== *)
(** The page with its file picker: [Index] renders [FileUploader] with
    [handleFileLoad] as its [onFileLoad]
    ([src/src/pages/Index.tsx], line 100).

    An event of the application is an action on the picker or an event of
    the page.  The events are not restricted by what is on the screen:
    every sequence the browser can produce is a sequence of the model. *)

From Stdlib Require Import String Ascii List ZArith Lia.
From stdpp Require Import base tactics option list.
From S2P Require Import Prelude JsValue Fixtures Analyzer Pipeline Dashboard Uploader.

#[local] Open Scope string_scope.
#[local] Open Scope list_scope.

Section app.
Context `{Decoder}.

Inductive app_event : Type :=
| Picker (a : action)
| Page (e : event).

(** [<FileUploader onFileLoad={handleFileLoad} isLoading={isLoading} />] *)
Definition app_step (s : uploader * world) (e : app_event) : uploader * world :=
  match e with
  | Picker a => act handleFileLoad s a
  | Page e => (s.1, step s.2 e)
  end.

Definition app_run (events : list app_event) : uploader * world :=
  fold_left app_step events (mounted, initial).

(** The name on the page is empty or the name of an accepted file. *)
Definition name_ok (w : world) : Prop :=
  fileName (ui w) = EmptyString \/ hasValidExtension (fileName (ui w)) = true.

Lemma handleFileLoad_name_ok content name w :
  hasValidExtension name = true -> name_ok w -> name_ok (handleFileLoad content name w).
Proof. intros Hname _. by right. Qed.

Lemma step_name_ok w e :
  (forall content name, e <> FileLoaded content name) -> name_ok w -> name_ok (step w e).
Proof.
  destruct e as [content name| |]; intros He Hw; [by destruct (He content name) | | by left].
  simpl. destruct (timers w) as [|content rest]; [done|].
  unfold timer_callback. by destruct (parseOpenAPI content).
Qed.

Lemma app_step_ok s e :
  (forall content name, e <> Page (FileLoaded content name)) ->
  accepted s.1 /\ name_ok s.2 -> accepted (app_step s e).1 /\ name_ok (app_step s e).2.
Proof.
  destruct e as [a|e]; intros He Hs.
  - apply (act_safe handleFileLoad name_ok); [apply handleFileLoad_name_ok | done].
  - split; [apply Hs | apply step_name_ok; [|apply Hs]]. intros ?? ->. by eapply He.
Qed.

Lemma app_run_ok events :
  Forall (fun e => forall content name, e <> Page (FileLoaded content name)) events ->
  accepted (app_run events).1 /\ name_ok (app_run events).2.
Proof.
  unfold app_run.
  assert (accepted (mounted, initial).1 /\ name_ok (mounted, initial).2) as Hinit
    by (split; [constructor | by left]).
  revert Hinit. generalize (mounted, initial).
  induction events as [|e events IH]; intros s Hs Hev; [apply Hs|].
  apply Forall_cons in Hev as [He Hev]. by apply IH, Hev; apply app_step_ok.
Qed.

(** When files reach the page through the picker only, the file name
    on the page is always empty or the name of a file with a valid
    extension, whatever the user drops, chooses and resets and in
    whatever order readers and timers answer. *)
Theorem shown_name_has_valid_extension events :
  Forall (fun e => forall content name, e <> Page (FileLoaded content name)) events ->
  name_ok (app_run events).2.
Proof. intros Hev. by apply app_run_ok. Qed.

(** ** The application refines the page

    An action on the picker is no event of the page or one call of
    [handleFileLoad]: the page of the application goes through a run of
    [Dashboard], and every invariant of [Dashboard] holds of it. *)

Lemma act_page (u : uploader) w a :
  exists es, (act handleFileLoad (u, w) a).2 = run_from w es.
Proof.
  destruct a as [files|files| | |i]; try (by exists []). simpl.
  destruct (readers u !! i) as [file|]; [|by exists []].
  unfold reader_done. destruct (contents file) as [content|]; [|by exists []].
  by exists [FileLoaded content (name file)].
Qed.

Lemma app_step_page s e : exists es, (app_step s e).2 = run_from s.2 es.
Proof. destruct s as [u w], e as [a|e]; [apply act_page | by exists [e]]. Qed.

Lemma app_run_page events : exists es, (app_run events).2 = run es.
Proof.
  induction events as [|e events [es IH]] using rev_ind; [by exists []|].
  unfold app_run. rewrite fold_left_app. fold (app_run events). simpl.
  destruct (app_step_page (app_run events) e) as [es' ->]. exists (es ++ es').
  rewrite IH. unfold run, run_from. by rewrite fold_left_app.
Qed.
End app.

Lemma shown_name_has_valid_extension_witness :
  name_ok (@app_run table_decoder
             [Picker (Drop [mkFile "items.JSON" (Some "items.json")]);
              Picker (ReaderDone 0); Page TimerFired]).2.
Proof.
  apply shown_name_has_valid_extension. repeat constructor; discriminate.
Defined.

(** The run of the witness ends on the report of [items_doc] under the
    name of the file. *)
Example app_run_items :
  let s := @app_run table_decoder
             [Picker (Drop [mkFile "items.JSON" (Some "items.json")]);
              Picker (ReaderDone 0); Page TimerFired] in
  analysis (ui s.2) = Some items_report /\ fileName (ui s.2) = "items.JSON"
  /\ isLoading (ui s.2) = false /\ readers s.1 = [].
Proof. by vm_compute. Qed.
