(* ===== verification/Screen.v ===== *)
(** What is on the screen: the events the rendered page lets happen.

    [Index] shows the picker while there is no report
    ([src/src/pages/Index.tsx], line 88) and the reset button while there
    is one (line 72); the picker ignores the pointer and disables its
    input while a file is loading
    ([src/src/components/FileUploader.tsx], lines 63 and 74).  The guard
    of an event reads these conditions off what [View.Index] renders:
    the user can act on a picker that is rendered and not inert and on
    a button that is rendered ([offered]); readers and timers answer
    whatever is shown ([due]).

    A picker that leaves the screen loses its state, and a new one starts
    from [mounted].  The readers it has started go on: the [onload] of
    such a reader still calls [handleFileLoad], its [onerror] sets the
    state of a component that is gone, which does nothing.

    [reachable] is the set of states the application can be in; its
    invariants are proved by induction on the rules. *)

From Stdlib Require Import String Ascii List ZArith Lia.
From stdpp Require Import base tactics option list.
From S2P Require Import Prelude JsValue Fixtures Analyzer Pipeline Table Dashboard Uploader View App.

#[local] Open Scope string_scope.
#[local] Open Scope list_scope.

Section screen.
Context `{Decoder}.

(** [{!analysis ? <FileUploader .../> : ...}] *)
Definition picker_shown (w : world) : bool :=
  match analysis (ui w) with Some _ => false | None => true end.

(** What the user can do on the screen [v]: act on a picker that is
    shown and not inert, click a "New File" button that is shown. *)
Definition offered (v : screen) (e : app_event) : bool :=
  match e with
  | Picker (ReaderDone _) | Page TimerFired | Page (FileLoaded _ _) => false
  | Picker _ =>
      match picker_of v with
      | Some p => negb (inert p)
      | None => false
      end
  | Page ResetClicked =>
      match newFileButton v with Some _ => true | None => false end
  end.

(** What the browser owes in state [s]: the answer of a reader at work,
    the callback of a pending timer. *)
Definition due (s : uploader * world) (e : app_event) : bool :=
  match e with
  | Picker (ReaderDone i) => Nat.ltb i (length (readers s.1))
  | Page TimerFired =>
      match timers s.2 with [] => false | _ :: _ => true end
  | _ => false
  end.

(** The events that can happen in state [s]: those the page [Index]
    renders in [s] offers, and those the browser owes. *)
Definition enabled (s : uploader * world) (e : app_event) : Prop :=
  offered (Index s) e = true \/ due s e = true.

(** A reader that will call [onload]. *)
Definition readable (file : File) : bool :=
  match contents file with Some _ => true | None => false end.

(** A picker that is not on the screen has no state: when it comes back
    it is a new component.  Of the readers of the old one, those that
    end in [onerror] have no effect any more. *)
Definition unmount (s : uploader * world) : uploader * world :=
  if picker_shown s.2 then s
  else (mkUploader false None (filter (fun file => readable file = true) (readers s.1)), s.2).

Definition screen_step (s : uploader * world) (e : app_event) : uploader * world :=
  unmount (app_step s e).

Inductive reachable : uploader * world -> Prop :=
| reachable_initial : reachable (mounted, initial)
| reachable_step s e : reachable s -> enabled s e -> reachable (screen_step s e).

(** * Lemmas *)

Lemma picker_shown_view s :
  picker_of (Index s)
  = if picker_shown s.2 then Some (FileUploader (Some (isLoading (ui s.2))) s.1) else None.
Proof. unfold picker_of, picker_shown, Index. simpl. by destruct (analysis _). Qed.

Lemma newFileButton_view s :
  newFileButton (Index s) = if picker_shown s.2 then None else Some "New File".
Proof. unfold picker_shown, Index. simpl. by destruct (analysis _). Qed.

Lemma offered_enabled s e : offered (Index s) e = true -> enabled s e.
Proof. by left. Qed.

Lemma due_enabled s e : due s e = true -> enabled s e.
Proof. by right. Qed.

(** The guards, spelled out on the state. *)
Lemma enabled_picker s a :
  (forall i, a <> ReaderDone i) ->
  enabled s (Picker a) <-> picker_shown s.2 = true /\ isLoading (ui s.2) = false.
Proof.
  intros Ha. unfold enabled, offered, due. rewrite picker_shown_view.
  destruct a as [| | | |i]; try (by destruct (Ha i));
    destruct (picker_shown s.2); simpl; rewrite ?negb_true_iff; naive_solver.
Qed.

Lemma enabled_reader s i : enabled s (Picker (ReaderDone i)) <-> i < length (readers s.1).
Proof. unfold enabled. simpl. rewrite Nat.ltb_lt. naive_solver. Qed.

Lemma enabled_timer s : enabled s (Page TimerFired) <-> timers s.2 <> [].
Proof. unfold enabled. simpl. destruct (timers s.2); naive_solver. Qed.

Lemma enabled_reset s : enabled s (Page ResetClicked) <-> picker_shown s.2 = false.
Proof.
  unfold enabled, offered. rewrite newFileButton_view. simpl.
  destruct (picker_shown s.2); naive_solver.
Qed.

(** No page calls [handleFileLoad] by itself. *)
Lemma enabled_not_loaded s content name : ~ enabled s (Page (FileLoaded content name)).
Proof. by intros [?|?]. Qed.

Lemma unmount_world s : (unmount s).2 = s.2.
Proof. unfold unmount. by destruct (picker_shown s.2). Qed.

Lemma unmount_accepted s : accepted s.1 -> accepted (unmount s).1.
Proof.
  unfold unmount, accepted. destruct (picker_shown s.2); [done|]. simpl.
  rewrite !Forall_forall. intros Hs file [_ Hf]%list_elem_of_filter. by apply Hs.
Qed.

(** Every reader at work is for a file of a valid name, and so is the
    name on the page. *)
Lemma reachable_accepted s : reachable s -> accepted s.1 /\ name_ok s.2.
Proof.
  induction 1 as [|s e _ IH He]; [split; [constructor | by left]|].
  unfold screen_step. rewrite unmount_world.
  destruct (app_step_ok s e) as [Hu Hw]; [|done|by split; [apply unmount_accepted|]].
  intros content name ->. by eapply enabled_not_loaded.
Qed.

(** The page of a reachable state is the page of a run of [Dashboard]. *)
Lemma reachable_page s : reachable s -> exists es, s.2 = run es.
Proof.
  induction 1 as [|s e _ [es IH] _]; [by exists []|].
  unfold screen_step. rewrite unmount_world.
  destruct (app_step_page s e) as [es' ->]. exists (es ++ es').
  rewrite IH. unfold run, run_from. by rewrite fold_left_app.
Qed.

(** C39: on every screen the application can reach, the file name shown is
    empty or has a valid extension, and a loading flag that is on has a
    timer pending. *)
Theorem reachable_invariant s :
  reachable s ->
  name_ok s.2 /\ (isLoading (ui s.2) = true -> timers s.2 <> []).
Proof.
  intros Hs. split; [by apply reachable_accepted|].
  destruct (reachable_page s Hs) as [es ->]. apply loading_has_pending_timer.
Qed.

(** ** The picker on the screen *)

(** A picker that comes back to the screen is a new one. *)
Lemma reachable_unmounted s :
  reachable s -> picker_shown s.2 = false -> isDragOver s.1 = false /\ uploadError s.1 = None.
Proof.
  destruct 1 as [|s e _ _]; [done|]. unfold screen_step, unmount.
  destruct (picker_shown (app_step s e).2) eqn:E; simpl; [by rewrite E | done].
Qed.

(** C33: the screen after "New File": a picker without highlight and without
    an error message, which is inert when a file is still loading. *)
Theorem new_file_shows_fresh_picker s :
  reachable s -> enabled s (Page ResetClicked) ->
  picker_of (Index (screen_step s (Page ResetClicked)))
  = Some (mkPicker false (isLoading (ui s.2)) ".json,.yaml,.yml" Upload
            "Drop your OpenAPI file here" false None).
Proof.
  intros Hs Hshown%enabled_reset.
  destruct (reachable_unmounted s Hs Hshown) as [Hd He].
  rewrite picker_shown_view. unfold screen_step, unmount, FileUploader. simpl.
  by rewrite Hd, He.
Qed.

(** A path of enabled events. *)
Fixpoint all_enabled (s : uploader * world) (events : list app_event) : Prop :=
  match events with
  | [] => True
  | e :: events => enabled s e /\ all_enabled (screen_step s e) events
  end.

Lemma reachable_path events s :
  reachable s -> all_enabled s events -> reachable (fold_left screen_step events s).
Proof.
  revert s; induction events as [|e events IH]; intros s Hs; [done|].
  intros [He Hes]. apply IH; [by apply reachable_step | done].
Qed.

(** Two files chosen before either is read, and then both read: the
    page is loading under the name of the second, with two timers
    pending. *)
Definition both_loading (fileA fileB : File) (contentA contentB : string) : uploader * world :=
  (mounted, handleFileLoad contentB (name fileB) (handleFileLoad contentA (name fileA) initial)).

(** A file of a valid name dropped on the picker starts a reader. *)
Lemma step_drop u w file :
  picker_shown w = true -> hasValidExtension (name file) = true ->
  screen_step (u, w) (Picker (Drop [file])) = (mkUploader false None (readers u ++ [file]), w).
Proof.
  intros Hw Hname. unfold screen_step, unmount. cbn -[hasValidExtension].
  unfold handleFile. cbn -[hasValidExtension]. by rewrite Hname, Hw.
Qed.

(** A reader that has read its file hands the text to the page. *)
Lemma step_read u w file content i :
  picker_shown w = true -> readers u !! i = Some file -> contents file = Some content ->
  screen_step (u, w) (Picker (ReaderDone i))
  = (mkUploader (isDragOver u) (uploadError u) (delete i (readers u)),
     handleFileLoad content (name file) w).
Proof.
  intros Hw Hi Hcontent. unfold screen_step, unmount. cbn. rewrite Hi.
  unfold reader_done. rewrite Hcontent. cbn. unfold picker_shown in *. cbn. by rewrite Hw.
Qed.

Lemma both_loading_run fileA fileB contentA contentB :
  hasValidExtension (name fileA) = true -> hasValidExtension (name fileB) = true ->
  contents fileA = Some contentA -> contents fileB = Some contentB ->
  fold_left screen_step
    [Picker (Drop [fileA]); Picker (Drop [fileB]); Picker (ReaderDone 0); Picker (ReaderDone 0)]
    (mounted, initial)
  = both_loading fileA fileB contentA contentB
  /\ all_enabled (mounted, initial)
       [Picker (Drop [fileA]); Picker (Drop [fileB]); Picker (ReaderDone 0); Picker (ReaderDone 0)].
Proof.
  intros HA HB HcA HcB. cbn [fold_left all_enabled].
  rewrite (step_drop _ _ fileA) by done. cbn [readers mounted app].
  rewrite (step_drop _ _ fileB) by done. cbn [readers app].
  rewrite (step_read _ _ fileA contentA) by done. cbn [readers delete list_delete].
  rewrite (step_read _ _ fileB contentB) by done.
  repeat split; first [by apply offered_enabled | by apply due_enabled].
Qed.

Lemma both_loading_reachable fileA fileB contentA contentB :
  hasValidExtension (name fileA) = true -> hasValidExtension (name fileB) = true ->
  contents fileA = Some contentA -> contents fileB = Some contentB ->
  reachable (both_loading fileA fileB contentA contentB).
Proof.
  intros HA HB HcA HcB.
  destruct (both_loading_run fileA fileB contentA contentB) as [<- Hen]; [done..|].
  by apply reachable_path; [apply reachable_initial|].
Qed.

(** The first timer fires: the report of the first file, the name of
    the second. *)
Lemma first_timer_fires fileA fileB contentA contentB report :
  parseOpenAPI contentA = Ok report ->
  screen_step (both_loading fileA fileB contentA contentB) (Page TimerFired)
  = (mounted,
     mkWorld (mkPage (Some report) (name fileB) false) [contentB]
       [AnalysisComplete (totalEndpoints report) (title report)]).
Proof. intros Hp. unfold screen_step. cbn. unfold timer_callback. by rewrite Hp. Qed.

(** C38: the stale name can be reached through the screen: two files
    chosen before either is read, the first of which parses, lead to the
    report of the first file under the name of the second. *)
Theorem stale_name_reachable fileA fileB contentA contentB report :
  hasValidExtension (name fileA) = true -> hasValidExtension (name fileB) = true ->
  contents fileA = Some contentA -> contents fileB = Some contentB ->
  parseOpenAPI contentA = Ok report ->
  exists s, reachable s /\ analysis (ui s.2) = Some report
            /\ fileName (ui s.2) = name fileB /\ timers s.2 = [contentB].
Proof.
  intros HA HB HcA HcB Hp.
  exists (screen_step (both_loading fileA fileB contentA contentB) (Page TimerFired)).
  split; [|by rewrite (first_timer_fires _ _ _ _ report)].
  apply reachable_step; [by apply both_loading_reachable | by apply due_enabled].
Qed.

(** C35: a reset does not cancel what is pending: with two files chosen
    before either is read, "New File" clicked on the report of the first
    is followed by the report of the second, shown under an empty file
    name. *)
Theorem report_after_reset_reachable fileA fileB contentA contentB reportA reportB :
  hasValidExtension (name fileA) = true -> hasValidExtension (name fileB) = true ->
  contents fileA = Some contentA -> contents fileB = Some contentB ->
  parseOpenAPI contentA = Ok reportA -> parseOpenAPI contentB = Ok reportB ->
  exists s, reachable s /\ analysis (ui s.2) = Some reportB
            /\ fileName (ui s.2) = EmptyString /\ timers s.2 = [].
Proof.
  intros HA HB HcA HcB HpA HpB.
  exists (fold_left screen_step [Page TimerFired; Page ResetClicked; Page TimerFired]
            (both_loading fileA fileB contentA contentB)).
  split.
  - apply reachable_path; [by apply both_loading_reachable|].
    cbn [all_enabled]. rewrite (first_timer_fires _ _ _ _ reportA) by done.
    repeat split; first [by apply offered_enabled | by apply due_enabled].
  - cbn [fold_left]. rewrite (first_timer_fires _ _ _ _ reportA) by done.
    unfold screen_step. cbn. unfold timer_callback. by rewrite HpB.
Qed.
End screen.

(** A file has been dropped and read: its name is on the page, which
    is loading, and the timer of [handleFileLoad] is pending. *)
Lemma reachable_invariant_witness :
  name_ok (fold_left (@screen_step table_decoder)
             [Picker (Drop [mkFile "items.json" (Some "items.json")]); Picker (ReaderDone 0)]
             (mounted, initial)).2
  /\ (isLoading (ui (fold_left (@screen_step table_decoder)
                       [Picker (Drop [mkFile "items.json" (Some "items.json")]);
                        Picker (ReaderDone 0)] (mounted, initial)).2) = true ->
      timers (fold_left (@screen_step table_decoder)
                [Picker (Drop [mkFile "items.json" (Some "items.json")]); Picker (ReaderDone 0)]
                (mounted, initial)).2 <> []).
Proof.
  apply (reachable_invariant (H := table_decoder)).
  apply reachable_path; [apply reachable_initial|].
  repeat split; first [apply offered_enabled; reflexivity | apply due_enabled; reflexivity].
Defined.

Lemma stale_name_reachable_witness :
  exists s, @reachable table_decoder s /\ analysis (ui s.2) = Some items_report
            /\ fileName (ui s.2) = "broken.yaml" /\ timers s.2 = ["openapi: ["].
Proof.
  apply (stale_name_reachable (mkFile "items.json" (Some "items.json"))
           (mkFile "broken.yaml" (Some "openapi: [")) "items.json" "openapi: [" items_report);
    reflexivity.
Defined.

(** Two files are dropped; the first is read and analysed, and then the
    second is read: the report of the first, the second loading. *)
Definition second_loading : uploader * world :=
  fold_left (@screen_step table_decoder)
    [Picker (Drop [mkFile "items.json" (Some "items.json")]);
     Picker (Drop [mkFile "broken.yaml" (Some "openapi: [")]);
     Picker (ReaderDone 0); Page TimerFired; Picker (ReaderDone 0)]
    (mounted, initial).

(** "New File" while the second file is still loading: the picker
    comes back inert. *)
Lemma new_file_shows_fresh_picker_witness :
  picker_of (Index (@screen_step table_decoder second_loading (Page ResetClicked)))
  = Some (mkPicker false true ".json,.yaml,.yml" Upload "Drop your OpenAPI file here" false None).
Proof.
  apply (new_file_shows_fresh_picker (H := table_decoder) second_loading);
    [|by apply offered_enabled].
  apply reachable_path; [apply reachable_initial|].
  repeat split; first [apply offered_enabled; reflexivity | apply due_enabled; reflexivity].
Defined.

Lemma report_after_reset_reachable_witness :
  exists s, @reachable table_decoder s /\ analysis (ui s.2) = Some items_report
            /\ fileName (ui s.2) = EmptyString /\ timers s.2 = [].
Proof.
  apply (report_after_reset_reachable (mkFile "a.json" (Some "items.json"))
           (mkFile "b.json" (Some "items.json")) "items.json" "items.json"
           items_report items_report); reflexivity.
Defined.
