(* ===== verification/Journey.v ===== *)
(** A file from the picker to the screen.

    The three events of a successful upload (the file is dropped, its
    reader answers, the timer of [handleFileLoad] fires) are followed
    through [FileUploader], [Index] and [parseOpenAPI] to what the page
    renders at the end: the report with its cards and its table for a
    document [parseOpenAPI] accepts, the picker and an error toast for
    one it rejects, the picker with its own message for a file whose
    name it refuses. *)

From Stdlib Require Import String Ascii List ZArith Lia.
From stdpp Require Import base tactics option list.
From S2P Require Import Prelude JsValue Fixtures Analyzer Pipeline Typing Table Dashboard Uploader View App Screen.

#[local] Open Scope string_scope.
#[local] Open Scope list_scope.

(** A decoder that reads every text as [object_title_doc]. *)
Definition title_decoder : Decoder := {|
  JSON_parse _ := Some object_title_doc;
  yaml_load _ := None;
|}.

Section journey.
Context `{Decoder}.

(** The events of one upload. *)
Definition upload (file : File) : list app_event :=
  [Picker (Drop [file]); Picker (ReaderDone 0); Page TimerFired].

Definition after (events : list app_event) : uploader * world :=
  fold_left screen_step events (mounted, initial).

(** The page once the callback of the timer has run on [content]. *)
Definition answered (file : File) (content : string) : world :=
  timer_callback content (mkWorld (mkPage None (name file) true) [] []).

(** * Lemmas *)

Lemma after_upload file content :
  hasValidExtension (name file) = true -> contents file = Some content ->
  after (upload file) = unmount (mounted, answered file content)
  /\ all_enabled (mounted, initial) (upload file).
Proof.
  intros Hname Hcontent. unfold after, upload, all_enabled, fold_left.
  rewrite (step_drop _ _ file) by done. cbn [readers mounted app].
  rewrite (step_read _ _ file content) by done. cbn [readers delete list_delete].
  split; [done|]. repeat split; first [by apply offered_enabled | by apply due_enabled].
Qed.

Lemma reachable_after_upload file content :
  hasValidExtension (name file) = true -> contents file = Some content ->
  reachable (after (upload file)).
Proof.
  intros Hname Hcontent. apply reachable_path; [apply reachable_initial|].
  by apply (after_upload file content).
Qed.

(** C32: a file with a valid name that holds a document [parseOpenAPI]
    accepts ends on the report: the page the three events of its upload
    lead to shows the title and the version of the report under the name
    of the file, its four cards and its table, with the "New File"
    button, and one toast announces the number of endpoints. *)
Theorem upload_shows_report file content report :
  hasValidExtension (name file) = true -> contents file = Some content ->
  parseOpenAPI content = Ok report ->
  reachable (after (upload file))
  /\ newFileButton (Index (after (upload file))) = Some "New File"
  /\ main (Index (after (upload file)))
     = ReportView (mkReportView (title report) (version report) (name file)
                     (statsCards report) "Endpoint Analysis" (AnalysisTable report))
  /\ toasts (after (upload file)).2
     = [AnalysisComplete (totalEndpoints report) (title report)].
Proof.
  intros Hname Hcontent Hreport. split; [by eapply reachable_after_upload|].
  destruct (after_upload file content Hname Hcontent) as [-> _].
  unfold answered, timer_callback. by rewrite Hreport.
Qed.

(** C27: a file with a valid name that [parseOpenAPI] rejects ends on the
    picker, which is active again and shows no message of its own: the
    error is in the toast. *)
Theorem upload_shows_error file content e :
  hasValidExtension (name file) = true -> contents file = Some content ->
  parseOpenAPI content = Err e ->
  reachable (after (upload file))
  /\ picker_of (Index (after (upload file))) = Some (FileUploader (Some false) mounted)
  /\ toasts (after (upload file)).2 = [ParseError e].
Proof.
  intros Hname Hcontent Herr. split; [by eapply reachable_after_upload|].
  destruct (after_upload file content Hname Hcontent) as [-> _].
  unfold answered, timer_callback. by rewrite Herr.
Qed.

(** A file whose reader fails goes nowhere either: the picker shows
    the message of the reader. *)
Theorem unreadable_file_shows_alert file :
  hasValidExtension (name file) = true -> contents file = None ->
  alert <$> picker_of (Index (after [Picker (Drop [file]); Picker (ReaderDone 0)]))
  = Some (Some "Failed to read file")
  /\ (after [Picker (Drop [file]); Picker (ReaderDone 0)]).2 = initial.
Proof.
  intros Hname Hcontent. unfold after, fold_left.
  rewrite (step_drop _ _ file) by done.
  unfold screen_step. cbn. unfold reader_done. by rewrite Hcontent.
Qed.

(** A document whose title is an object is accepted, and the page its
    upload leads to cannot be rendered. *)
Theorem object_title_takes_page_down file content :
  hasValidExtension (name file) = true -> contents file = Some content ->
  decode content = Ok (Some object_title_doc) ->
  reachable (after (upload file)) /\ renders (Index (after (upload file))) = false.
Proof.
  intros Hname Hcontent Hdecode. split; [by eapply reachable_after_upload|].
  destruct (after_upload file content Hname Hcontent) as [-> _].
  unfold answered, timer_callback, parseOpenAPI. by rewrite Hdecode.
Qed.

(** A file whose name is refused goes nowhere: the picker shows its
    message and the page has not heard of the file. *)
Theorem refused_file_shows_alert file :
  hasValidExtension (name file) = false ->
  alert <$> picker_of (Index (after [Picker (Drop [file])]))
  = Some (Some "Please upload a JSON or YAML file")
  /\ (after [Picker (Drop [file])]).2 = initial.
Proof.
  intros Hname. unfold after. cbn -[hasValidExtension].
  unfold screen_step. cbn -[hasValidExtension]. unfold handleFile. by rewrite Hname.
Qed.
End journey.

Lemma upload_shows_report_witness :
  @reachable table_decoder (@after table_decoder (upload (mkFile "api.json" (Some "items.json"))))
  /\ newFileButton (Index (@after table_decoder (upload (mkFile "api.json" (Some "items.json")))))
     = Some "New File"
  /\ main (Index (@after table_decoder (upload (mkFile "api.json" (Some "items.json")))))
     = ReportView (mkReportView (JStr "Untitled API") (JStr "N/A") "api.json"
                     (statsCards items_report) "Endpoint Analysis" (AnalysisTable items_report))
  /\ toasts (@after table_decoder (upload (mkFile "api.json" (Some "items.json")))).2
     = [AnalysisComplete 2 (JStr "Untitled API")].
Proof.
  apply (upload_shows_report (H := table_decoder) (mkFile "api.json" (Some "items.json"))
           "items.json" items_report); [reflexivity | reflexivity | by vm_compute].
Defined.

Lemma upload_shows_error_witness :
  @reachable table_decoder (@after table_decoder (upload (mkFile "a.yml" (Some "{}"))))
  /\ picker_of (Index (@after table_decoder (upload (mkFile "a.yml" (Some "{}")))))
     = Some (FileUploader (Some false) mounted)
  /\ toasts (@after table_decoder (upload (mkFile "a.yml" (Some "{}")))).2
     = [ParseError InvalidSpec].
Proof.
  apply (upload_shows_error (H := table_decoder) (mkFile "a.yml" (Some "{}")) "{}" InvalidSpec);
    reflexivity.
Defined.

Lemma refused_file_shows_alert_witness :
  alert <$> picker_of (Index (@after table_decoder [Picker (Drop [mkFile "notes.txt" None])]))
  = Some (Some "Please upload a JSON or YAML file")
  /\ (@after table_decoder [Picker (Drop [mkFile "notes.txt" None])]).2 = initial.
Proof. apply (refused_file_shows_alert (H := table_decoder)). reflexivity. Defined.

Lemma unreadable_file_shows_alert_witness :
  alert <$> picker_of (Index (@after table_decoder
              [Picker (Drop [mkFile "api.json" None]); Picker (ReaderDone 0)]))
  = Some (Some "Failed to read file")
  /\ (@after table_decoder [Picker (Drop [mkFile "api.json" None]); Picker (ReaderDone 0)]).2
     = initial.
Proof. apply (unreadable_file_shows_alert (H := table_decoder)); reflexivity. Defined.

Lemma object_title_takes_page_down_witness :
  @reachable title_decoder (@after title_decoder (upload (mkFile "api.json" (Some "{}"))))
  /\ renders (Index (@after title_decoder (upload (mkFile "api.json" (Some "{}"))))) = false.
Proof.
  apply (object_title_takes_page_down (H := title_decoder) (mkFile "api.json" (Some "{}")) "{}");
    reflexivity.
Defined.
